(** * MLmacro: minimap calibration and template matching

    A shallow embedding of [src/modules/capture.py] (the capture loop that
    calibrates the minimap and tracks the player marker) and of
    [src/template_matcher.py] (the template library and the matcher), with
    the properties of the specification stated over it; and of the parts
    of [src/modules/bot.py], [src/window_detector.py],
    [src/common/vkeys.py], [src/pyqt_template_manager.py] and
    [src/main_gui.py] that decide something, with properties read off
    the code.

    Conventions.
    - Python integers are [Z]; Python floats (confidences, thresholds,
      ratios) are idealised as rationals [Q], only compared and divided.
    - A Python [dict] is an insertion-ordered association list.
    - A call that may raise returns an [Outcome]; a value that may be
      [None] is an [option].
    - Library calls of OpenCV, numpy's correlation data, the file
      system, Quartz, Qt and pynput are taken as parameters of the model,
      or recorded as events; the clock is a sequence of readings, of
      which every call of [time.time()] takes the next. *)

From Stdlib Require Import String Ascii.
From Stdlib Require Import List ZArith QArith Qround Bool Lia.
From Stdlib Require Import DecimalString.
From Stdlib Require Import Permutation Sorted.
Import ListNotations.

Set Implicit Arguments.

Open Scope Z_scope.

(** ** Python sequences *)

Module Py.

(** Normalisation of one bound of a slice [l[lo:hi]] over a sequence of
    length [len]: a negative bound counts from the end, and every bound
    is clipped to [0 .. len]. *)
Definition slice_index (len i : Z) : Z :=
  if i <? 0 then Z.max 0 (i + len) else Z.min i len.

(** [l[lo:hi]] *)
Definition slice {A : Type} (l : list A) (lo hi : Z) : list A :=
  let n := Z.of_nat (length l) in
  let a := slice_index n lo in
  let b := slice_index n hi in
  firstn (Z.to_nat (b - a)) (skipn (Z.to_nat a) l).

(** [a / b] on integers: true division, raising [ZeroDivisionError]
    ([None]) when [b] is zero. *)
Definition truediv (a b : Z) : option Q :=
  if b =? 0 then None else Some (inject_Z a / inject_Z b)%Q.

(** The result of a call that may raise. *)
Inductive Outcome (A : Type) : Type :=
| Ok (a : A)
| Raise.
Arguments Raise {A}.

End Py.

(** ** [src/modules/capture.py] *)

Module Capture.

Definition MINIMAP_TOP_BORDER : Z := 5.
Definition MINIMAP_BOTTOM_BORDER : Z := 9.

(** A grey-scale template, [shape = (rows, columns)]. *)
Definition Template := list (list Z).

(** A captured frame: rows of BGRA pixels. *)
Definition Pixel := (Z * Z * Z * Z)%type.
Definition Frame := list (list Pixel).

Definition Point := (Z * Z)%type.

Definition shape0 {A : Type} (a : list (list A)) : Z := Z.of_nat (length a).
Definition shape1 {A : Type} (a : list (list A)) : Z :=
  Z.of_nat (length (hd [] a)).

(** [np.ones((16, 16), dtype=np.uint8) * 255] *)
Definition dummy_template (n : nat) : Template := repeat (repeat 255 n) n.

(** [PLAYER_TEMPLATE]: the image read from the assets, or the dummy
    template when [cv2.imread] gave [None] or raised. *)
Definition PLAYER_TEMPLATE (loaded : option Template) : Template :=
  match loaded with
  | Some t => t
  | None => dummy_template 16
  end.

(** [frame[top:bottom, left:right]] *)
Definition crop (frame : Frame) (mm_tl mm_br : Point) : Frame :=
  map (fun row => Py.slice row (fst mm_tl) (fst mm_br))
      (Py.slice frame (snd mm_tl) (snd mm_br)).

Record Window := {
  left : Z;
  top : Z;
  width : Z;
  height : Z
}.

Definition default_window : Window :=
  {| left := 0; top := 0; width := 1440; height := 900 |}.

(** The process-wide [config] module, as far as the loop reads and
    writes it. *)
Record Config := {
  player_pos : Q * Q;
  bot : option (bool * Point);      (* rune_active, rune_pos *)
  path : list (Q * Q)
}.

Definition set_player_pos (c : Config) (p : Q * Q) : Config :=
  {| player_pos := p; bot := bot c; path := path c |}.

(** The dictionary polled by the GUI. *)
Record MinimapInfo := {
  mi_minimap : Frame;
  mi_rune_active : bool;
  mi_rune_pos : Point;
  mi_path : list (Q * Q);
  mi_player_pos : Q * Q
}.

(** The attributes of a [Capture] object. *)
Record State := {
  frame : option Frame;
  minimap : option MinimapInfo;     (* [None] is the initial [{}] *)
  minimap_ratio : Q;
  minimap_sample : option Frame;
  window : Window;
  ready : bool;
  calibrated : bool
}.

(** [Capture.__init__] *)
Definition init : State :=
  {| frame := None; minimap := None; minimap_ratio := 1;
     minimap_sample := None; window := default_window;
     ready := false; calibrated := false |}.

(** The rectangle derived from the two anchors before any clamping:
    top-left anchor plus the border insets, bottom-right anchor minus
    the border insets. *)
Definition derived_tl (tl : Point) : Point :=
  (fst tl + MINIMAP_BOTTOM_BORDER, snd tl + MINIMAP_TOP_BORDER).
Definition derived_br (br : Point) : Point :=
  (fst br - MINIMAP_BOTTOM_BORDER, snd br - MINIMAP_BOTTOM_BORDER).

Definition rect_width (mm_tl mm_br : Point) : Z := fst mm_br - fst mm_tl.
Definition rect_height (mm_tl mm_br : Point) : Z := snd mm_br - snd mm_tl.

Section Loop.

(** The templates read at import time. *)
Variable MM_TL_TEMPLATE MM_BR_TEMPLATE : Template.
Variable player_template : Template.

(** [src.common.utils], which the loop calls. [single_match] gives the
    top-left and bottom-right corner of the best match, each possibly
    absent; [multi_match] gives every match above the threshold. *)
Variable single_match : Frame -> Template -> option Point * option Point.
Variable multi_match : Frame -> Template -> Q -> list Point.
Variable convert_to_relative : Point -> Frame -> Q * Q.

Definition PT_HEIGHT : Z := shape0 player_template.
Definition PT_WIDTH : Z := shape1 player_template.
Definition MMT_HEIGHT : Z := Z.max (shape0 MM_TL_TEMPLATE) (shape0 MM_BR_TEMPLATE).
Definition MMT_WIDTH : Z := Z.max (shape1 MM_TL_TEMPLATE) (shape1 MM_BR_TEMPLATE).

(** Lines 186-193: the two corners of the minimap. *)
Definition mm_tl_of (tl : Point) : Point :=
  (fst tl + MINIMAP_BOTTOM_BORDER, snd tl + MINIMAP_TOP_BORDER).

Definition mm_br_of (tl br : Point) : Point :=
  let mm_tl := mm_tl_of tl in
  (Z.max (fst mm_tl + PT_WIDTH) (fst br - MINIMAP_BOTTOM_BORDER),
   Z.max (snd mm_tl + PT_HEIGHT) (snd br - MINIMAP_BOTTOM_BORDER)).

(** Lines 159-174: the window the screenshot is taken from. *)
Definition update_window (window_info : option Window) : Window :=
  let w := match window_info with
           | Some wi => wi
           | None => default_window
           end in
  {| left := left w; top := top w;
     width := Z.max (width w) MMT_WIDTH;
     height := Z.max (height w) MMT_HEIGHT |}.

(** How one pass of the outer [while True] ends. *)
Inductive Cycle :=
| Retry (s : State)                         (* [continue], or sleep and retry *)
| Tracking (s : State) (mm_tl mm_br : Point) (* enters the inner loop *)
| Crashed.                                  (* an uncaught exception *)

(** One pass of the outer loop of [Capture._main], up to the point
    where the inner loop starts. [window_info] is what
    [find_maplestory_window] returned and [shot] what [screenshot]
    returned. *)
Definition calibration_cycle (window_info : option Window)
    (shot : option Frame) (s : State) : Cycle :=
  let win := update_window window_info in
  match shot with
  | None =>
      Retry {| frame := None; minimap := minimap s;
               minimap_ratio := minimap_ratio s;
               minimap_sample := minimap_sample s; window := win;
               ready := ready s; calibrated := calibrated s |}
  | Some f =>
      let tl := fst (single_match f MM_TL_TEMPLATE) in
      let br := snd (single_match f MM_BR_TEMPLATE) in
      match tl, br with
      | Some tl, Some br =>
          let mm_tl := mm_tl_of tl in
          let mm_br := mm_br_of tl br in
          match Py.truediv (fst mm_br - fst mm_tl) (snd mm_br - snd mm_tl) with
          | None => Crashed
          | Some ratio =>
              Tracking {| frame := Some f; minimap := minimap s;
                          minimap_ratio := ratio;
                          minimap_sample := Some (crop f mm_tl mm_br);
                          window := win;
                          ready := ready s; calibrated := true |}
                       mm_tl mm_br
          end
      | _, _ =>
          Retry {| frame := Some f; minimap := minimap s;
                   minimap_ratio := minimap_ratio s;
                   minimap_sample := minimap_sample s; window := win;
                   ready := ready s; calibrated := calibrated s |}
      end
  end.

(** How one pass of the inner [while True] ends. *)
Inductive Step :=
| Break                                   (* back to the outer loop *)
| Next (c : Config) (s : State).

(** One pass of the inner loop (lines 199-227) for the rectangle fixed
    at calibration. *)
Definition tracking_step (mm_tl mm_br : Point) (shot : option Frame)
    (c : Config) (s : State) : Step :=
  if negb (calibrated s) then Break
  else
    match shot with
    | None =>
        Next c {| frame := None; minimap := minimap s;
                  minimap_ratio := minimap_ratio s;
                  minimap_sample := minimap_sample s; window := window s;
                  ready := ready s; calibrated := calibrated s |}
    | Some f =>
        let mm := crop f mm_tl mm_br in
        let player := multi_match mm player_template (8 # 10) in
        let c' := match player with
                  | p :: _ => set_player_pos c (convert_to_relative p mm)
                  | [] => c
                  end in
        let info :=
          {| mi_minimap := mm;
             mi_rune_active := match bot c' with
                               | Some b => fst b
                               | None => false
                               end;
             mi_rune_pos := match bot c' with
                            | Some b => snd b
                            | None => (0, 0)
                            end;
             mi_path := path c';
             mi_player_pos := player_pos c' |} in
        Next c' {| frame := Some f; minimap := Some info;
                   minimap_ratio := minimap_ratio s;
                   minimap_sample := minimap_sample s; window := window s;
                   ready := true; calibrated := calibrated s |}
    end.

End Loop.

(** *** The thread of [_main] over many passes *)

Section Run.

Variable MM_TL_TEMPLATE MM_BR_TEMPLATE : Template.
Variable player_template : Template.
Variable single_match : Frame -> Template -> option Point * option Point.
Variable multi_match : Frame -> Template -> Q -> list Point.
Variable convert_to_relative : Point -> Frame -> Q * Q.

(** Where the thread stands between two screenshots: at the top of the
    outer loop, at the top of the inner loop with the rectangle computed
    at calibration, or dead after an uncaught exception. *)
Inductive Thread :=
| Outer (c : Config) (s : State)
| Inner (mm_tl mm_br : Point) (c : Config) (s : State)
| Dead.

(** What the environment gives to one pass: the window found (read by the
    outer loop only) and the screenshot taken. *)
Record Pass := {
  found_window : option Window;
  shot : option Frame
}.

Definition outer_pass (p : Pass) (c : Config) (s : State) : Thread :=
  match calibration_cycle MM_TL_TEMPLATE MM_BR_TEMPLATE player_template
          single_match (found_window p) (shot p) s with
  | Retry s' => Outer c s'
  | Tracking s' mm_tl mm_br => Inner mm_tl mm_br c s'
  | Crashed => Dead
  end.

(** One pass: the inner loop takes the screenshot when the thread is
    calibrated; when it is not, the inner loop is left and the outer loop
    takes it. *)
Definition pass (t : Thread) (p : Pass) : Thread :=
  match t with
  | Outer c s => outer_pass p c s
  | Inner mm_tl mm_br c s =>
      match tracking_step player_template multi_match convert_to_relative
              mm_tl mm_br (shot p) c s with
      | Break => outer_pass p c s
      | Next c' s' => Inner mm_tl mm_br c' s'
      end
  | Dead => Dead
  end.

Definition run (passes : list Pass) (t : Thread) : Thread :=
  fold_left pass passes t.

(** What is expected to hold between two passes of a thread that
    [__init__] started with [config] being [c0]: at the top of the outer
    loop nothing has been published and [config] is as it was; in the
    inner loop the rectangle, the ratio, the sample, the window and what
    was published for the GUI fit together; and the thread is not dead. *)
Definition consistent (c0 : Config) (t : Thread) : Prop :=
  match t with
  | Outer c s =>
      c = c0 /\ calibrated s = false /\ ready s = false /\
      minimap s = None /\ minimap_sample s = None
  | Inner mm_tl mm_br c s =>
      calibrated s = true /\
      PT_WIDTH player_template <= rect_width mm_tl mm_br /\
      PT_HEIGHT player_template <= rect_height mm_tl mm_br /\
      Py.truediv (rect_width mm_tl mm_br) (rect_height mm_tl mm_br)
        = Some (minimap_ratio s) /\
      (exists f, minimap_sample s = Some (crop f mm_tl mm_br)) /\
      MMT_WIDTH MM_TL_TEMPLATE MM_BR_TEMPLATE <= width (window s) /\
      MMT_HEIGHT MM_TL_TEMPLATE MM_BR_TEMPLATE <= height (window s) /\
      match minimap s with
      | None => ready s = false
      | Some info =>
          ready s = true /\
          mi_player_pos info = player_pos c /\
          exists f, mi_minimap info = crop f mm_tl mm_br
      end
  | Dead => False
  end.

End Run.

End Capture.


(** ** [src/template_matcher.py] *)

Module Matcher.

Import Py.

(** *** Data *)

(** A numpy image array: its shape (rows, columns) and its bytes. *)
Record Image := {
  shape0 : Z;
  shape1 : Z;
  pixels : list Z
}.

(** [class TemplateMatch] *)
Record TemplateMatch := {
  x : Z;
  y : Z;
  width : Z;
  height : Z;
  confidence : Q;
  template_name : string;
  template_type : string;
  center_x : Z;
  center_y : Z
}.

(** [TemplateMatch.__init__]; [//] is floor division. *)
Definition new_TemplateMatch (x y width height : Z) (confidence : Q)
    (template_name template_type : string) : TemplateMatch :=
  {| x := x; y := y; width := width; height := height;
     confidence := confidence;
     template_name := template_name; template_type := template_type;
     center_x := x + width / 2; center_y := y + height / 2 |}.

(** The metadata dictionary of a template, as written by [save_template]
    or read from a sidecar; a sidecar may lack any key. *)
Record Metadata := {
  md_name : option string;
  md_type : option string;
  md_created : option Q;
  md_confidence_threshold : option Q;
  md_width : option Z;
  md_height : option Z
}.

(** An entry of [template_cache]. *)
Record TemplateData := {
  td_image : Image;
  td_metadata : Metadata;
  td_height : Z;
  td_width : Z
}.

(** *** Insertion-ordered dictionaries *)

Definition dict (V : Type) := list (string * V).

Fixpoint dict_get {V : Type} (d : dict V) (k : string) : option V :=
  match d with
  | [] => None
  | (k', v) :: d' => if String.eqb k k' then Some v else dict_get d' k
  end.

(** [d[k] = v]: an existing key keeps its place, a new key goes last. *)
Fixpoint dict_set {V : Type} (d : dict V) (k : string) (v : V) : dict V :=
  match d with
  | [] => [(k, v)]
  | (k', v') :: d' =>
      if String.eqb k k' then (k', v) :: d' else (k', v') :: dict_set d' k v
  end.

(** [del d[k]] for a key that is present. *)
Fixpoint dict_del {V : Type} (d : dict V) (k : string) : dict V :=
  match d with
  | [] => []
  | (k', v') :: d' =>
      if String.eqb k k' then d' else (k', v') :: dict_del d' k
  end.

(** [k in d] *)
Definition dict_mem {V : Type} (d : dict V) (k : string) : bool :=
  match dict_get d k with
  | Some _ => true
  | None => false
  end.

(** [dict.get(key, default)] on an optional field. *)
Definition get_default {A : Type} (field : option A) (default : A) : A :=
  match field with
  | Some a => a
  | None => default
  end.

(** The attributes of a [TemplateMatcher] that matching reads. *)
Record TemplateMatcher := {
  template_cache : dict TemplateData;
  confidence_threshold : Q;
  nms_threshold : Q
}.

(** *** Sorting *)

(** A stable sort in descending order of [key]: what
    [list.sort(key=..., reverse=True)] and [std::stable_sort] with a
    [>] comparator both compute. *)
Fixpoint insert_desc {A : Type} (key : A -> Q) (a : A) (l : list A) : list A :=
  match l with
  | [] => [a]
  | b :: l' =>
      if Qle_bool (key b) (key a) then a :: b :: l'
      else b :: insert_desc key a l'
  end.

Definition sort_desc {A : Type} (key : A -> Q) (l : list A) : list A :=
  fold_right (insert_desc key) [] l.

(** The order it establishes: the key never increases. *)
Definition desc {A : Type} (key : A -> Q) (a b : A) : Prop :=
  (key b <= key a)%Q.

(** *** [cv2.dnn.NMSBoxes] *)

(** A box [x, y, width, height]. *)
Definition Box := (Z * Z * Z * Z)%type.

Definition box_x (b : Box) : Z := fst (fst (fst b)).
Definition box_y (b : Box) : Z := snd (fst (fst b)).
Definition box_w (b : Box) : Z := snd (fst b).
Definition box_h (b : Box) : Z := snd b.

Definition area (b : Box) : Z := box_w b * box_h b.

(** The intersection of two rectangles, the empty rectangle when they do
    not meet. *)
Definition intersect (a b : Box) : Box :=
  let x1 := Z.max (box_x a) (box_x b) in
  let y1 := Z.max (box_y a) (box_y b) in
  let w := Z.min (box_x a + box_w a) (box_x b + box_w b) - x1 in
  let h := Z.min (box_y a + box_h a) (box_y b + box_h b) - y1 in
  if (w <=? 0) || (h <=? 0) then (0, 0, 0, 0) else (x1, y1, w, h).

(** Intersection over union; two boxes without area count as fully
    overlapping. *)
Definition rectOverlap (a b : Box) : Q :=
  let Aa := area a in
  let Ab := area b in
  if Aa + Ab <=? 0 then 1%Q
  else
    let Aab := area (intersect a b) in
    (inject_Z Aab / inject_Z (Aa + Ab - Aab))%Q.

(** Whether box [i] may stay next to box [k]: their overlap is at most the
    threshold. *)
Definition compatible (boxes : list Box) (nms_threshold : Q) (i k : nat) : bool :=
  Qle_bool (rectOverlap (nth i boxes (0, 0, 0, 0)) (nth k boxes (0, 0, 0, 0)))
           nms_threshold.

(** The greedy pass over the candidates (index, score) in visiting order:
    a candidate is kept when it is compatible with every box kept so
    far. *)
Fixpoint nms_loop (boxes : list Box) (nms_threshold : Q)
    (order : list (nat * Q)) (kept : list nat) : list nat :=
  match order with
  | [] => kept
  | (idx, _) :: rest =>
      if forallb (compatible boxes nms_threshold idx) kept
      then nms_loop boxes nms_threshold rest (kept ++ [idx])
      else nms_loop boxes nms_threshold rest kept
  end.

(** [enumerate(l)] *)
Definition enumerate {A : Type} (l : list A) : list (nat * A) :=
  combine (seq 0 (length l)) l.

(** The boxes whose score exceeds [score_threshold], each with its index,
    stably sorted by descending score. *)
Definition score_order (scores : list Q) (score_threshold : Q) : list (nat * Q) :=
  sort_desc snd
    (filter (fun p => negb (Qle_bool (snd p) score_threshold))
            (enumerate scores)).

(** [cv2.dnn.NMSBoxes(boxes, scores, score_threshold, nms_threshold)]:
    the indices of the kept boxes, in the order they were kept. *)
Definition NMSBoxes (boxes : list Box) (scores : list Q)
    (score_threshold nms_threshold : Q) : list nat :=
  nms_loop boxes nms_threshold (score_order scores score_threshold) [].

(** *** Matching *)

Definition box_of (m : TemplateMatch) : Box := (x m, y m, width m, height m).

(** [np.where(result >= threshold)]: the (row, column) indices of the
    entries that reach the threshold, in row-major order. *)
Definition where_ge (result : list (list Q)) (threshold : Q) : list (nat * nat) :=
  flat_map
    (fun rrow =>
       map (fun cv => (fst rrow, fst cv))
           (filter (fun cv => Qle_bool threshold (snd cv))
                   (enumerate (snd rrow))))
    (enumerate result).

(** [result[row, column]]; [None] stands for [IndexError]. *)
Definition result_at (result : list (list Q)) (row column : nat) : option Q :=
  match nth_error result row with
  | Some r => nth_error r column
  | None => None
  end.

(** The loop of lines 194-207 over the locations found. An exception in
    the body is caught by the handler of [_match_single_template], which
    returns the matches appended so far. *)
Fixpoint collect (result : list (list Q)) (template : Image)
    (name template_type : string) (locations : list (nat * nat))
    (matches : list TemplateMatch) : list TemplateMatch :=
  match locations with
  | [] => matches
  | (row, column) :: rest =>
      match result_at result row column with
      | None => matches
      | Some conf =>
          collect result template name template_type rest
            (matches ++ [new_TemplateMatch (Z.of_nat column) (Z.of_nat row)
                           (shape1 template) (shape0 template) conf
                           name template_type])
      end
  end.

(** The two OpenCV calls of [_match_single_template]. Either may raise
    [cv2.error]. *)
Record OpenCV := {
  cvtColor : Image -> Outcome Image;                        (* COLOR_BGR2GRAY *)
  matchTemplate : Image -> Image -> Outcome (list (list Q)) (* TM_CCOEFF_NORMED *)
}.

Section Matching.

Variable cv2 : OpenCV.

Definition _match_single_template (screen_image template : Image)
    (name template_type : string) (threshold : Q) : list TemplateMatch :=
  match cvtColor cv2 screen_image with
  | Raise => []
  | Ok screen_gray =>
      match cvtColor cv2 template with
      | Raise => []
      | Ok template_gray =>
          match matchTemplate cv2 screen_gray template_gray with
          | Raise => []
          | Ok result =>
              collect result template name template_type
                      (where_ge result threshold) []
          end
      end
  end.

(** Whether a match belongs to a category. *)
Definition of_type (template_type' : string) (m : TemplateMatch) : bool :=
  String.eqb (template_type m) template_type'.

(** The grouping loop of [_apply_nms] (lines 228-232). *)
Definition group_add (grouped : dict (list TemplateMatch)) (m : TemplateMatch)
    : dict (list TemplateMatch) :=
  match dict_get grouped (template_type m) with
  | None => dict_set grouped (template_type m) [m]
  | Some l => dict_set grouped (template_type m) (l ++ [m])
  end.

Definition group_by_type (matches : list TemplateMatch)
    : dict (list TemplateMatch) :=
  fold_left group_add matches [].

(** [type_matches[i] for i in indices] *)
Definition select (type_matches : list TemplateMatch) (indices : list nat)
    : list TemplateMatch :=
  flat_map (fun i => match nth_error type_matches i with
                     | Some m => [m]
                     | None => []
                     end) indices.

(** The body of the loop over the groups (lines 236-256). *)
Definition nms_group (self : TemplateMatcher) (type_matches : list TemplateMatch)
    : list TemplateMatch :=
  match type_matches with
  | [] => []
  | _ =>
      let boxes := map box_of type_matches in
      let scores := map confidence type_matches in
      select type_matches
             (NMSBoxes boxes scores (confidence_threshold self) (nms_threshold self))
  end.

Definition _apply_nms (self : TemplateMatcher) (matches : list TemplateMatch)
    : list TemplateMatch :=
  match matches with
  | [] => []
  | _ => flat_map (fun g => nms_group self (snd g)) (group_by_type matches)
  end.

(** [template_types and template_type not in template_types] *)
Definition filtered_out (template_types : option (list string))
    (template_type : string) : bool :=
  match template_types with
  | None => false
  | Some [] => false
  | Some tys => negb (existsb (String.eqb template_type) tys)
  end.

(** The matches of one cache entry (the body of the loop of lines
    138-158). *)
Definition template_matches (self : TemplateMatcher) (screen_image : Image)
    (template_types : option (list string)) (entry : string * TemplateData)
    : list TemplateMatch :=
  let metadata := td_metadata (snd entry) in
  let template_type := get_default (md_type metadata) "unknown"%string in
  if filtered_out template_types template_type then []
  else
    let threshold := get_default (md_confidence_threshold metadata)
                                 (confidence_threshold self) in
    _match_single_template screen_image (td_image (snd entry)) (fst entry)
                           template_type threshold.

(** The list [matches] before it is sorted (line 158). *)
Definition collect_matches (self : TemplateMatcher) (screen_image : Image)
    (template_types : option (list string)) : list TemplateMatch :=
  flat_map (template_matches self screen_image template_types)
           (template_cache self).

Definition match_templates (self : TemplateMatcher)
    (screen_image : option Image) (template_types : option (list string))
    : list TemplateMatch :=
  match screen_image with
  | None => []
  | Some screen =>
      _apply_nms self
        (sort_desc confidence (collect_matches self screen template_types))
  end.

End Matching.

(** *** The template library *)

(** The messages the module logs, one constructor per logging call. *)
Inductive Message :=
| Failed_to_load_template (name : string)
| Loaded_templates (count : nat)
| Template_image_not_found (name : string)
| Failed_to_load_template_image (name : string)
| Loaded_template (name : string)
| Error_loading_template (name : string)
| Template_saved (name template_type : string)
| Failed_to_save_template (name : string)
| Template_deleted (name : string)
| Failed_to_delete_template (name : string).

Inductive Level := DEBUG | INFO | WARNING | ERROR.

(** The level each message is logged at. *)
Definition level (m : Message) : Level :=
  match m with
  | Failed_to_load_template _ => WARNING
  | Loaded_templates _ => INFO
  | Template_image_not_found _ => WARNING
  | Failed_to_load_template_image _ => WARNING
  | Loaded_template _ => DEBUG
  | Error_loading_template _ => ERROR
  | Template_saved _ _ => INFO
  | Failed_to_save_template _ => ERROR
  | Template_deleted _ => INFO
  | Failed_to_delete_template _ => ERROR
  end.

(** The templates directory, addressed by template name: [name.png] is
    the image of [name] and [name.json] its sidecar. Every operation is
    inside a [try] of its caller and may raise; an operation that writes
    returns the directory it leaves behind, also when it raises. *)
Class BackingStore (Store : Type) := {
  img_exists : Store -> string -> Outcome bool;   (* [img_path.exists()] *)
  meta_exists : Store -> string -> Outcome bool;  (* [meta_path.exists()] *)
  glob_png : Store -> list string;          (* stems of [glob("*.png")] *)
  imread : Store -> string -> Outcome (option Image);
  load_json : Store -> string -> Outcome Metadata;
  imwrite : Store -> string -> Image -> Store * Outcome bool;
  dump_json : Store -> string -> Metadata -> Store * Outcome unit;
  unlink_img : Store -> string -> Store * Outcome unit;
  unlink_meta : Store -> string -> Store * Outcome unit
}.

(** The clock: what the calls of [time.time()] return, one after the
    other, and how many calls have been made. *)
Record Clock := {
  time_at : nat -> Q;
  calls : nat
}.

(** [time.time()]: the next reading. *)
Definition time_time (c : Clock) : Q * Clock :=
  (time_at c (calls c), {| time_at := time_at c; calls := S (calls c) |}).

Definition with_cache (self : TemplateMatcher) (c : dict TemplateData)
    : TemplateMatcher :=
  {| template_cache := c;
     confidence_threshold := confidence_threshold self;
     nms_threshold := nms_threshold self |}.

(** A cache entry without its creation time. *)
Definition forget_created (td : TemplateData) : TemplateData :=
  {| td_image := td_image td;
     td_metadata :=
       {| md_name := md_name (td_metadata td);
          md_type := md_type (td_metadata td);
          md_created := None;
          md_confidence_threshold := md_confidence_threshold (td_metadata td);
          md_width := md_width (td_metadata td);
          md_height := md_height (td_metadata td) |};
     td_height := td_height td; td_width := td_width td |}.

(** A cache without the creation times of its entries. *)
Definition without_created (cache : dict TemplateData) : dict TemplateData :=
  map (fun e => (fst e, forget_created (snd e))) cache.

Section Library.

Context {Store : Type} `{BackingStore Store}.

(** What a method of the library runs in: the directory, the matcher
    object, the log and the clock. *)
Record World := {
  store : Store;
  self : TemplateMatcher;
  log : list Message;
  clock : Clock
}.

Definition logged (w : World) (m : Message) : World :=
  {| store := store w; self := self w; log := log w ++ [m];
     clock := clock w |}.

Definition cache_set (w : World) (name : string) (td : TemplateData) : World :=
  {| store := store w;
     self := with_cache (self w) (dict_set (template_cache (self w)) name td);
     log := log w; clock := clock w |}.

Definition default_metadata (name : string) (now : Q) : Metadata :=
  {| md_name := Some name;
     md_type := Some "unknown"%string;
     md_created := Some now;
     md_confidence_threshold := Some (7 # 10);
     md_width := None;
     md_height := None |}.

Definition new_template_data (image : Image) (metadata : Metadata) : TemplateData :=
  {| td_image := image; td_metadata := metadata;
     td_height := shape0 image; td_width := shape1 image |}.

(** Lines 82-105 of [load_template]: what is read from the directory for
    a template, or the message logged when it cannot be read, and the
    clock afterwards. Whatever raises is caught by the handler of
    [load_template], which logs an error. *)
Definition read_template (s : Store) (c : Clock) (template_name : string)
    : (Message + TemplateData) * Clock :=
  match img_exists s template_name with
  | Raise => (inl (Error_loading_template template_name), c)
  | Ok false => (inl (Template_image_not_found template_name), c)
  | Ok true =>
      match imread s template_name with
      | Raise => (inl (Error_loading_template template_name), c)
      | Ok None => (inl (Failed_to_load_template_image template_name), c)
      | Ok (Some template_img) =>
          match meta_exists s template_name with
          | Raise => (inl (Error_loading_template template_name), c)
          | Ok true =>
              match load_json s template_name with
              | Raise => (inl (Error_loading_template template_name), c)
              | Ok metadata =>
                  (inr (new_template_data template_img metadata), c)
              end
          | Ok false =>
              let (now, c') := time_time c in
              (inr (new_template_data template_img
                      (default_metadata template_name now)), c')
          end
      end
  end.

Definition load_template (template_name : string) (w : World) : bool * World :=
  match read_template (store w) (clock w) template_name with
  | (inl message, c) =>
      (false, logged {| store := store w; self := self w; log := log w;
                        clock := c |} message)
  | (inr template_data, c) =>
      (true, logged (cache_set {| store := store w; self := self w;
                                  log := log w; clock := c |}
                               template_name template_data)
                    (Loaded_template template_name))
  end.

(** [load_template] catches every exception itself, so the handler around
    its call in the loop below never runs. *)
Definition load_all_templates (w : World) : World :=
  let cleared := {| store := store w; self := with_cache (self w) [];
                    log := log w; clock := clock w |} in
  let loaded := fold_left (fun w name => snd (load_template name w))
                          (glob_png (store w)) cleared in
  logged loaded (Loaded_templates (length (template_cache (self loaded)))).

Definition save_metadata (image : Image) (name template_type : string)
    (confidence_threshold now : Q) : Metadata :=
  {| md_name := Some name;
     md_type := Some template_type;
     md_created := Some now;
     md_confidence_threshold := Some confidence_threshold;
     md_width := Some (shape1 image);
     md_height := Some (shape0 image) |}.

Definition save_template (image : Image) (name template_type : string)
    (confidence_threshold : Q) (w : World) : bool * World :=
  match imwrite (store w) name image with
  | (s1, Raise) =>
      (false, logged {| store := s1; self := self w; log := log w;
                        clock := clock w |}
                     (Failed_to_save_template name))
  | (s1, Ok _) =>                       (* the returned flag is not read *)
      let (now, c1) := time_time (clock w) in
      let metadata := save_metadata image name template_type
                                    confidence_threshold now in
      match dump_json s1 name metadata with
      | (s2, Raise) =>
          (false, logged {| store := s2; self := self w; log := log w;
                            clock := c1 |}
                         (Failed_to_save_template name))
      | (s2, Ok _) =>
          (true,
           logged (cache_set {| store := s2; self := self w; log := log w;
                                clock := c1 |}
                             name (new_template_data image metadata))
                  (Template_saved name template_type))
      end
  end.

(** Both existence checks are inside the [try], like the removals. *)
Definition delete_template (name : string) (w : World) : bool * World :=
  let failed s := (false, logged {| store := s; self := self w; log := log w;
                                    clock := clock w |}
                                 (Failed_to_delete_template name)) in
  let r1 := match img_exists (store w) name with
            | Raise => (store w, Raise)
            | Ok true => unlink_img (store w) name
            | Ok false => (store w, Ok tt)
            end in
  match r1 with
  | (s1, Raise) => failed s1
  | (s1, Ok _) =>
      let r2 := match meta_exists s1 name with
                | Raise => (s1, Raise)
                | Ok true => unlink_meta s1 name
                | Ok false => (s1, Ok tt)
                end in
      match r2 with
      | (s2, Raise) => failed s2
      | (s2, Ok _) =>
          let cache := template_cache (self w) in
          let cache' := if dict_mem cache name then dict_del cache name
                        else cache in
          (true, logged {| store := s2; self := with_cache (self w) cache';
                           log := log w; clock := clock w |}
                        (Template_deleted name))
      end
  end.

End Library.

(** The names under which templates are cached, in cache order. *)
Definition cached_names {Store : Type} (w : @World Store) : list string :=
  map fst (template_cache (self w)).

(** *** Thresholds and listing *)

(** [max(a, b)] and [min(a, b)]: the first argument, unless the second is
    strictly greater (smaller). *)
Definition py_max (a b : Q) : Q := if Qle_bool b a then a else b.
Definition py_min (a b : Q) : Q := if Qle_bool a b then a else b.

Definition set_confidence_threshold (self : TemplateMatcher) (threshold : Q)
    : TemplateMatcher :=
  {| template_cache := template_cache self;
     confidence_threshold := py_max (1 # 10) (py_min 1 threshold);
     nms_threshold := nms_threshold self |}.

(** [str(n)] for an integer. *)
Definition str (n : Z) : string := NilZero.string_of_int (Z.to_int n).

(** An entry of [get_template_list]: a copy of the metadata with the key
    ['size'] added. *)
Record Listed := {
  listed_metadata : Metadata;
  listed_size : string
}.

Definition listed (entry : string * TemplateData) : Listed :=
  {| listed_metadata := td_metadata (snd entry);
     listed_size := str (td_width (snd entry)) ++ "x"
                    ++ str (td_height (snd entry)) |}.

(** [t.get('created', 0)] *)
Definition created (t : Listed) : Q :=
  get_default (md_created (listed_metadata t)) 0%Q.

Definition get_template_list (self : TemplateMatcher) : list Listed :=
  sort_desc created (map listed (template_cache self)).

End Matcher.


(** ** [src/modules/bot.py] *)

Module Bot.

Import Py.

(** [l[i]] on a list: a negative index counts from the end, and an index
    outside the list raises [IndexError]. *)
Definition list_getitem {A : Type} (l : list A) (i : Z) : Outcome A :=
  let n := Z.of_nat (length l) in
  let j := if i <? 0 then i + n else i in
  if (j <? 0) || (n <=? j) then Raise
  else match nth_error l (Z.to_nat j) with
       | Some a => Ok a
       | None => Raise
       end.

Section EmptyRoutine.

(** The elements of a routine. *)
Variable Element : Type.

(** [class EmptyRoutine], defined in [Bot.__init__]. *)
Record EmptyRoutine := {
  index : Z;
  sequence : list Element
}.

(** [EmptyRoutine.__init__] *)
Definition new_EmptyRoutine : EmptyRoutine :=
  {| index := 0; sequence := [] |}.

(** [__len__] *)
Definition len (r : EmptyRoutine) : Z := Z.of_nat (length (sequence r)).

(** [__getitem__]: [self.sequence[index] if index < len(self.sequence)
    else None] *)
Definition getitem (r : EmptyRoutine) (i : Z) : Outcome (option Element) :=
  if i <? len r then
    match list_getitem (sequence r) i with
    | Ok e => Ok (Some e)
    | Raise => Raise
    end
  else Ok None.

(** [step]; [%] with a positive modulus gives a result in [0 .. len). *)
Definition step (r : EmptyRoutine) : EmptyRoutine :=
  if 0 <? len r then
    {| index := (index r + 1) mod len r; sequence := sequence r |}
  else r.

End EmptyRoutine.

End Bot.


(** ** [src/window_detector.py] *)

Module WindowDetector.

(** An entry of the list [get_all_windows] returns. Sizes and positions
    are the numbers Quartz reports. *)
Record WindowInfo := {
  name : string;
  owner : string;
  pid : Z;
  width : Q;
  height : Q;
  x : Q;
  y : Q
}.

(** [needle in haystack] on strings. *)
Definition contains (needle haystack : string) : bool :=
  match String.index 0 needle haystack with
  | Some _ => true
  | None => false
  end.

(** The attributes of a [WindowDetector]. *)
Record WindowDetector := {
  target_games : list string;
  last_detected_window : option WindowInfo
}.

(** [WindowDetector.__init__] *)
Definition new_WindowDetector : WindowDetector :=
  {| target_games := ["MapleStory"; "MapleLand"; "MapleStory Worlds"; "Maple"]%string;
     last_detected_window := None |}.

Definition game_patterns : list string :=
  ["maple.*story"; "maple.*land"; "maple.*world"; ".*maple.*"]%string.

(** [for a in outer: for window in windows: if test(a, window): return
    window] *)
Fixpoint first_hit {A : Type} (test : A -> WindowInfo -> bool) (outer : list A)
    (windows : list WindowInfo) : option WindowInfo :=
  match outer with
  | [] => None
  | a :: rest =>
      match find (test a) windows with
      | Some w => Some w
      | None => first_hit test rest windows
      end
  end.

(** [max(l, key=...)] on a list that is not empty: the first element whose
    key no other element exceeds. *)
Fixpoint max_by {A : Type} (key : A -> Q) (best : A) (l : list A) : A :=
  match l with
  | [] => best
  | a :: rest =>
      if Qle_bool (key a) (key best) then max_by key best rest
      else max_by key a rest
  end.

Definition window_area (w : WindowInfo) : Q := (width w * height w)%Q.

(** The size test of the fallback strategy. *)
Definition game_like (w : WindowInfo) : bool :=
  negb (Qle_bool (width w) 800) && negb (Qle_bool (height w) 600)
  && negb (Qle_bool 2000 (width w)) && negb (Qle_bool 1500 (height w)).

Section Find.

(** [str.lower] and [re.search(pattern, string)] as a truth value. *)
Variable lower : string -> string.
Variable re_search : string -> string -> bool.

Definition name_matches (target : string) (w : WindowInfo) : bool :=
  contains (lower target) (lower (name w)).

Definition owner_matches (target : string) (w : WindowInfo) : bool :=
  contains (lower target) (lower (owner w)).

Definition pattern_matches (pattern : string) (w : WindowInfo) : bool :=
  re_search pattern (lower (name w)) || re_search pattern (lower (owner w)).

(** The window [find_game_window] settles on, given the list
    [get_all_windows] returned. *)
Definition search (self : WindowDetector) (windows : list WindowInfo)
    : option WindowInfo :=
  match first_hit name_matches (target_games self) windows with
  | Some w => Some w
  | None =>
      match first_hit owner_matches (target_games self) windows with
      | Some w => Some w
      | None =>
          match first_hit pattern_matches game_patterns windows with
          | Some w => Some w
          | None =>
              match filter game_like windows with
              | [] => None
              | w :: rest => Some (max_by window_area w rest)
              end
          end
      end
  end.

(** [find_game_window]: the window found is also remembered. *)
Definition find_game_window (self : WindowDetector) (windows : list WindowInfo)
    : option WindowInfo * WindowDetector :=
  match search self windows with
  | Some w =>
      (Some w, {| target_games := target_games self;
                  last_detected_window := Some w |})
  | None => (None, self)
  end.

(** The dictionary [get_window_bounds] returns. *)
Record Bounds := {
  top : Q;
  left : Q;
  bounds_width : Q;
  bounds_height : Q
}.

(** [get_window_bounds]: [window or self.last_detected_window]. *)
Definition get_window_bounds (self : WindowDetector) (window : option WindowInfo)
    : option Bounds :=
  let target_window := match window with
                       | Some w => Some w
                       | None => last_detected_window self
                       end in
  match target_window with
  | None => None
  | Some w => Some {| top := y w; left := x w;
                      bounds_width := width w; bounds_height := height w |}
  end.

(** [find_and_focus_game_window]; [focused] is what
    [bring_window_to_front] returned. *)
Definition find_and_focus_game_window (self : WindowDetector)
    (windows : list WindowInfo) (focused : WindowInfo -> bool)
    : option WindowInfo * WindowDetector :=
  match find_game_window self windows with
  | (Some w, self') => if focused w then (Some w, self') else (Some w, self')
  | (None, self') => (None, self')
  end.

End Find.

End WindowDetector.


(** ** [src/common/vkeys.py] *)

Module VKeys.

Import Matcher.

(** The objects of [pynput.keyboard] that [KEY_MAP] maps to. *)
Inductive PKey :=
| Key (name : string)                 (* [Key.<name>] *)
| KeyCode_from_char (char : string).  (* [KeyCode.from_char(<char>)] *)


Definition chars (names : list string) : dict PKey :=
  map (fun c => (c, KeyCode_from_char c)) names.

Definition arrow_keys : dict PKey :=
  [("left", Key "left"); ("up", Key "up"); ("right", Key "right");
   ("down", Key "down")]%string.

Definition special_keys : dict PKey :=
  [("backspace", Key "backspace"); ("tab", Key "tab"); ("enter", Key "enter");
   ("shift", Key "shift"); ("ctrl", Key "ctrl"); ("alt", Key "alt");
   ("cmd", Key "cmd"); ("caps", Key "caps_lock"); ("esc", Key "esc");
   ("space", Key "space"); ("page_up", Key "page_up");
   ("page_down", Key "page_down"); ("end", Key "end"); ("home", Key "home");
   ("delete", Key "delete")]%string.

Definition numbers : dict PKey :=
  chars ["0"; "1"; "2"; "3"; "4"; "5"; "6"; "7"; "8"; "9"]%string.

Definition letters : dict PKey :=
  chars ["a"; "b"; "c"; "d"; "e"; "f"; "g"; "h"; "i"; "j"; "k"; "l"; "m";
         "n"; "o"; "p"; "q"; "r"; "s"; "t"; "u"; "v"; "w"; "x"; "y"; "z"]%string.

Definition functional_keys : dict PKey :=
  [("f1", Key "f1"); ("f2", Key "f2"); ("f3", Key "f3"); ("f4", Key "f4");
   ("f5", Key "f5"); ("f6", Key "f6"); ("f7", Key "f7"); ("f8", Key "f8");
   ("f9", Key "f9"); ("f10", Key "f10"); ("f11", Key "f11");
   ("f12", Key "f12")]%string.

Definition special_characters : dict PKey :=
  chars [";"; "="; ","; "-"; "."; "/"; "`"; "["; "\"; "]"; "'"]%string.

Definition KEY_MAP : dict PKey :=
  arrow_keys ++ special_keys ++ numbers ++ letters ++ functional_keys
  ++ special_characters.

(** [mouse.Button] *)
Inductive Button := Button_left | Button_right.

(** What the module does to the outside, in the order it does it. *)
Inductive Event :=
| controller_press (k : PKey)          (* [_keyboard_controller.press] *)
| controller_release (k : PKey)        (* [_keyboard_controller.release] *)
| set_position (position : Z * Z)      (* [_mouse_controller.position = ...] *)
| controller_click (b : Button)        (* [_mouse_controller.click] *)
| sleep (seconds : Q)                  (* [time.sleep] *)
| print (text : string).

Definition Trace := list Event.

(** Whether an event is a call of one of the two controllers. *)
Definition is_input (e : Event) : bool :=
  match e with
  | controller_press _ | controller_release _
  | set_position _ | controller_click _ => true
  | sleep _ | print _ => false
  end.


Section Functions.

(** [str.lower]; the decorator [utils.run_if_enabled], which is given the
    function to run (here with its arguments already supplied); and
    [random()], whose result may depend on all that happened before. *)
Variable lower : string -> string.
Variable run_if_enabled : (Trace -> Trace) -> Trace -> Trace.
Variable random : Trace -> Q.

Definition invalid_keyboard_input (key : string) : Event :=
  print ("Invalid keyboard input: '" ++ key ++ "'.").

(** The body of [key_down], and [key_down] as decorated. *)
Definition key_down_body (key : string) (t : Trace) : Trace :=
  let key := lower key in
  if negb (dict_mem KEY_MAP key) then t ++ [invalid_keyboard_input key]
  else match dict_get KEY_MAP key with
       | Some k => t ++ [controller_press k]
       | None => t
       end.

Definition key_down (key : string) : Trace -> Trace :=
  run_if_enabled (key_down_body key).

(** [key_up] is not decorated. *)
Definition key_up (key : string) (t : Trace) : Trace :=
  let key := lower key in
  if negb (dict_mem KEY_MAP key) then t ++ [invalid_keyboard_input key]
  else match dict_get KEY_MAP key with
       | Some k => t ++ [controller_release k]
       | None => t
       end.

Definition jitter (duration : Q) (t : Trace) : Event :=
  sleep (duration * ((8 # 10) + (4 # 10) * random t))%Q.

(** One pass of the loop of [press]. *)
Definition press_once (key : string) (down_time up_time : Q) (t : Trace)
    : Trace :=
  let t := key_down key t in
  let t := t ++ [jitter down_time t] in
  let t := key_up key t in
  t ++ [jitter up_time t].

(** The body of [press]: [for _ in range(n)]. *)
Definition press_body (key : string) (n : Z) (down_time up_time : Q)
    : Trace -> Trace :=
  Nat.iter (Z.to_nat n) (press_once key down_time up_time).

Definition press (key : string) (n : Z) (down_time up_time : Q)
    : Trace -> Trace :=
  run_if_enabled (press_body key n down_time up_time).

(** The body of [click], and [click] as decorated. *)
Definition click_body (position : Z * Z) (button : string) (t : Trace)
    : Trace :=
  if negb (existsb (String.eqb button) ["left"; "right"]%string) then
    t ++ [print ("'" ++ button ++ "' is not a valid mouse button.")]
  else
    let t := t ++ [set_position position; sleep (1 # 100)] in
    if String.eqb button "left" then t ++ [controller_click Button_left]
    else t ++ [controller_click Button_right].

Definition click (position : Z * Z) (button : string) : Trace -> Trace :=
  run_if_enabled (click_body position button).

Definition move_mouse (position : Z * Z) : Trace -> Trace :=
  run_if_enabled (fun t => t ++ [set_position position]).

(** What is assumed of the decorator: it runs the function it is given,
    or does nothing. *)
Definition runs_or_skips : Prop :=
  forall f t, run_if_enabled f t = f t \/ run_if_enabled f t = t.

End Functions.

End VKeys.


(** ** [src/pyqt_template_manager.py] *)

Module TemplateManager.

Import Py.
Import Capture.

(** A region of interest: x, y, width, height. *)
Definition ROI := (Z * Z * Z * Z)%type.

(** The attributes of an [ImageViewer] that selecting a region reads and
    writes. The displayed pixmap is known by its width and height, the
    widget by its size. *)
Record ImageViewer := {
  original_image : option Frame;
  displayed_pixmap : option (Z * Z);
  size : Z * Z;
  point1 : option (Z * Z);
  point2 : option (Z * Z);
  dragging : bool
}.

Inductive MouseButton := LeftButton | RightButton | MiddleButton.

Definition is_left (b : MouseButton) : bool :=
  match b with
  | LeftButton => true
  | _ => false
  end.

Section Viewer.

(** [scaled display orig disp] is [int(display * (orig / disp))] as
    floating-point arithmetic computes it, for [disp] other than zero. *)
Variable scaled : Z -> Z -> Z -> Z.

(** [widget_to_image]; [(None, None)] is [None], and a division by zero
    raises. *)
Definition widget_to_image (v : ImageViewer) (widget_x widget_y : Z)
    : Outcome (option (Z * Z)) :=
  match original_image v, displayed_pixmap v with
  | Some image, Some (disp_w, disp_h) =>
      let orig_h := shape0 image in
      let orig_w := shape1 image in
      let offset_x := (fst (size v) - disp_w) / 2 in
      let offset_y := (snd (size v) - disp_h) / 2 in
      let display_x := widget_x - offset_x in
      let display_y := widget_y - offset_y in
      if (display_x <? 0) || (display_y <? 0)
         || (disp_w <=? display_x) || (disp_h <=? display_y) then Ok None
      else if (disp_w =? 0) || (disp_h =? 0) then Raise
      else
        let image_x := scaled display_x orig_w disp_w in
        let image_y := scaled display_y orig_h disp_h in
        Ok (Some (Z.max 0 (Z.min image_x (orig_w - 1)),
                  Z.max 0 (Z.min image_y (orig_h - 1))))
  | _, _ => Ok None
  end.

(** [mousePressEvent] *)
Definition mousePressEvent (button : MouseButton) (event_x event_y : Z)
    (v : ImageViewer) : ImageViewer :=
  match original_image v with
  | Some _ =>
      if is_left button then
        {| original_image := original_image v;
           displayed_pixmap := displayed_pixmap v; size := size v;
           point1 := Some (event_x, event_y); point2 := point2 v;
           dragging := true |}
      else v
  | None => v
  end.

(** [mouseMoveEvent] *)
Definition mouseMoveEvent (event_x event_y : Z) (v : ImageViewer)
    : ImageViewer :=
  match original_image v with
  | Some _ =>
      if dragging v then
        {| original_image := original_image v;
           displayed_pixmap := displayed_pixmap v; size := size v;
           point1 := point1 v; point2 := Some (event_x, event_y);
           dragging := dragging v |}
      else v
  | None => v
  end.

(** The rectangle between two image points, emitted when it is more than
    10 wide and more than 10 high. *)
Definition selection (p1 p2 : Z * Z) : option ROI :=
  let x := Z.min (fst p1) (fst p2) in
  let y := Z.min (snd p1) (snd p2) in
  let width := Z.abs (fst p2 - fst p1) in
  let height := Z.abs (snd p2 - snd p1) in
  if (10 <? width) && (10 <? height) then Some (x, y, width, height)
  else None.

(** [mouseReleaseEvent]: the viewer afterwards, and the region emitted
    with [roi_selected], if any. *)
Definition mouseReleaseEvent (button : MouseButton) (event_x event_y : Z)
    (v : ImageViewer) : ImageViewer * Outcome (option ROI) :=
  if is_left button && dragging v then
    let v' := {| original_image := original_image v;
                 displayed_pixmap := displayed_pixmap v; size := size v;
                 point1 := point1 v; point2 := Some (event_x, event_y);
                 dragging := false |} in
    match point1 v' with
    | Some (x1, y1) =>
        match widget_to_image v' x1 y1 with
        | Raise => (v', Raise)
        | Ok p1 =>
            match widget_to_image v' event_x event_y with
            | Raise => (v', Raise)
            | Ok p2 =>
                match p1, p2 with
                | Some p1, Some p2 => (v', Ok (selection p1 p2))
                | _, _ => (v', Ok None)
                end
            end
        end
    | None => (v', Ok None)
    end
  else (v, Ok None).

End Viewer.

(** The attributes of a [TemplateCreatorDialog] that creating a template
    reads and writes. *)
Record Dialog := {
  screenshot : Frame;
  selected_roi : option ROI;
  name_input : string;
  roi_label : string;
  create_button : bool;      (* enabled *)
  test_button : bool
}.

(** [TemplateCreatorDialog.__init__] and [setup_ui] *)
Definition new_Dialog (screenshot : Frame) : Dialog :=
  {| screenshot := screenshot; selected_roi := None;
     name_input := EmptyString; roi_label := "No region selected";
     create_button := false; test_button := false |}.

(** The bounds check of [on_roi_selected] and [create_template]. *)
Definition out_of_bounds (image : Frame) (roi : ROI) : bool :=
  let '(x, y, width, height) := roi in
  (x <? 0) || (y <? 0) || (shape1 image <? x + width)
  || (shape0 image <? y + height).

(** [image[y:y+height, x:x+width]] *)
Definition extract (image : Frame) (roi : ROI) : Frame :=
  let '(x, y, width, height) := roi in
  crop image (x, y) (x + width, y + height).

(** [on_roi_selected]; [template_type] is the current text of the type
    box and [timestamp] is [int(time.time())]. *)
Definition on_roi_selected (roi : ROI) (template_type : string)
    (timestamp : Z) (d : Dialog) : Dialog :=
  if out_of_bounds (screenshot d) roi then d
  else
    let '(x, y, width, height) := roi in
    {| screenshot := screenshot d;
       selected_roi := Some roi;
       name_input := if String.eqb (name_input d) EmptyString
                     then template_type ++ "_" ++ Matcher.str timestamp
                     else name_input d;
       roi_label := "Selected region: " ++ Matcher.str width ++ "x"
                    ++ Matcher.str height ++ " at (" ++ Matcher.str x
                    ++ ", " ++ Matcher.str y ++ ")";
       create_button := true; test_button := true |}.

(** What [create_template] comes to: one of its three warnings, or the
    call of [save_template] with the region cut out of the screenshot. *)
Inductive Creation :=
| Please_select_a_region_and_enter_a_name
| Invalid_ROI_coordinates (roi : ROI) (img_width img_height : Z)
| Invalid_region_selected
| Save (roi_image : Frame) (name template_type : string) (confidence : Q).

Section Create.

(** [str.strip] *)
Variable strip : string -> string.

Definition create_template (template_type : string) (confidence : Q)
    (d : Dialog) : Creation :=
  match selected_roi d with
  | None => Please_select_a_region_and_enter_a_name
  | Some roi =>
      if String.eqb (name_input d) EmptyString then
        Please_select_a_region_and_enter_a_name
      else if out_of_bounds (screenshot d) roi then
        Invalid_ROI_coordinates roi (shape1 (screenshot d))
                                (shape0 (screenshot d))
      else
        let roi_image := extract (screenshot d) roi in
        if (shape0 roi_image =? 0) || (shape1 roi_image =? 0) then
          Invalid_region_selected
        else Save roi_image (strip (name_input d)) template_type confidence
  end.

End Create.

(** A frame as numpy holds it: every row has the same length. *)
Definition rectangular (image : Frame) : Prop :=
  Forall (fun row => Z.of_nat (length row) = shape1 image) image.

End TemplateManager.


(** ** [src/main_gui.py] *)

Module MainGui.

Import Py.
Import Matcher.

(** [s.startswith(sep)] *)
Fixpoint startswith (s sep : string) {struct sep} : bool :=
  match sep with
  | EmptyString => true
  | String a sep' =>
      match s with
      | EmptyString => false
      | String b s' => Ascii.eqb a b && startswith s' sep'
      end
  end.

(** [s.split(sep)[0]] for a separator that is not empty: the text before
    the first occurrence of the separator, or all of [s]. *)
Fixpoint split_head (sep s : string) : string :=
  if startswith s sep then EmptyString
  else match s with
       | EmptyString => EmptyString
       | String c s' => String c (split_head sep s')
       end.

(** [sep in s] *)
Fixpoint occurs (sep s : string) : bool :=
  if startswith s sep then true
  else match s with
       | EmptyString => false
       | String _ s' => occurs sep s'
       end.

Section Listbox.

(** [f"{confidence:.2f}"] *)
Variable format_2f : Q -> string.

(** The line of the list box for one entry of [get_template_list]
    (in [refresh_template_list]); a missing [name] or [type] raises
    [KeyError]. *)
Definition display_text (template : Listed) : Outcome string :=
  match md_name (listed_metadata template),
        md_type (listed_metadata template) with
  | Some name, Some template_type =>
      let size := listed_size template in
      let confidence :=
        get_default (md_confidence_threshold (listed_metadata template))
                    (7 # 10) in
      Ok (name ++ " (" ++ template_type ++ ") - " ++ size ++ " - "
          ++ format_2f confidence)%string
  | _, _ => Raise
  end.

End Listbox.

(** The name [delete_template] takes from the selected line. *)
Definition selected_name (selected_text : string) : string :=
  split_head " (" selected_text.

End MainGui.


(** ** Concrete scenarios *)

Module Scenario.

Import Capture.

(** A black 60 x 60 frame. *)
Definition frame60 : Frame := repeat (repeat (0, 0, 0, 255) 60%nat) 60%nat.

(** Two distinct 20 x 20 corner templates and the 16 x 16 player marker. *)
Definition tl_template : Template := dummy_template 20.
Definition br_template : Template := repeat (repeat 0 20%nat) 20%nat.
Definition marker : Template := PLAYER_TEMPLATE None.

(** A matcher that finds the top-left corner template at (30, 30) and the
    bottom-right corner template at (0, 0), so that its bottom-right
    corner is (20, 20): the anchors sit the wrong way round. *)
Definition crossed_single_match (f : Frame) (t : Template)
    : option Point * option Point :=
  match t with
  | (255 :: _) :: _ => (Some (30, 30), Some (50, 50))
  | _ => (Some (0, 0), Some (20, 20))
  end.

(** A matcher that finds the corners of a 40 x 30 minimap region. *)
Definition plain_single_match (f : Frame) (t : Template)
    : option Point * option Point :=
  match t with
  | (255 :: _) :: _ => (Some (1, 5), Some (21, 25))
  | _ => (Some (30, 29), Some (50, 49))
  end.

(** The player marker is nowhere in the crop. *)
Definition no_multi_match (f : Frame) (t : Template) (threshold : Q)
    : list Point := [].

(** [convert_to_relative]: the point divided by the size of the crop. *)
Definition relative (p : Point) (f : Frame) : Q * Q :=
  ((inject_Z (fst p) / inject_Z (shape1 f))%Q,
   (inject_Z (snd p) / inject_Z (shape0 f))%Q).

Definition config0 : Config :=
  {| player_pos := (1 # 4, 1 # 2)%Q; bot := None; path := [] |}.

Definition tracking_state : State :=
  {| frame := None; minimap := None; minimap_ratio := 1;
     minimap_sample := None; window := default_window;
     ready := false; calibrated := true |}.

(** *** Matching scenarios *)

Import Py.
Import Matcher.

(** A correlation map of the given size that is 0 except at the listed
    (row, column) peaks. *)
Definition peak_at (peaks : list (nat * nat * Q)) (row column : nat) : Q :=
  match find (fun p => Nat.eqb (fst (fst p)) row && Nat.eqb (snd (fst p)) column)
             peaks with
  | Some p => snd p
  | None => 0%Q
  end.

Definition peak_map (rows columns : nat) (peaks : list (nat * nat * Q))
    : list (list Q) :=
  map (fun r => map (peak_at peaks r) (seq 0 columns)) (seq 0 rows).

(** A stand-in for OpenCV in the scenarios. The grey image of an image is
    the image itself. [matchTemplate] does what OpenCV does with the
    sizes: when the image is smaller than the template in a dimension it
    requires the image to be no larger than the template in both and
    then exchanges the two, and it raises when that requirement fails;
    the map has one entry per placement of the smaller in the larger.
    The peaks of the map are chosen by the first byte of the template
    given. *)
Definition peaks_of (template : Image) : list (nat * nat * Q) :=
  match pixels template with
  | 1 :: _ => [(0, 0, 95 # 100); (8, 8, 80 # 100)]%nat
  | 2 :: _ => [(4, 4, 90 # 100)]%nat
  | 3 :: _ => [(3, 3, 60 # 100)]%nat
  | 4 :: _ => [(0, 0, 95 # 100); (0, 2, 90 # 100); (0, 4, 85 # 100)]%nat
  | 5 :: _ => [(0, 0, 95 # 100); (0, 2, 90 # 100)]%nat
  | 6 :: _ => [(0, 1, 92 # 100)]%nat
  | 7 :: _ => [(1, 1, 1 # 1)]%nat
  | _ => []
  end.

Definition scenario_cv2 : OpenCV :=
  {| cvtColor := fun img => Ok img;
     matchTemplate := fun img templ =>
       let needswap := (shape0 img <? shape0 templ)
                       || (shape1 img <? shape1 templ) in
       if needswap then
         if (shape0 img <=? shape0 templ) && (shape1 img <=? shape1 templ)
         then Ok (peak_map (Z.to_nat (shape0 templ - shape0 img + 1))
                           (Z.to_nat (shape1 templ - shape1 img + 1))
                           (peaks_of templ))
         else Raise
       else Ok (peak_map (Z.to_nat (shape0 img - shape0 templ + 1))
                         (Z.to_nat (shape1 img - shape1 templ + 1))
                         (peaks_of templ)) |}.

Definition image (rows columns : nat) (tag : Z) : Image :=
  {| shape0 := Z.of_nat rows; shape1 := Z.of_nat columns;
     pixels := repeat tag (rows * columns * 3) |}.

Definition screen12 : Image := image 12 12 0.

Definition entry (name template_type : string) (threshold : Q) (img : Image)
    : string * TemplateData :=
  (name,
   new_template_data img
     {| md_name := Some name; md_type := Some template_type;
        md_created := Some 0%Q; md_confidence_threshold := Some threshold;
        md_width := Some (shape1 img); md_height := Some (shape0 img) |}).

(** A matcher as [__init__] leaves it, over the given cache. *)
Definition matcher_with (cache : dict TemplateData) : TemplateMatcher :=
  {| template_cache := cache; confidence_threshold := 7 # 10;
     nms_threshold := 3 # 10 |}.

(** A monster template seen at (0, 0) with 0.95 and at (8, 8) with 0.80,
    and a player template seen at (4, 4) with 0.90. *)
Definition two_categories : TemplateMatcher :=
  matcher_with [entry "slime" "monster" (7 # 10) (image 2 2 1);
                entry "hero" "player" (7 # 10) (image 2 2 2)].

(** A template saved with threshold 0.5 and seen once with 0.60. *)
Definition low_threshold : TemplateMatcher :=
  matcher_with [entry "ghost" "monster" (5 # 10) (image 2 2 3)].

(** A 4 x 4 monster template seen at x = 0, 2 and 4 of the top row with
    0.95, 0.90 and 0.85: each box overlaps the next with IoU 1/3, the
    first and the last do not meet. *)
Definition chain : TemplateMatcher :=
  matcher_with [entry "slime" "monster" (7 # 10) (image 4 4 4)].

(** A 4 x 4 monster template seen at x = 0 with 0.95 and at x = 2 with
    0.90, the two boxes overlapping with IoU 1/3, and a 4 x 4 player
    template seen at x = 1 with 0.92, overlapping both. *)
Definition overlapping_pair : TemplateMatcher :=
  matcher_with [entry "slime" "monster" (7 # 10) (image 4 4 5);
                entry "hero" "player" (7 # 10) (image 4 4 6)].

Definition found (x y size : Z) (confidence : Q) (name template_type : string)
    : TemplateMatch :=
  new_TemplateMatch x y size size confidence name template_type.

(** *** Library scenarios *)

(** A directory as two dictionaries, one of images and one of sidecars; a
    file that cannot be decoded is [None]. [png_locked] lists the names
    whose image file cannot be written or removed, [json_locked] those
    whose sidecar cannot. A file name of more than [NAME_MAX] characters
    cannot be used at all: asking whether it exists raises [OSError]. *)
Record Disk := {
  pngs : dict (option Image);
  jsons : dict (option Metadata);
  png_locked : list string;
  json_locked : list string
}.

Definition NAME_MAX : Z := 255.

Definition too_long (file_name : string) : bool :=
  NAME_MAX <? Z.of_nat (String.length file_name).

Definition png (name : string) : string := name ++ ".png".
Definition json (name : string) : string := name ++ ".json".

Definition is_locked (locked : list string) (name : string) : bool :=
  existsb (String.eqb name) locked.

Definition disk_img_exists (d : Disk) (name : string) : Outcome bool :=
  if too_long (png name) then Raise else Ok (dict_mem (pngs d) name).

Definition disk_meta_exists (d : Disk) (name : string) : Outcome bool :=
  if too_long (json name) then Raise else Ok (dict_mem (jsons d) name).

Definition disk_imread (d : Disk) (name : string) : Outcome (option Image) :=
  match dict_get (pngs d) name with
  | Some img => Ok img
  | None => Ok None
  end.

Definition disk_load_json (d : Disk) (name : string) : Outcome Metadata :=
  match dict_get (jsons d) name with
  | Some (Some md) => Ok md
  | _ => Raise
  end.

(** [cv2.imwrite] reports a file it cannot write by returning [False]. *)
Definition disk_imwrite (d : Disk) (name : string) (img : Image)
    : Disk * Outcome bool :=
  if is_locked (png_locked d) name || too_long (png name) then (d, Ok false)
  else ({| pngs := dict_set (pngs d) name (Some img); jsons := jsons d;
           png_locked := png_locked d; json_locked := json_locked d |},
        Ok true).

(** [open(path, 'w')] raises on a file it cannot write. *)
Definition disk_dump_json (d : Disk) (name : string) (md : Metadata)
    : Disk * Outcome unit :=
  if is_locked (json_locked d) name || too_long (json name) then (d, Raise)
  else ({| pngs := pngs d; jsons := dict_set (jsons d) name (Some md);
           png_locked := png_locked d; json_locked := json_locked d |},
        Ok tt).

Definition disk_unlink_img (d : Disk) (name : string) : Disk * Outcome unit :=
  if is_locked (png_locked d) name || too_long (png name) then (d, Raise)
  else ({| pngs := dict_del (pngs d) name; jsons := jsons d;
           png_locked := png_locked d; json_locked := json_locked d |},
        Ok tt).

Definition disk_unlink_meta (d : Disk) (name : string) : Disk * Outcome unit :=
  if is_locked (json_locked d) name || too_long (json name) then (d, Raise)
  else ({| pngs := pngs d; jsons := dict_del (jsons d) name;
           png_locked := png_locked d; json_locked := json_locked d |},
        Ok tt).

#[global] Instance disk_store : BackingStore Disk := {|
  img_exists := disk_img_exists;
  meta_exists := disk_meta_exists;
  glob_png := fun d => map fst (pngs d);
  imread := disk_imread;
  load_json := disk_load_json;
  imwrite := disk_imwrite;
  dump_json := disk_dump_json;
  unlink_img := disk_unlink_img;
  unlink_meta := disk_unlink_meta
|}.

(** A clock that starts at [start] and advances by a second with every
    reading. *)
Definition wall_clock (start : Q) : Clock :=
  {| time_at := fun n => (start + inject_Z (Z.of_nat n))%Q; calls := 0 |}.

(** A name of 300 characters. *)
Definition long_name : string := string_of_list_ascii (repeat "a"%char 300).

Definition slime_metadata : Metadata :=
  {| md_name := Some "slime"%string; md_type := Some "monster"%string;
     md_created := Some 100%Q; md_confidence_threshold := Some (75 # 100);
     md_width := Some 2; md_height := Some 2 |}.

(** A directory with a good template, an image without sidecar, an
    undecodable image and a good image with an unparsable sidecar. *)
Definition mixed_disk : Disk :=
  {| pngs := [("slime"%string, Some (image 2 2 1));
              ("broken"%string, None);
              ("orphan"%string, Some (image 3 3 2));
              ("garbled"%string, Some (image 2 2 3))];
     jsons := [("slime"%string, Some slime_metadata);
               ("garbled"%string, None)];
     png_locked := []; json_locked := [] |}.

(** A directory in which the image file of "slime" exists and is
    read-only, while new files can be created. *)
Definition readonly_png_disk : Disk :=
  {| pngs := [("slime"%string, Some (image 2 2 1))];
     jsons := [];
     png_locked := ["slime"%string]; json_locked := [] |}.

(** A matcher over a directory, with an empty log, at time 200. *)
Definition a_world (d : Disk) (cache : dict TemplateData) : World :=
  {| store := d; self := matcher_with cache; log := [];
     clock := wall_clock 200 |}.

(** The same at another time. *)
Definition a_world_at (start : Q) (d : Disk) (cache : dict TemplateData)
    : World :=
  {| store := d; self := matcher_with cache; log := [];
     clock := wall_clock start |}.

(** A cache with one template four times as large as a 2 x 2 frame; the
    frame shows the block at (1, 1) of the template. *)
Definition oversized : TemplateMatcher :=
  matcher_with [entry "banner" "ui" (7 # 10) (image 4 4 7)].

(** *** A capture thread over several screenshots *)

(** A failed screenshot, two screenshots of the black frame (the first
    with a game window found) and another failed screenshot. *)
Definition four_passes : list Capture.Pass :=
  [Capture.Build_Pass None None;
   Capture.Build_Pass (Some (Capture.Build_Window 100 50 800 600))
                      (Some frame60);
   Capture.Build_Pass None (Some frame60);
   Capture.Build_Pass None None].

(** *** A routine of three elements *)

Definition routine3 : Bot.EmptyRoutine string :=
  Bot.Build_EmptyRoutine 0 ["walk"; "jump"; "attack"]%string.

(** *** Windows on the screen *)

(** No window matches a pattern. *)
Definition never_matches (pattern text : string) : bool := false.

Definition safari : WindowDetector.WindowInfo :=
  WindowDetector.Build_WindowInfo "Apple" "Safari" 2 1200 800 50 50.

(** Three windows, none of a game, two of them of the size of a game
    window. *)
Definition desktop : list WindowDetector.WindowInfo :=
  [WindowDetector.Build_WindowInfo "Documents" "Finder" 1 1000 700 0 0;
   safari;
   WindowDetector.Build_WindowInfo "bash" "Terminal" 3 500 300 0 0].

(** *** Key presses *)

(** Names are given in lower case already. *)
Definition same_case (s : string) : string := s.

(** The bot is enabled at the start and disabled by the time anything has
    happened. *)
Definition enabled_at_first (f : VKeys.Trace -> VKeys.Trace)
    (t : VKeys.Trace) : VKeys.Trace :=
  match t with
  | [] => f t
  | _ :: _ => t
  end.

Definition half (t : VKeys.Trace) : Q := 1 # 2.

(** *** Selecting a region *)

(** Scaling without rounding error. *)
Definition exact_scaled (display orig disp : Z) : Z := display * orig / disp.

(** A 40 x 40 viewer showing the black frame at 30 x 30, with the mouse
    pressed at (7, 7). *)
Definition viewer60 : TemplateManager.ImageViewer :=
  TemplateManager.Build_ImageViewer (Some frame60) (Some (30, 30)) (40, 40)
    (Some (7, 7)) None true.

(** *** A line of the list box *)

Definition two_decimals (q : Q) : string := "0.70".

Definition slime_listed : Listed :=
  listed (entry "slime" "monster" (7 # 10) (image 2 2 1)).

End Scenario.


(** ** Properties of the capture loop *)

Module CaptureProps.

Import Capture.

(** *** Slices *)


Lemma slice_subset (A : Type) (l : list A) (lo hi : Z) (a : A) :
  In a (Py.slice l lo hi) -> In a l.
Proof.
  unfold Py.slice. intros Hin.
  set (a0 := Z.to_nat (Py.slice_index (Z.of_nat (length l)) lo)) in *.
  set (n0 := Z.to_nat _) in Hin.
  rewrite <- (firstn_skipn a0 l). apply in_or_app. right.
  rewrite <- (firstn_skipn n0 (skipn a0 l)). apply in_or_app. now left.
Qed.

(** *** The clamped rectangle *)

Section Rectangle.

Variable pt : Template.

Lemma mm_br_width (tl br : Point) :
  PT_WIDTH pt <= rect_width (mm_tl_of tl) (mm_br_of pt tl br).
Proof. unfold rect_width, mm_br_of, mm_tl_of. simpl. lia. Qed.

Lemma mm_br_height (tl br : Point) :
  PT_HEIGHT pt <= rect_height (mm_tl_of tl) (mm_br_of pt tl br).
Proof. unfold rect_height, mm_br_of, mm_tl_of. simpl. lia. Qed.

End Rectangle.

Lemma truediv_defined (a b : Z) :
  b <> 0 -> Py.truediv a b = Some (inject_Z a / inject_Z b)%Q.
Proof.
  intros Hb. unfold Py.truediv.
  destruct (Z.eqb_spec b 0); [contradiction | reflexivity].
Qed.

(** *** The calibration cycle *)




(** C1, as the code has it. From an uncalibrated state and with a player
    template that is not empty, a calibration cycle enters tracking (and
    sets [calibrated]) exactly when the screenshot succeeded and both
    anchors were found; the rectangle it then publishes is the derived
    rectangle (anchors moved by the border insets) where that is at least
    as large as the player template, and otherwise is grown to the size of
    the player template from the top-left corner. In every other case the
    state stays uncalibrated. *)
Theorem calibrates_exactly_when_anchors_found
    (TL BR pt : Template)
    (single_match : Frame -> Template -> option Point * option Point)
    (wi : option Window) (shot : option Frame) (s : State) :
  0 < PT_HEIGHT pt ->
  calibrated s = false ->
  match calibration_cycle TL BR pt single_match wi shot s with
  | Tracking s' mm_tl mm_br =>
      calibrated s' = true /\
      exists f tl br,
        shot = Some f /\
        fst (single_match f TL) = Some tl /\
        snd (single_match f BR) = Some br /\
        mm_tl = derived_tl tl /\
        fst mm_br =
          (if PT_WIDTH pt <=? rect_width (derived_tl tl) (derived_br br)
           then fst (derived_br br)
           else fst (derived_tl tl) + PT_WIDTH pt) /\
        snd mm_br =
          (if PT_HEIGHT pt <=? rect_height (derived_tl tl) (derived_br br)
           then snd (derived_br br)
           else snd (derived_tl tl) + PT_HEIGHT pt)
  | Retry s' =>
      calibrated s' = false /\
      (shot = None \/
       exists f, shot = Some f /\
         (fst (single_match f TL) = None \/ snd (single_match f BR) = None))
  | Crashed => False
  end.
Proof.
  intros Hh Hcal. unfold calibration_cycle.
  destruct shot as [f|]; [| simpl; auto].
  destruct (fst (single_match f TL)) as [tl|] eqn:Htl;
    [| simpl; split; [assumption | right; exists f; auto]].
  destruct (snd (single_match f BR)) as [br|] eqn:Hbr;
    [| simpl; split; [assumption | right; exists f; auto]].
  pose proof (mm_br_height pt tl br) as Hheight.
  unfold rect_height in Hheight.
  rewrite truediv_defined by lia.
  split; [reflexivity|].
  exists f, tl, br. repeat split; try assumption.
  - unfold mm_br_of, mm_tl_of, derived_tl, derived_br, rect_width. simpl.
    destruct (Z.leb_spec (PT_WIDTH pt)
                (fst br - MINIMAP_BOTTOM_BORDER - (fst tl + MINIMAP_BOTTOM_BORDER))); lia.
  - unfold mm_br_of, mm_tl_of, derived_tl, derived_br, rect_height. simpl.
    destruct (Z.leb_spec (PT_HEIGHT pt)
                (snd br - MINIMAP_BOTTOM_BORDER - (snd tl + MINIMAP_TOP_BORDER))); lia.
Qed.

(** The theorem on the frame whose anchors sit the wrong way round. *)
Lemma calibrates_exactly_when_anchors_found_witness :
  0 < PT_HEIGHT Scenario.marker /\
  calibrated init = false /\
  match calibration_cycle Scenario.tl_template Scenario.br_template
          Scenario.marker Scenario.crossed_single_match None
          (Some Scenario.frame60) init with
  | Tracking s' mm_tl mm_br =>
      calibrated s' = true /\
      exists f tl br,
        Some Scenario.frame60 = Some f /\
        fst (Scenario.crossed_single_match f Scenario.tl_template) = Some tl /\
        snd (Scenario.crossed_single_match f Scenario.br_template) = Some br /\
        mm_tl = derived_tl tl /\
        fst mm_br =
          (if PT_WIDTH Scenario.marker
                <=? rect_width (derived_tl tl) (derived_br br)
           then fst (derived_br br)
           else fst (derived_tl tl) + PT_WIDTH Scenario.marker) /\
        snd mm_br =
          (if PT_HEIGHT Scenario.marker
                <=? rect_height (derived_tl tl) (derived_br br)
           then snd (derived_br br)
           else snd (derived_tl tl) + PT_HEIGHT Scenario.marker)
  | Retry s' =>
      calibrated s' = false /\
      (Some Scenario.frame60 = None \/
       exists f, Some Scenario.frame60 = Some f /\
         (fst (Scenario.crossed_single_match f Scenario.tl_template) = None \/
          snd (Scenario.crossed_single_match f Scenario.br_template) = None))
  | Crashed => False
  end.
Proof.
  split; [reflexivity|]. split; [reflexivity|].
  apply (@calibrates_exactly_when_anchors_found
           Scenario.tl_template Scenario.br_template Scenario.marker
           Scenario.crossed_single_match None (Some Scenario.frame60) init);
    reflexivity.
Defined.

(** C1, as stated, fails. Both anchors are found, the top-left one at
    (30, 30) and the bottom-right one with its corner at (20, 20): the
    derived rectangle runs from (39, 35) to (11, 11) and is inverted, with
    width -28 and height -24 against a 16 x 16 player marker. The cycle
    does not reject it: it sets [calibrated] and publishes the clamped
    rectangle from (39, 35) to (55, 51). *)
Lemma inverted_rectangle_is_calibrated :
  fst (Scenario.crossed_single_match Scenario.frame60 Scenario.tl_template)
    = Some (30, 30) /\
  snd (Scenario.crossed_single_match Scenario.frame60 Scenario.br_template)
    = Some (20, 20) /\
  rect_width (derived_tl (30, 30)) (derived_br (20, 20)) = -28 /\
  rect_height (derived_tl (30, 30)) (derived_br (20, 20)) = -24 /\
  PT_WIDTH Scenario.marker = 16 /\
  PT_HEIGHT Scenario.marker = 16 /\
  exists s',
    calibration_cycle Scenario.tl_template Scenario.br_template
      Scenario.marker Scenario.crossed_single_match None
      (Some Scenario.frame60) init = Tracking s' (39, 35) (55, 51) /\
    calibrated s' = true.
Proof.
  repeat split; try reflexivity.
  eexists. split; [vm_compute; reflexivity | reflexivity].
Qed.

(** *** Tracking *)

(** C8. While calibrated, a cycle whose screenshot succeeded and in which
    the player marker is not found in the minimap crop leaves the whole
    of [config], so the player position, as it was; the calibration flag,
    the rectangle's ratio and the sample are unchanged, and the
    dictionary published for the GUI carries the previous position. *)
Theorem missed_marker_keeps_last_position
    (pt : Template)
    (multi_match : Frame -> Template -> Q -> list Point)
    (convert_to_relative : Point -> Frame -> Q * Q)
    (mm_tl mm_br : Point) (f : Frame) (c : Config) (s : State) :
  calibrated s = true ->
  multi_match (crop f mm_tl mm_br) pt (8 # 10)%Q = [] ->
  exists s',
    tracking_step pt multi_match convert_to_relative mm_tl mm_br (Some f) c s
      = Next c s' /\
    calibrated s' = true /\
    minimap_ratio s' = minimap_ratio s /\
    minimap_sample s' = minimap_sample s /\
    exists info,
      minimap s' = Some info /\ mi_player_pos info = player_pos c.
Proof.
  intros Hcal Hmiss. unfold tracking_step. rewrite Hcal, Hmiss. simpl.
  eexists. split; [reflexivity|]. simpl.
  repeat split; try assumption. eexists. split; reflexivity.
Qed.

(** The theorem on a frame in which the marker is not seen. *)
Lemma missed_marker_witness :
  calibrated Scenario.tracking_state = true /\
  Scenario.no_multi_match (crop Scenario.frame60 (10, 10) (50, 40))
    Scenario.marker (8 # 10)%Q = [] /\
  exists s',
    tracking_step Scenario.marker Scenario.no_multi_match Scenario.relative
      (10, 10) (50, 40) (Some Scenario.frame60) Scenario.config0
      Scenario.tracking_state = Next Scenario.config0 s' /\
    calibrated s' = true /\
    minimap_ratio s' = minimap_ratio Scenario.tracking_state /\
    minimap_sample s' = minimap_sample Scenario.tracking_state /\
    exists info,
      minimap s' = Some info /\
      mi_player_pos info = player_pos Scenario.config0.
Proof.
  split; [reflexivity|]. split; [reflexivity|].
  apply (@missed_marker_keeps_last_position Scenario.marker
           Scenario.no_multi_match Scenario.relative (10, 10) (50, 40)
           Scenario.frame60 Scenario.config0 Scenario.tracking_state);
    reflexivity.
Defined.

End CaptureProps.


(** ** Properties of the matcher *)

Module MatcherProps.

Import Py.
Import Matcher.

(** *** Dictionaries *)

Section Dict.

Variable V : Type.
Implicit Types (d : dict V) (k : string) (v : V).

Lemma dict_get_set_eq d k v : dict_get (dict_set d k v) k = Some v.
Proof.
  induction d as [|[k' v'] d IH]; simpl.
  - now rewrite String.eqb_refl.
  - destruct (String.eqb k k') eqn:E; simpl; rewrite E; auto.
Qed.

Lemma dict_get_set_ne d k k' v :
  k <> k' -> dict_get (dict_set d k v) k' = dict_get d k'.
Proof.
  intros Hne. induction d as [|[k0 v0] d IH]; simpl.
  - destruct (String.eqb_spec k' k); congruence.
  - destruct (String.eqb_spec k k0); simpl.
    + subst. destruct (String.eqb_spec k' k0); congruence.
    + now rewrite IH.
Qed.

Lemma dict_set_keys d k v :
  forall k', In k' (map fst (dict_set d k v)) <-> k' = k \/ In k' (map fst d).
Proof.
  intros k'. induction d as [|[k0 v0] d IH]; simpl.
  - intuition.
  - destruct (String.eqb_spec k k0); simpl.
    + subst. intuition.
    + rewrite IH. intuition.
Qed.

Lemma dict_set_nodup d k v :
  NoDup (map fst d) -> NoDup (map fst (dict_set d k v)).
Proof.
  induction d as [|[k0 v0] d IH]; simpl; intros Hnd.
  - constructor; [intros [] | constructor].
  - inversion Hnd as [|? ? Hnotin Hnd']; subst.
    destruct (String.eqb_spec k k0); simpl.
    + constructor; assumption.
    + constructor; [| now apply IH].
      rewrite dict_set_keys. intros [Heq | Hin]; congruence.
Qed.

Lemma dict_get_In d k v : dict_get d k = Some v -> In (k, v) d.
Proof.
  induction d as [|[k0 v0] d IH]; simpl; [discriminate|].
  destruct (String.eqb_spec k k0).
  - intros [= ->]. subst. now left.
  - intros Hget. right. now apply IH.
Qed.

Lemma dict_In_get d k v :
  NoDup (map fst d) -> In (k, v) d -> dict_get d k = Some v.
Proof.
  induction d as [|[k0 v0] d IH]; simpl; [contradiction|].
  intros Hnd [Heq | Hin].
  - injection Heq as -> ->. now rewrite String.eqb_refl.
  - inversion Hnd as [|? ? Hnotin Hnd']; subst.
    destruct (String.eqb_spec k k0).
    + subst. exfalso. apply Hnotin. now apply (in_map fst) in Hin.
    + now apply IH.
Qed.

End Dict.

(** *** The stable descending sort *)

Section Sort.

Variable A : Type.
Variable key : A -> Q.

Lemma insert_desc_perm (a : A) (l : list A) :
  Permutation (insert_desc key a l) (a :: l).
Proof.
  induction l as [|b l IH]; simpl.
  - reflexivity.
  - destruct (Qle_bool (key b) (key a)).
    + reflexivity.
    + rewrite IH. apply perm_swap.
Qed.

Lemma sort_desc_perm (l : list A) : Permutation (sort_desc key l) l.
Proof.
  induction l as [|a l IH]; simpl.
  - reflexivity.
  - rewrite insert_desc_perm. now constructor.
Qed.

Lemma sort_desc_In (l : list A) (a : A) : In a (sort_desc key l) <-> In a l.
Proof.
  split; apply Permutation_in;
    [apply sort_desc_perm | symmetry; apply sort_desc_perm].
Qed.

Lemma insert_desc_sorted (a : A) (l : list A) :
  StronglySorted (desc key) l -> StronglySorted (desc key) (insert_desc key a l).
Proof.
  induction l as [|b l IH]; simpl; intros Hs.
  - constructor; constructor.
  - inversion Hs as [|? ? Hs' Hall]; subst.
    destruct (Qle_bool (key b) (key a)) eqn:E.
    + apply Qle_bool_iff in E. constructor; [assumption|].
      constructor; [exact E|].
      eapply Forall_impl; [| exact Hall].
      intros c Hc. unfold desc in *. eapply Qle_trans; eauto.
    + assert (Hlt : (key a <= key b)%Q).
      { destruct (Qlt_le_dec (key a) (key b)) as [Hlt | Hle].
        - now apply Qlt_le_weak.
        - apply Qle_bool_iff in Hle. congruence. }
      constructor; [now apply IH|].
      eapply Permutation_Forall; [symmetry; apply insert_desc_perm|].
      constructor; assumption.
Qed.

Lemma sort_desc_sorted (l : list A) :
  StronglySorted (desc key) (sort_desc key l).
Proof.
  induction l as [|a l IH]; simpl.
  - constructor.
  - now apply insert_desc_sorted.
Qed.

End Sort.

(** *** Locations above the threshold *)

Lemma combine_seq_In (A : Type) (l : list A) (start i : nat) (a : A) :
  In (i, a) (combine (seq start (length l)) l)
  <-> (start <= i)%nat /\ nth_error l (i - start) = Some a.
Proof.
  revert start. induction l as [|b l IH]; intros start; simpl.
  - split; [contradiction|]. intros [_ Hnth].
    destruct (i - start)%nat; discriminate.
  - rewrite IH. split.
    + intros [Heq | [Hle Hnth]].
      * injection Heq as -> ->. split; [lia|].
        now rewrite Nat.sub_diag.
      * split; [lia|].
        replace (i - start)%nat with (S (i - S start)) by lia. exact Hnth.
    + intros [Hle Hnth].
      destruct (Nat.eq_dec i start) as [-> | Hne].
      * rewrite Nat.sub_diag in Hnth. simpl in Hnth.
        injection Hnth as ->. now left.
      * right. split; [lia|].
        replace (i - start)%nat with (S (i - S start)) in Hnth by lia.
        exact Hnth.
Qed.

Lemma enumerate_In (A : Type) (l : list A) (i : nat) (a : A) :
  In (i, a) (enumerate l) <-> nth_error l i = Some a.
Proof.
  unfold enumerate. rewrite combine_seq_In, Nat.sub_0_r.
  split; [tauto | intros; split; [lia | assumption]].
Qed.

(** [np.where(result >= threshold)] lists exactly the positions of the map
    whose entry reaches the threshold. *)
Lemma where_ge_In (result : list (list Q)) (threshold : Q) (row column : nat) :
  In (row, column) (where_ge result threshold)
  <-> exists v, result_at result row column = Some v /\ (threshold <= v)%Q.
Proof.
  unfold where_ge, result_at. rewrite in_flat_map. split.
  - intros [[r cells] [Hr Hin]]. simpl in Hin.
    apply in_map_iff in Hin. destruct Hin as [[c v] [Heq Hin]].
    simpl in Heq. injection Heq as -> ->.
    apply filter_In in Hin. destruct Hin as [Hin Hge]. simpl in Hge.
    apply enumerate_In in Hr. apply enumerate_In in Hin.
    rewrite Hr. exists v. split; [assumption | now apply Qle_bool_iff].
  - intros [v [Hat Hge]].
    destruct (nth_error result row) as [cells|] eqn:Hr; [| discriminate].
    exists (row, cells). split; [now apply enumerate_In|]. simpl.
    apply in_map_iff. exists (column, v). split; [reflexivity|].
    apply filter_In. split; [now apply enumerate_In|].
    simpl. now apply Qle_bool_iff.
Qed.

(** No location found is outside the map: reading the confidence back
    never raises. *)
Lemma where_ge_in_range (result : list (list Q)) (threshold : Q) :
  Forall (fun rc => result_at result (fst rc) (snd rc) <> None)
         (where_ge result threshold).
Proof.
  apply Forall_forall. intros [row column] Hin.
  apply where_ge_In in Hin. destruct Hin as [v [Hat _]].
  simpl. congruence.
Qed.

(** The match built for a location. *)
Lemma collect_all (result : list (list Q)) (template : Image)
    (name template_type : string) (locations : list (nat * nat))
    (matches : list TemplateMatch) :
  Forall (fun rc => result_at result (fst rc) (snd rc) <> None) locations ->
  forall m,
    In m (collect result template name template_type locations matches)
    <-> In m matches \/
        exists row column conf,
          In (row, column) locations /\
          result_at result row column = Some conf /\
          m = new_TemplateMatch (Z.of_nat column) (Z.of_nat row)
                (shape1 template) (shape0 template) conf name template_type.
Proof.
  revert matches. induction locations as [|[row column] rest IH];
    intros matches Hall m; simpl.
  - split; [auto | intros [H | [? [? [? [[] _]]]]]; exact H].
  - inversion Hall as [|? ? Hhead Hrest]; subst. simpl in Hhead.
    destruct (result_at result row column) as [conf|] eqn:Hat;
      [| congruence].
    rewrite IH by assumption. rewrite in_app_iff. simpl. split.
    + intros [[Hin | [Heq | []]] | [r [c [v [Hin [Hv Hm]]]]]].
      * now left.
      * right. exists row, column, conf. auto.
      * right. exists r, c, v. auto.
    + intros [Hin | [r [c [v [[Heq | Hin] [Hv Hm]]]]]].
      * auto.
      * injection Heq as <- <-. rewrite Hat in Hv. injection Hv as <-.
        left. right. left. now symmetry.
      * right. exists r, c, v. auto.
Qed.

(** *** Non-maximum suppression *)

Lemma intersect_comm (a b : Box) : intersect a b = intersect b a.
Proof.
  unfold intersect.
  rewrite (Z.max_comm (box_x a)), (Z.max_comm (box_y a)).
  rewrite (Z.min_comm (box_x a + box_w a)), (Z.min_comm (box_y a + box_h a)).
  reflexivity.
Qed.

Lemma rectOverlap_comm (a b : Box) : rectOverlap a b = rectOverlap b a.
Proof.
  unfold rectOverlap. now rewrite intersect_comm, (Z.add_comm (area a)).
Qed.

Lemma compatible_comm (boxes : list Box) (thr : Q) (i k : nat) :
  compatible boxes thr i k = compatible boxes thr k i.
Proof. unfold compatible. now rewrite rectOverlap_comm. Qed.

Lemma forallb_false_witness (A : Type) (f : A -> bool) (l : list A) :
  forallb f l = false -> exists a, In a l /\ f a = false.
Proof.
  induction l as [|a l IH]; simpl; [discriminate|].
  destruct (f a) eqn:E; simpl.
  - intros Hl. destruct (IH Hl) as [b [Hin Hb]]. exists b. auto.
  - intros _. exists a. auto.
Qed.

Lemma FOP_snoc (A : Type) (R : A -> A -> Prop) (l : list A) (a : A) :
  ForallOrdPairs R l -> Forall (fun b => R b a) l ->
  ForallOrdPairs R (l ++ [a]).
Proof.
  induction 1 as [|b l Hb Hl IH]; intros Hall; simpl.
  - constructor; constructor.
  - inversion Hall; subst. constructor; [| now apply IH].
    apply Forall_app. split; [assumption | constructor; [assumption | constructor]].
Qed.

Section Greedy.

Variable boxes : list Box.
Variable thr : Q.

(** The kept indices only grow. *)
Lemma nms_loop_keeps (order : list (nat * Q)) (kept : list nat) (k : nat) :
  In k kept -> In k (nms_loop boxes thr order kept).
Proof.
  revert kept. induction order as [|[idx s] rest IH]; intros kept Hin; simpl.
  - assumption.
  - destruct (forallb _ kept); apply IH; [apply in_or_app; now left | assumption].
Qed.

Lemma nms_loop_from (order : list (nat * Q)) (kept : list nat) (k : nat) :
  In k (nms_loop boxes thr order kept) ->
  In k kept \/ In k (map fst order).
Proof.
  revert kept. induction order as [|[idx s] rest IH]; intros kept; simpl.
  - auto.
  - destruct (forallb _ kept); intros Hin; apply IH in Hin.
    + destruct Hin as [Hin | Hin]; [| auto].
      apply in_app_or in Hin. destruct Hin as [Hin | [-> | []]]; auto.
    + tauto.
Qed.

(** Any two kept boxes are compatible. *)
Lemma nms_loop_pairwise (order : list (nat * Q)) (kept : list nat) :
  ForallOrdPairs (fun k1 k2 => compatible boxes thr k2 k1 = true) kept ->
  ForallOrdPairs (fun k1 k2 => compatible boxes thr k2 k1 = true)
                 (nms_loop boxes thr order kept).
Proof.
  revert kept. induction order as [|[idx s] rest IH]; intros kept Hk; simpl.
  - assumption.
  - destruct (forallb _ kept) eqn:E; apply IH; [| assumption].
    apply FOP_snoc; [assumption|].
    apply Forall_forall. intros k Hin.
    rewrite forallb_forall in E. now apply E.
Qed.

(** A visited candidate is kept, or some kept box of at least its score
    is incompatible with it. *)
Lemma nms_loop_dropped (sc : nat -> Q) (order : list (nat * Q)) (kept : list nat) :
  StronglySorted (desc snd) order ->
  (forall p, In p order -> snd p = sc (fst p)) ->
  (forall k p, In k kept -> In p order -> (snd p <= sc k)%Q) ->
  forall p, In p order ->
    In (fst p) (nms_loop boxes thr order kept) \/
    exists k, In k (nms_loop boxes thr order kept) /\
              compatible boxes thr (fst p) k = false /\
              (snd p <= sc k)%Q.
Proof.
  revert kept. induction order as [|[idx s] rest IH];
    intros kept Hsorted Hsc Hkept p Hin; [contradiction|].
  inversion Hsorted as [|? ? Hsorted' Hhead]; subst.
  simpl. destruct Hin as [<- | Hin].
  - simpl. destruct (forallb _ kept) eqn:E.
    + left. apply nms_loop_keeps. apply in_or_app. right. now left.
    + right. apply forallb_false_witness in E. destruct E as [k [Hk Hbad]].
      exists k. split; [now apply nms_loop_keeps|]. split; [assumption|].
      apply (Hkept k (idx, s)); [assumption | now left].
  - assert (Hsc' : forall q, In q rest -> snd q = sc (fst q))
      by (intros q Hq; apply Hsc; now right).
    destruct (forallb _ kept); apply IH; try assumption.
    + intros k q Hk Hq. apply in_app_or in Hk.
      destruct Hk as [Hk | [<- | []]].
      * apply Hkept; [assumption | now right].
      * pose proof (Hsc (idx, s) (or_introl eq_refl)) as Hs. simpl in Hs.
        rewrite <- Hs. rewrite Forall_forall in Hhead. exact (Hhead q Hq).
    + intros k q Hk Hq. apply Hkept; [assumption | now right].
Qed.

End Greedy.

(** The visiting order of [NMSBoxes]: the indices whose score exceeds the
    score threshold. *)
Lemma score_order_In (scores : list Q) (floor : Q) (i : nat) (s : Q) :
  In (i, s) (score_order scores floor)
  <-> nth_error scores i = Some s /\ (floor < s)%Q.
Proof.
  unfold score_order. rewrite sort_desc_In, filter_In, enumerate_In. simpl.
  split; intros [Hnth Hs]; split; try assumption.
  - destruct (Qlt_le_dec floor s) as [Hlt | Hle]; [assumption|].
    apply Qle_bool_iff in Hle. rewrite Hle in Hs. discriminate.
  - destruct (Qle_bool s floor) eqn:E; [| reflexivity].
    apply Qle_bool_iff in E. exfalso. eapply Qlt_not_le; eauto.
Qed.

Section Boxes.

Variable boxes : list Box.
Variable scores : list Q.
Variable floor thr : Q.

Lemma NMSBoxes_range (k : nat) :
  In k (NMSBoxes boxes scores floor thr) ->
  exists s, nth_error scores k = Some s /\ (floor < s)%Q.
Proof.
  unfold NMSBoxes. intros Hin. apply nms_loop_from in Hin.
  destruct Hin as [[] | Hin].
  apply in_map_iff in Hin. destruct Hin as [[i s] [<- Hin]].
  apply score_order_In in Hin. exists s. exact Hin.
Qed.

Lemma NMSBoxes_pairwise :
  ForallOrdPairs (fun k1 k2 => compatible boxes thr k2 k1 = true)
                 (NMSBoxes boxes scores floor thr).
Proof. unfold NMSBoxes. apply nms_loop_pairwise. constructor. Qed.

Lemma NMSBoxes_dropped (i : nat) (s : Q) :
  nth_error scores i = Some s -> (floor < s)%Q ->
  In i (NMSBoxes boxes scores floor thr) \/
  exists k s', In k (NMSBoxes boxes scores floor thr) /\
               compatible boxes thr i k = false /\
               nth_error scores k = Some s' /\ (s <= s')%Q.
Proof.
  intros Hnth Hs. unfold NMSBoxes.
  assert (Hin : In (i, s) (score_order scores floor))
    by (apply score_order_In; auto).
  destruct (@nms_loop_dropped boxes thr (fun k => nth k scores 0%Q)
              (score_order scores floor) [])
    with (p := (i, s)) as [Hkept | [k [Hk [Hbad Hle]]]]; try assumption.
  - apply sort_desc_sorted.
  - intros [j t] Hj. apply score_order_In in Hj. destruct Hj as [Hj _].
    simpl. symmetry. now apply nth_error_nth.
  - intros k p [].
  - now left.
  - right. simpl in *.
    destruct (NMSBoxes_range k Hk) as [s' [Hk' _]].
    exists k, s'. repeat split; try assumption.
    now rewrite (nth_error_nth _ _ 0%Q Hk') in Hle.
Qed.

End Boxes.

(** *** Suppression within one category *)

Lemma select_In (type_matches : list TemplateMatch) (indices : list nat)
    (m : TemplateMatch) :
  In m (select type_matches indices)
  <-> exists i, In i indices /\ nth_error type_matches i = Some m.
Proof.
  unfold select. rewrite in_flat_map. split.
  - intros [i [Hi Hm]]. exists i.
    destruct (nth_error type_matches i); [| contradiction].
    destruct Hm as [-> | []]. auto.
  - intros [i [Hi Hm]]. exists i. rewrite Hm. simpl. auto.
Qed.

Lemma nth_box (type_matches : list TemplateMatch) (i : nat) (m : TemplateMatch) :
  nth_error type_matches i = Some m ->
  nth i (map box_of type_matches) (0, 0, 0, 0) = box_of m.
Proof. intros Hnth. apply nth_error_nth. now apply map_nth_error. Qed.

Lemma nth_error_score (type_matches : list TemplateMatch) (i : nat) (s : Q) :
  nth_error (map confidence type_matches) i = Some s ->
  exists m, nth_error type_matches i = Some m /\ confidence m = s.
Proof.
  rewrite nth_error_map. destruct (nth_error type_matches i) as [m|];
    simpl; [| discriminate].
  intros [= <-]. exists m. auto.
Qed.

Section Category.

Variable self : TemplateMatcher.

Lemma nms_group_In (type_matches : list TemplateMatch) (m : TemplateMatch) :
  In m (nms_group self type_matches)
  <-> exists i,
        In i (NMSBoxes (map box_of type_matches) (map confidence type_matches)
                       (confidence_threshold self) (nms_threshold self)) /\
        nth_error type_matches i = Some m.
Proof.
  destruct type_matches as [|m0 rest].
  - simpl. split; [contradiction | intros [i [[] _]]].
  - unfold nms_group. apply select_In.
Qed.

(** What survives in a category was a candidate of it, with a confidence
    above the score threshold. *)
Lemma nms_group_subset (type_matches : list TemplateMatch) (m : TemplateMatch) :
  In m (nms_group self type_matches) ->
  In m type_matches /\ (confidence_threshold self < confidence m)%Q.
Proof.
  rewrite nms_group_In. intros [i [Hi Hm]]. split.
  - eapply nth_error_In; eauto.
  - apply NMSBoxes_range in Hi. destruct Hi as [s [Hs Hlt]].
    apply nth_error_score in Hs. destruct Hs as [m' [Hm' <-]].
    congruence.
Qed.

(** Two survivors of a category overlap by at most the threshold. *)
Lemma nms_group_separated (type_matches : list TemplateMatch)
    (a b : TemplateMatch) :
  In a (nms_group self type_matches) ->
  In b (nms_group self type_matches) ->
  a = b \/ (rectOverlap (box_of a) (box_of b) <= nms_threshold self)%Q.
Proof.
  rewrite !nms_group_In. intros [i [Hi Ha]] [j [Hj Hb]].
  pose proof (NMSBoxes_pairwise (map box_of type_matches)
                (map confidence type_matches)
                (confidence_threshold self) (nms_threshold self)) as Hpw.
  destruct (ForallOrdPairs_In Hpw i j Hi Hj) as [-> | [H | H]].
  - left. congruence.
  - right. rewrite compatible_comm in H. unfold compatible in H.
    rewrite (nth_box _ _ Ha), (nth_box _ _ Hb) in H.
    now apply Qle_bool_iff.
  - right. unfold compatible in H.
    rewrite (nth_box _ _ Ha), (nth_box _ _ Hb) in H.
    now apply Qle_bool_iff.
Qed.

(** A candidate above the score threshold survives, or a survivor of at
    least its confidence overlaps it beyond the threshold. *)
Lemma nms_group_dropped (type_matches : list TemplateMatch) (m : TemplateMatch) :
  In m type_matches ->
  (confidence_threshold self < confidence m)%Q ->
  In m (nms_group self type_matches) \/
  exists m', In m' (nms_group self type_matches) /\
             (nms_threshold self < rectOverlap (box_of m) (box_of m'))%Q /\
             (confidence m <= confidence m')%Q.
Proof.
  intros Hin Hfloor. apply In_nth_error in Hin. destruct Hin as [i Hi].
  assert (Hs : nth_error (map confidence type_matches) i = Some (confidence m))
    by now apply map_nth_error.
  destruct (@NMSBoxes_dropped (map box_of type_matches)
              (map confidence type_matches) (confidence_threshold self)
              (nms_threshold self) i (confidence m) Hs Hfloor)
    as [Hkept | [k [s' [Hk [Hbad [Hk' Hle]]]]]].
  - left. apply nms_group_In. exists i. auto.
  - right. apply nth_error_score in Hk'. destruct Hk' as [m' [Hm' <-]].
    exists m'. split; [apply nms_group_In; exists k; auto|].
    split; [| assumption].
    unfold compatible in Hbad.
    rewrite (nth_box _ _ Hi), (nth_box _ _ Hm') in Hbad.
    apply Qnot_le_lt. intros Hle'. apply Qle_bool_iff in Hle'. congruence.
Qed.

End Category.

(** *** Grouping by category *)

Lemma group_add_get (g : dict (list TemplateMatch)) (m : TemplateMatch)
    (ty : string) :
  dict_get (group_add g m) ty =
  if of_type ty m
  then Some (get_default (dict_get g ty) [] ++ [m])
  else dict_get g ty.
Proof.
  unfold group_add, of_type.
  destruct (String.eqb_spec (template_type m) ty) as [<- | Hne].
  - destruct (dict_get g (template_type m)); now rewrite dict_get_set_eq.
  - destruct (dict_get g (template_type m)); now rewrite dict_get_set_ne.
Qed.

Lemma group_fold_get (ms : list TemplateMatch) (g : dict (list TemplateMatch))
    (ty : string) :
  dict_get (fold_left group_add ms g) ty =
  match filter (of_type ty) ms with
  | [] => dict_get g ty
  | l => Some (get_default (dict_get g ty) [] ++ l)
  end.
Proof.
  revert g. induction ms as [|m ms IH]; intros g; simpl; [reflexivity|].
  rewrite IH, group_add_get.
  destruct (of_type ty m); [| reflexivity].
  simpl. destruct (filter (of_type ty) ms); [reflexivity|].
  now rewrite <- app_assoc.
Qed.

Lemma group_fold_nodup (ms : list TemplateMatch) (g : dict (list TemplateMatch)) :
  NoDup (map fst g) -> NoDup (map fst (fold_left group_add ms g)).
Proof.
  revert g. induction ms as [|m ms IH]; intros g Hnd; simpl; [assumption|].
  apply IH. unfold group_add.
  destruct (dict_get g (template_type m)); now apply dict_set_nodup.
Qed.

(** The groups are the non-empty categories, each with its matches in the
    order of the input. *)
Lemma group_by_type_In (ms : list TemplateMatch) (ty : string)
    (l : list TemplateMatch) :
  In (ty, l) (group_by_type ms)
  <-> l = filter (of_type ty) ms /\ l <> [].
Proof.
  unfold group_by_type. split.
  - intros Hin. apply dict_In_get in Hin; [| apply group_fold_nodup; constructor].
    rewrite group_fold_get in Hin. simpl in Hin.
    destruct (filter (of_type ty) ms); [discriminate|].
    injection Hin as <-. split; [reflexivity | discriminate].
  - intros [-> Hne]. apply dict_get_In. rewrite group_fold_get. simpl.
    destruct (filter (of_type ty) ms); [contradiction | reflexivity].
Qed.

Section Suppression.

Variable self : TemplateMatcher.

Lemma apply_nms_groups (ms : list TemplateMatch) :
  _apply_nms self ms
  = flat_map (fun g => nms_group self (snd g)) (group_by_type ms).
Proof. destruct ms; reflexivity. Qed.

(** Categories are suppressed apart: a match is in the result exactly when
    it survives among the matches of its own category. *)
Lemma apply_nms_In (ms : list TemplateMatch) (m : TemplateMatch) :
  In m (_apply_nms self ms)
  <-> In m (nms_group self (filter (of_type (template_type m)) ms)).
Proof.
  rewrite apply_nms_groups, in_flat_map. split.
  - intros [[ty l] [Hg Hm]]. simpl in Hm.
    apply group_by_type_In in Hg. destruct Hg as [-> _].
    pose proof (nms_group_subset _ _ _ Hm) as [Hin _].
    apply filter_In in Hin. destruct Hin as [_ Hty].
    unfold of_type in Hty. apply String.eqb_eq in Hty. now rewrite Hty.
  - intros Hm. exists (template_type m, filter (of_type (template_type m)) ms).
    split; [| exact Hm].
    apply group_by_type_In. split; [reflexivity|].
    pose proof (nms_group_subset _ _ _ Hm) as [Hin _].
    intros Hnil. rewrite Hnil in Hin. contradiction.
Qed.

Lemma apply_nms_subset (ms : list TemplateMatch) (m : TemplateMatch) :
  In m (_apply_nms self ms) ->
  In m ms /\ (confidence_threshold self < confidence m)%Q.
Proof.
  rewrite apply_nms_In. intros Hm.
  apply nms_group_subset in Hm. destruct Hm as [Hin Hfloor].
  apply filter_In in Hin. tauto.
Qed.

Lemma apply_nms_separated (ms : list TemplateMatch) (a b : TemplateMatch) :
  In a (_apply_nms self ms) -> In b (_apply_nms self ms) ->
  template_type a = template_type b ->
  a = b \/ (rectOverlap (box_of a) (box_of b) <= nms_threshold self)%Q.
Proof.
  rewrite !apply_nms_In. intros Ha Hb Hty. rewrite Hty in Ha.
  eapply nms_group_separated; eauto.
Qed.

Lemma apply_nms_dropped (ms : list TemplateMatch) (m : TemplateMatch) :
  In m ms ->
  (confidence_threshold self < confidence m)%Q ->
  In m (_apply_nms self ms) \/
  exists m', In m' (_apply_nms self ms) /\
             template_type m' = template_type m /\
             (nms_threshold self < rectOverlap (box_of m) (box_of m'))%Q /\
             (confidence m <= confidence m')%Q.
Proof.
  intros Hin Hfloor.
  assert (Hmine : In m (filter (of_type (template_type m)) ms)).
  { apply filter_In. split; [assumption|]. unfold of_type.
    apply String.eqb_refl. }
  destruct (nms_group_dropped self _ _ Hmine Hfloor)
    as [Hkept | [m' [Hm' [Hov Hle]]]].
  - left. now apply apply_nms_In.
  - right. exists m'.
    pose proof (nms_group_subset _ _ _ Hm') as [Hin' _].
    apply filter_In in Hin'. destruct Hin' as [_ Hty].
    unfold of_type in Hty. apply String.eqb_eq in Hty.
    repeat split; try assumption.
    apply apply_nms_In. now rewrite Hty.
Qed.

End Suppression.

(** *** [match_templates] *)

Section Result.

Variable cv2 : OpenCV.
Variable self : TemplateMatcher.
Variable screen : Image.
Variable types : option (list string).

Lemma match_templates_subset (m : TemplateMatch) :
  In m (match_templates cv2 self (Some screen) types) ->
  In m (collect_matches cv2 self screen types) /\
  (confidence_threshold self < confidence m)%Q.
Proof.
  unfold match_templates. intros Hm. apply apply_nms_subset in Hm.
  now rewrite sort_desc_In in Hm.
Qed.

Lemma match_templates_dropped (m : TemplateMatch) :
  In m (collect_matches cv2 self screen types) ->
  (confidence_threshold self < confidence m)%Q ->
  In m (match_templates cv2 self (Some screen) types) \/
  exists m', In m' (match_templates cv2 self (Some screen) types) /\
             template_type m' = template_type m /\
             (nms_threshold self < rectOverlap (box_of m) (box_of m'))%Q /\
             (confidence m <= confidence m')%Q.
Proof.
  intros Hin Hfloor. unfold match_templates.
  apply apply_nms_dropped; [| assumption]. now apply sort_desc_In.
Qed.

End Result.

(** Every offset of the correlation map that reaches the threshold of the
    template becomes a match of [_match_single_template], with the
    confidence found there, and nothing else does. *)
Lemma match_single_template_In (cv2 : OpenCV) (screen template : Image)
    (name template_type : string) (threshold : Q)
    (screen_gray template_gray : Image) (result : list (list Q))
    (m : TemplateMatch) :
  cvtColor cv2 screen = Ok screen_gray ->
  cvtColor cv2 template = Ok template_gray ->
  matchTemplate cv2 screen_gray template_gray = Ok result ->
  In m (_match_single_template cv2 screen template name template_type threshold)
  <-> exists row column conf,
        result_at result row column = Some conf /\
        (threshold <= conf)%Q /\
        m = new_TemplateMatch (Z.of_nat column) (Z.of_nat row)
              (shape1 template) (shape0 template) conf name template_type.
Proof.
  intros Hs Ht Hr. unfold _match_single_template. rewrite Hs, Ht, Hr.
  rewrite collect_all by apply where_ge_in_range. split.
  - intros [[] | [row [column [conf [Hin [Hat Hm]]]]]].
    apply where_ge_In in Hin. destruct Hin as [v [Hv Hge]].
    exists row, column, conf. repeat split; try assumption.
    rewrite Hat in Hv. now injection Hv as ->.
  - intros [row [column [conf [Hat [Hge Hm]]]]]. right.
    exists row, column, conf. repeat split; try assumption.
    apply where_ge_In. exists conf. auto.
Qed.

(** C3, as the code has it. In the result of [match_templates]: two
    different detections of one category overlap by at most the
    suppression threshold, so of two candidates that overlap beyond it at
    most one survives; a candidate above the score threshold is dropped
    only when a surviving detection of its own category and of at least
    its confidence overlaps it beyond the threshold; a candidate above the
    score threshold that no other candidate of its category overlaps
    beyond the threshold survives, whatever overlaps it from other
    categories; and where two overlapping candidates are the only ones of
    their category, the one of higher confidence survives and the other
    does not. *)
Theorem suppression_is_greedy_within_each_category
    (cv2 : OpenCV) (self : TemplateMatcher) (screen : Image)
    (types : option (list string)) :
  let candidates := collect_matches cv2 self screen types in
  let result := match_templates cv2 self (Some screen) types in
  (forall a b, In a result -> In b result ->
     template_type a = template_type b -> a <> b ->
     (rectOverlap (box_of a) (box_of b) <= nms_threshold self)%Q) /\
  (forall m, In m candidates ->
     (confidence_threshold self < confidence m)%Q ->
     In m result \/
     exists m', In m' result /\
                template_type m' = template_type m /\
                (nms_threshold self < rectOverlap (box_of m) (box_of m'))%Q /\
                (confidence m <= confidence m')%Q) /\
  (forall m, In m candidates ->
     (confidence_threshold self < confidence m)%Q ->
     (forall m', In m' candidates -> template_type m' = template_type m ->
        m' = m \/
        (rectOverlap (box_of m) (box_of m') <= nms_threshold self)%Q) ->
     In m result) /\
  (forall a b, In a candidates -> In b candidates ->
     template_type a = template_type b ->
     (confidence b < confidence a)%Q ->
     (confidence_threshold self < confidence a)%Q ->
     (nms_threshold self < rectOverlap (box_of a) (box_of b))%Q ->
     (forall m, In m candidates -> template_type m = template_type a ->
        m = a \/ m = b) ->
     In a result /\ ~ In b result).
Proof.
  intros candidates result.
  assert (Hsep : forall a b, In a result -> In b result ->
            template_type a = template_type b -> a <> b ->
            (rectOverlap (box_of a) (box_of b) <= nms_threshold self)%Q).
  { intros a b Ha Hb Hty Hne.
    destruct (apply_nms_separated self _ a b Ha Hb Hty); [contradiction | assumption]. }
  assert (Hdrop : forall m, In m candidates ->
            (confidence_threshold self < confidence m)%Q ->
            In m result \/
            exists m', In m' result /\
                       template_type m' = template_type m /\
                       (nms_threshold self < rectOverlap (box_of m) (box_of m'))%Q /\
                       (confidence m <= confidence m')%Q)
    by (intros m; apply match_templates_dropped).
  split; [exact Hsep|]. split; [exact Hdrop|]. split.
  - intros m Hin Hfloor Halone.
    destruct (Hdrop m Hin Hfloor) as [Hm | [m' [Hm' [Hty [Hov _]]]]];
      [assumption|].
    pose proof (match_templates_subset _ _ _ _ _ Hm') as [Hcand _].
    destruct (Halone m' Hcand Hty) as [-> | Hle]; [assumption|].
    exfalso. exact (Qlt_not_le _ _ Hov Hle).
  - intros a b Ha Hb Hty Hconf Hfloor Hov Honly.
    assert (Hkept : In a result).
    { destruct (Hdrop a Ha Hfloor) as [Hm | [m' [Hm' [Hty' [_ Hle]]]]];
        [assumption|].
      pose proof (match_templates_subset _ _ _ _ _ Hm') as [Hcand _].
      destruct (Honly m' Hcand Hty') as [-> | ->]; [assumption|].
      exfalso. exact (Qlt_not_le _ _ Hconf Hle). }
    split; [assumption|]. intros Hb'.
    assert (Hne : a <> b).
    { intros ->. exact (Qlt_irrefl _ Hconf). }
    apply (Qlt_not_le _ _ Hov). now apply Hsep.
Qed.

(** The theorem on two overlapping monster detections and a player
    detection that overlaps both: the stronger monster and the player
    survive, the weaker monster does not. *)
Lemma suppression_witness :
  let a := Scenario.found 0 0 4 (95 # 100) "slime" "monster" in
  let b := Scenario.found 2 0 4 (90 # 100) "slime" "monster" in
  let h := Scenario.found 1 0 4 (92 # 100) "hero" "player" in
  let result := match_templates Scenario.scenario_cv2 Scenario.overlapping_pair
                  (Some Scenario.screen12) None in
  (In a result /\ ~ In b result) /\ In h result.
Proof.
  intros a b h result.
  pose proof (suppression_is_greedy_within_each_category
                Scenario.scenario_cv2 Scenario.overlapping_pair
                Scenario.screen12 None) as [_ [_ [Halone Hpair]]].
  split.
  - apply (Hpair a b).
    + vm_compute. auto.
    + vm_compute. auto.
    + reflexivity.
    + reflexivity.
    + reflexivity.
    + reflexivity.
    + intros m Hin Hty. vm_compute in Hin.
      destruct Hin as [<- | [<- | [<- | []]]];
        [left; reflexivity | right; reflexivity | discriminate Hty].
  - apply (Halone h).
    + vm_compute. auto.
    + reflexivity.
    + intros m Hin Hty. vm_compute in Hin.
      destruct Hin as [<- | [<- | [<- | []]]];
        [discriminate Hty | discriminate Hty | left; reflexivity].
Defined.

(** C3, as stated, fails. Three detections of one monster template sit in
    a row at x = 0, 2 and 4 with confidences 0.95, 0.90 and 0.85; each
    4 x 4 box overlaps the next with IoU 1/3, above the threshold 0.3, and
    the outer two do not meet. The middle one is suppressed by the first,
    and the last one then survives: of the overlapping pair (0.90, 0.85)
    it is the one of lower confidence that is in the result. *)
Lemma lower_confidence_of_a_pair_survives :
  let a := Scenario.found 0 0 4 (95 # 100) "slime" "monster" in
  let b := Scenario.found 2 0 4 (90 # 100) "slime" "monster" in
  let c := Scenario.found 4 0 4 (85 # 100) "slime" "monster" in
  collect_matches Scenario.scenario_cv2 Scenario.chain Scenario.screen12 None
    = [a; b; c] /\
  template_type b = template_type c /\
  (nms_threshold Scenario.chain < rectOverlap (box_of b) (box_of c))%Q /\
  (confidence c < confidence b)%Q /\
  match_templates Scenario.scenario_cv2 Scenario.chain
    (Some Scenario.screen12) None = [a; c].
Proof. repeat split; reflexivity. Qed.

(** C2: the code drops a candidate that reached its own threshold and
    that nothing overlaps. The template "ghost" carries the threshold 0.5
    and correlates with 0.60 at (3, 3): that offset is collected, it is
    the only candidate, and the result is empty, because [NMSBoxes] is
    given the global [confidence_threshold] 0.7 as its score threshold. *)
Theorem score_threshold_drops_a_collected_candidate :
  let ghost := Scenario.found 3 3 2 (60 # 100) "ghost" "monster" in
  collect_matches Scenario.scenario_cv2 Scenario.low_threshold
    Scenario.screen12 None = [ghost] /\
  (5 # 10 <= confidence ghost)%Q /\
  match_templates Scenario.scenario_cv2 Scenario.low_threshold
    (Some Scenario.screen12) None = [].
Proof.
  repeat split; try reflexivity. vm_compute. discriminate.
Qed.

(** C7: the result is the concatenation of the categories, each sorted,
    and not sorted as a whole. A monster template is seen with 0.95 and
    0.80 and a player template with 0.90, nothing overlapping: the result
    lists 0.95, 0.80, 0.90. *)
Theorem result_is_not_sorted_across_categories :
  let result := match_templates Scenario.scenario_cv2 Scenario.two_categories
                  (Some Scenario.screen12) None in
  result = [Scenario.found 0 0 2 (95 # 100) "slime" "monster";
            Scenario.found 8 8 2 (80 # 100) "slime" "monster";
            Scenario.found 4 4 2 (90 # 100) "hero" "player"] /\
  ~ StronglySorted (desc confidence) result.
Proof.
  intros result.
  assert (Hres : result =
            [Scenario.found 0 0 2 (95 # 100) "slime" "monster";
             Scenario.found 8 8 2 (80 # 100) "slime" "monster";
             Scenario.found 4 4 2 (90 # 100) "hero" "player"])
    by reflexivity.
  split; [exact Hres|]. rewrite Hres. intros Hsorted.
  inversion Hsorted as [|? ? Htail _]; subst.
  inversion Htail as [|? ? _ Hall]; subst.
  inversion Hall as [|? ? Hle _]; subst.
  vm_compute in Hle. now apply Hle.
Qed.

(** What of C6 holds for every OpenCV: a template whose correlation
    with the frame is refused, by raising, is not found; an unset frame
    gives the empty list; and every location at which a confidence is
    read lies inside the correlation map. *)
Lemma refused_template_is_not_found (cv2 : OpenCV) :
  (forall screen template name template_type threshold,
     (forall screen_gray template_gray,
        cvtColor cv2 screen = Ok screen_gray ->
        cvtColor cv2 template = Ok template_gray ->
        matchTemplate cv2 screen_gray template_gray = Raise) ->
     _match_single_template cv2 screen template name template_type threshold
       = []) /\
  (forall self types, match_templates cv2 self None types = []) /\
  (forall result threshold,
     Forall (fun rc => result_at result (fst rc) (snd rc) <> None)
            (where_ge result threshold)).
Proof.
  split; [| split].
  - intros screen template name ty thr Hrefuse.
    unfold _match_single_template.
    destruct (cvtColor cv2 screen) as [sg|] eqn:Hs; [| reflexivity].
    destruct (cvtColor cv2 template) as [tg|] eqn:Ht; [| reflexivity].
    now rewrite (Hrefuse sg tg eq_refl eq_refl).
  - reflexivity.
  - intros result threshold. apply where_ge_in_range.
Qed.

(** C6: the code finds a template that is larger than the frame. The
    source has no size check of its own and relies on
    [cv2.matchTemplate] raising; but for a template that is at least as
    large as the image in both dimensions OpenCV exchanges the two and
    returns the map of the image inside the template. Here the cache
    holds the 4 x 4 template "banner" and the frame is 2 x 2 and shows the
    block at (1, 1) of the template: the correlation is 1 there, and
    [_match_single_template] and [match_templates] return a match of
    width 4 and height 4 at (1, 1), a box that ends outside the frame. *)
Theorem oversized_template_is_reported_as_found :
  let frame := Scenario.image 2 2 0 in
  let template := Scenario.image 4 4 7 in
  let m := Scenario.found 1 1 4 (1 # 1) "banner" "ui" in
  shape0 frame < shape0 template /\ shape1 frame < shape1 template /\
  _match_single_template Scenario.scenario_cv2 frame template
    "banner" "ui" (7 # 10) = [m] /\
  match_templates Scenario.scenario_cv2 Scenario.oversized (Some frame) None
  = [m] /\
  shape1 frame < x m + width m /\ shape0 frame < y m + height m.
Proof. repeat split; reflexivity. Qed.

End MatcherProps.


(** ** Properties of the template library *)

Module LibraryProps.

Import Py.
Import Matcher.
Import MatcherProps.

Section Store.

Context {Store : Type} `{BackingStore Store}.

(** *** Loading *)

(** What is read for a template does not depend on the clock, except for
    the creation time given to a template without sidecar. *)
Lemma read_template_message (s : Store) (c c' : Clock) (name : string)
    (msg : Message) :
  fst (read_template s c name) = inl msg ->
  fst (read_template s c' name) = inl msg.
Proof.
  unfold read_template.
  destruct (img_exists s name) as [[|]|]; simpl; auto.
  destruct (imread s name) as [[img|]|]; simpl; auto.
  destruct (meta_exists s name) as [[|]|]; simpl; auto;
    [| discriminate].
  destruct (load_json s name); simpl; [discriminate | auto].
Qed.

Lemma read_template_data (s : Store) (c c' : Clock) (name : string)
    (td : TemplateData) :
  fst (read_template s c name) = inr td ->
  exists td',
    fst (read_template s c' name) = inr td' /\
    forget_created td' = forget_created td /\
    (meta_exists s name = Ok true -> td' = td).
Proof.
  unfold read_template.
  destruct (img_exists s name) as [[|]|]; simpl; try discriminate.
  destruct (imread s name) as [[img|]|]; simpl; try discriminate.
  destruct (meta_exists s name) as [[|]|]; simpl; try discriminate.
  - destruct (load_json s name) as [md|]; simpl; [| discriminate].
    intros [= <-]. eexists. repeat split.
  - intros [= <-]. eexists. repeat split. discriminate.
Qed.

Lemma load_template_store (name : string) (w : World) :
  store (snd (load_template name w)) = store w.
Proof.
  unfold load_template.
  destruct (read_template (store w) (clock w) name) as [[msg | td] c];
    reflexivity.
Qed.

Lemma load_template_get (name name' : string) (w : World) :
  dict_get (template_cache (self (snd (load_template name w)))) name' =
  match fst (read_template (store w) (clock w) name) with
  | inr td => if String.eqb name name' then Some td
              else dict_get (template_cache (self w)) name'
  | inl _ => dict_get (template_cache (self w)) name'
  end.
Proof.
  unfold load_template.
  destruct (read_template (store w) (clock w) name) as [[msg | td] c]; simpl;
    [reflexivity|].
  destruct (String.eqb_spec name name') as [<- | Hne].
  - apply dict_get_set_eq.
  - now apply dict_get_set_ne.
Qed.

Lemma load_template_log (name : string) (w : World) :
  log (snd (load_template name w)) =
  log w ++ [match fst (read_template (store w) (clock w) name) with
            | inl msg => msg
            | inr _ => Loaded_template name
            end].
Proof.
  unfold load_template.
  destruct (read_template (store w) (clock w) name) as [[msg | td] c];
    reflexivity.
Qed.

(** The loop of [load_all_templates] over the names found. *)
Lemma load_loop (names : list string) (w : World) :
  let w' := fold_left (fun w name => snd (load_template name w)) names w in
  store w' = store w /\
  (forall msg, In msg (log w) -> In msg (log w')) /\
  (forall name, ~ In name names ->
     dict_get (template_cache (self w')) name
     = dict_get (template_cache (self w)) name) /\
  (forall name c td, In name names ->
     fst (read_template (store w) c name) = inr td ->
     exists c' td',
       fst (read_template (store w) c' name) = inr td' /\
       dict_get (template_cache (self w')) name = Some td') /\
  (forall name c msg, In name names ->
     fst (read_template (store w) c name) = inl msg ->
     dict_get (template_cache (self w')) name
     = dict_get (template_cache (self w)) name /\
     In msg (log w')).
Proof.
  revert w. induction names as [|name0 rest IH]; intros w; simpl.
  - repeat split; auto; contradiction.
  - destruct (IH (snd (load_template name0 w)))
      as [Hstore [Hlog [Hout [Hok Hbad]]]].
    rewrite load_template_store in *.
    assert (Hkeep : forall name,
              name <> name0 \/
              (exists c msg, fst (read_template (store w) c name) = inl msg) ->
              dict_get (template_cache (self (snd (load_template name0 w)))) name
              = dict_get (template_cache (self w)) name).
    { intros name Hcase. rewrite load_template_get.
      destruct (fst (read_template (store w) (clock w) name0))
        as [msg0 | td0] eqn:E0; [reflexivity|].
      destruct (String.eqb_spec name0 name) as [<- | Hne]; [| reflexivity].
      destruct Hcase as [Hne | [c [msg Hmsg]]]; [congruence|].
      apply (read_template_message _ c (clock w)) in Hmsg. congruence. }
    split; [assumption|]. split; [| split; [| split]].
    + intros msg Hin. apply Hlog. rewrite load_template_log.
      apply in_or_app. now left.
    + intros name Hnot. rewrite Hout by tauto. apply Hkeep. left.
      intros ->. tauto.
    + intros name c td Hin Hread.
      destruct (in_dec string_dec name rest) as [Hrest | Hrest];
        [now apply (Hok name c td)|].
      destruct Hin as [<- | Hin]; [| contradiction].
      destruct (read_template_data _ c (clock w) _ Hread) as [td' [Hread' _]].
      exists (clock w), td'. split; [exact Hread'|].
      rewrite Hout by assumption. rewrite load_template_get, Hread'.
      now rewrite String.eqb_refl.
    + intros name c msg Hin Hread.
      destruct (in_dec string_dec name rest) as [Hrest | Hrest].
      * destruct (Hbad name c msg Hrest Hread) as [Hget Hmsg].
        split; [| assumption]. rewrite Hget. apply Hkeep. right. eauto.
      * destruct Hin as [<- | Hin]; [| contradiction].
        split.
        -- rewrite Hout by assumption. apply Hkeep. right. eauto.
        -- apply Hlog. rewrite load_template_log.
           rewrite (read_template_message _ c (clock w) _ Hread).
           apply in_or_app. right. now left.
Qed.

(** C5. [load_all_templates] rebuilds the cache from the directory alone:
    a name that is not listed is not cached afterwards, whatever the cache
    held before. Of the names listed, an image without sidecar is cached
    with default metadata (type "unknown", threshold 0.7); an image with a
    readable sidecar is cached with that metadata; a missing or
    undecodable image is left out and a warning about it is logged; an
    image for which an existence check or the reading raises, or whose
    sidecar cannot be parsed, is left out and the error is logged. Each of
    these holds whatever the other files of the directory are, so one bad
    file stops nothing. *)
Theorem load_all_skips_what_it_cannot_read (w : World) :
  let s := store w in
  let w' := load_all_templates w in
  let cache' := template_cache (self w') in
  store w' = s /\
  (forall name, ~ In name (glob_png s) -> dict_get cache' name = None) /\
  (forall name img,
     In name (glob_png s) ->
     img_exists s name = Ok true -> imread s name = Ok (Some img) ->
     meta_exists s name = Ok false ->
     exists md,
       dict_get cache' name
       = Some {| td_image := img; td_metadata := md;
                 td_height := shape0 img; td_width := shape1 img |} /\
       md_name md = Some name /\
       md_type md = Some "unknown"%string /\
       md_confidence_threshold md = Some (7 # 10)%Q) /\
  (forall name img md,
     In name (glob_png s) ->
     img_exists s name = Ok true -> imread s name = Ok (Some img) ->
     meta_exists s name = Ok true -> load_json s name = Ok md ->
     dict_get cache' name
     = Some {| td_image := img; td_metadata := md;
               td_height := shape0 img; td_width := shape1 img |}) /\
  (forall name,
     In name (glob_png s) ->
     img_exists s name = Ok false \/
     (img_exists s name = Ok true /\ imread s name = Ok None) ->
     dict_get cache' name = None /\
     exists msg,
       In msg (log w') /\ level msg = WARNING /\
       (msg = Template_image_not_found name \/
        msg = Failed_to_load_template_image name)) /\
  (forall name,
     In name (glob_png s) ->
     img_exists s name = Raise \/
     (img_exists s name = Ok true /\
      (imread s name = Raise \/
       ((exists img, imread s name = Ok (Some img)) /\
        (meta_exists s name = Raise \/
         (meta_exists s name = Ok true /\ load_json s name = Raise))))) ->
     dict_get cache' name = None /\
     In (Error_loading_template name) (log w') /\
     level (Error_loading_template name) = ERROR).
Proof.
  intros s w' cache'.
  pose (cleared := {| store := store w; self := with_cache (self w) [];
                      log := log w; clock := clock w |}).
  destruct (load_loop (glob_png s) cleared)
    as [Hstore [_ [Hout [Hok Hbad]]]].
  simpl in Hstore, Hout, Hok, Hbad. fold s in Hok, Hbad.
  assert (Hlater : forall msg,
            In msg (log (fold_left (fun w name => snd (load_template name w))
                                   (glob_png s) cleared)) ->
            In msg (log w'))
    by (intros msg Hin; simpl; apply in_or_app; now left).
  split; [exact Hstore|]. split; [| split; [| split; [| split]]].
  - intros name Hnot. exact (Hout name Hnot).
  - intros name img Hin Hex Hread Hmeta.
    assert (Hat : forall c,
              fst (read_template s c name)
              = inr (new_template_data img
                       (default_metadata name (time_at c (calls c))))).
    { intros c. unfold read_template. now rewrite Hex, Hread, Hmeta. }
    destruct (Hok name (clock w) _ Hin (Hat (clock w)))
      as [c' [td' [Hread' Hget]]].
    rewrite Hat in Hread'. injection Hread' as <-.
    exists (default_metadata name (time_at c' (calls c'))).
    split; [exact Hget | repeat split].
  - intros name img md Hin Hex Hread Hmeta Hjson.
    assert (Hat : forall c,
              fst (read_template s c name) = inr (new_template_data img md)).
    { intros c. unfold read_template. now rewrite Hex, Hread, Hmeta, Hjson. }
    destruct (Hok name (clock w) _ Hin (Hat (clock w)))
      as [c' [td' [Hread' Hget]]].
    rewrite Hat in Hread'. injection Hread' as <-. exact Hget.
  - intros name Hin Hcase.
    assert (Hmsg : exists msg,
              fst (read_template s (clock w) name) = inl msg /\
              level msg = WARNING /\
              (msg = Template_image_not_found name \/
               msg = Failed_to_load_template_image name)).
    { unfold read_template. destruct Hcase as [Hno | [Hex Hread]].
      - rewrite Hno. eexists. split; [reflexivity|].
        split; [reflexivity | now left].
      - rewrite Hex, Hread. eexists. split; [reflexivity|].
        split; [reflexivity | now right]. }
    destruct Hmsg as [msg [Hread [Hlevel Hform]]].
    destruct (Hbad name _ msg Hin Hread) as [Hget Hlogged].
    split; [exact Hget|]. exists msg. auto.
  - intros name Hin Hcase.
    assert (Hread : fst (read_template s (clock w) name)
                    = inl (Error_loading_template name)).
    { unfold read_template.
      destruct Hcase as [Hex | [Hex [Hraise | [[img Himg] Hmeta]]]].
      - now rewrite Hex.
      - now rewrite Hex, Hraise.
      - rewrite Hex, Himg. destruct Hmeta as [Hmeta | [Hmeta Hjson]].
        + now rewrite Hmeta.
        + now rewrite Hmeta, Hjson. }
    destruct (Hbad name _ _ Hin Hread) as [Hget Hlogged].
    split; [exact Hget|]. split; [| reflexivity]. now apply Hlater.
Qed.

(** *** Saving *)

(** When writing the image or the sidecar raises, [save_template] returns
    [False] and the cache is as before. *)
Lemma save_that_raises_keeps_cache (image : Image) (name template_type : string)
    (threshold : Q) (w : World) :
  snd (imwrite (store w) name image) = Raise \/
  snd (dump_json (fst (imwrite (store w) name image)) name
         (save_metadata image name template_type threshold
            (fst (time_time (clock w))))) = Raise ->
  fst (save_template image name template_type threshold w) = false /\
  self (snd (save_template image name template_type threshold w)) = self w.
Proof.
  unfold save_template.
  destruct (imwrite (store w) name image) as [s1 [flag|]]; simpl.
  - destruct (dump_json s1 name _) as [s2 [u|]]; simpl.
    + intros [Hraise | Hraise]; discriminate.
    + auto.
  - auto.
Qed.

(** *** Deleting *)

Lemma with_cache_same (m : TemplateMatcher) :
  with_cache m (template_cache m) = m.
Proof. now destruct m. Qed.

(** C10, amended. Deleting a name for which both existence checks answer
    no and that has no cache entry returns [True] and changes nothing but
    the log. [delete_template] returns [False] only when an existence
    check raised, or removing the image, or removing the sidecar after
    that, raised; the matcher is then as it was. In particular, when the
    check for the image raises, [False] is returned and nothing is
    changed but the log, whether or not the template exists. *)
Theorem delete_fails_only_when_a_check_or_a_removal_raises
    (name : string) (w : World) :
  (img_exists (store w) name = Ok false ->
   meta_exists (store w) name = Ok false ->
   dict_mem (template_cache (self w)) name = false ->
   delete_template name w = (true, logged w (Template_deleted name))) /\
  (fst (delete_template name w) = false ->
   img_exists (store w) name = Raise \/
   (img_exists (store w) name = Ok true /\
    snd (unlink_img (store w) name) = Raise) \/
   (exists s1,
      s1 = (match img_exists (store w) name with
            | Ok true => fst (unlink_img (store w) name)
            | _ => store w
            end) /\
      (meta_exists s1 name = Raise \/
       (meta_exists s1 name = Ok true /\
        snd (unlink_meta s1 name) = Raise)))) /\
  (fst (delete_template name w) = false ->
   self (snd (delete_template name w)) = self w) /\
  (img_exists (store w) name = Raise ->
   delete_template name w = (false, logged w (Failed_to_delete_template name))).
Proof.
  split; [| split; [| split]].
  - intros Himg Hmeta Hcache. unfold delete_template.
    rewrite Himg, Hmeta, Hcache, with_cache_same. now destruct w.
  - unfold delete_template.
    destruct (img_exists (store w) name) as [[|]|] eqn:Himg.
    + destruct (unlink_img (store w) name) as [s1 [u|]] eqn:Hu; simpl.
      * destruct (meta_exists s1 name) as [[|]|] eqn:Hmeta.
        -- destruct (unlink_meta s1 name) as [s2 [u'|]] eqn:Hu'; simpl;
             [discriminate|].
           intros _. right. right. exists s1. rewrite Hmeta, Hu'. auto.
        -- discriminate.
        -- intros _. right. right. exists s1. rewrite Hmeta. auto.
      * intros _. right. left. auto.
    + destruct (meta_exists (store w) name) as [[|]|] eqn:Hmeta.
      * destruct (unlink_meta (store w) name) as [s2 [u'|]] eqn:Hu'; simpl;
          [discriminate|].
        intros _. right. right. exists (store w). rewrite Hmeta, Hu'. auto.
      * discriminate.
      * intros _. right. right. exists (store w). rewrite Hmeta. auto.
    + intros _. now left.
  - unfold delete_template.
    destruct (match img_exists (store w) name with
              | Ok true => unlink_img (store w) name
              | Ok false => (store w, Ok tt)
              | Raise => (store w, Raise)
              end) as [s1 [u|]]; simpl; [| reflexivity].
    destruct (match meta_exists s1 name with
              | Ok true => unlink_meta s1 name
              | Ok false => (s1, Ok tt)
              | Raise => (s1, Raise)
              end) as [s2 [u'|]]; simpl; [discriminate | reflexivity].
  - intros Himg. unfold delete_template. rewrite Himg. now destruct w.
Qed.

End Store.

(** The theorem on a directory with one template of each kind, loaded
    over a cache that held a stale entry. *)
Lemma load_all_witness :
  let w' := load_all_templates
              (Scenario.a_world Scenario.mixed_disk
                 [Scenario.entry "stale" "monster" (7 # 10) (Scenario.image 1 1 0)]) in
  let cache' := template_cache (self w') in
  dict_get cache' "stale" = None /\
  (exists md,
     dict_get cache' "orphan"
     = Some {| td_image := Scenario.image 3 3 2; td_metadata := md;
               td_height := 3; td_width := 3 |} /\
     md_name md = Some "orphan"%string /\
     md_type md = Some "unknown"%string /\
     md_confidence_threshold md = Some (7 # 10)%Q) /\
  dict_get cache' "slime"
  = Some {| td_image := Scenario.image 2 2 1;
            td_metadata := Scenario.slime_metadata;
            td_height := 2; td_width := 2 |} /\
  (dict_get cache' "broken" = None /\
   exists msg,
     In msg (log w') /\ level msg = WARNING /\
     (msg = Template_image_not_found "broken" \/
      msg = Failed_to_load_template_image "broken")) /\
  (dict_get cache' "garbled" = None /\
   In (Error_loading_template "garbled") (log w') /\
   level (Error_loading_template "garbled") = ERROR).
Proof.
  intros w' cache'.
  destruct (load_all_skips_what_it_cannot_read
              (Scenario.a_world Scenario.mixed_disk
                 [Scenario.entry "stale" "monster" (7 # 10) (Scenario.image 1 1 0)]))
    as [_ [Hout [Hdefault [Hmeta [Hwarn Herr]]]]].
  split; [| split; [| split; [| split]]].
  - apply Hout. vm_compute. intuition discriminate.
  - apply (Hdefault "orphan"%string (Scenario.image 3 3 2));
      try reflexivity. vm_compute. auto.
  - apply (Hmeta "slime"%string (Scenario.image 2 2 1) Scenario.slime_metadata);
      try reflexivity. vm_compute. auto.
  - apply (Hwarn "broken"%string); [vm_compute; auto |].
    right. split; reflexivity.
  - apply (Herr "garbled"%string); [vm_compute; auto |].
    right. split; [reflexivity|]. right.
    split; [eexists; reflexivity|]. right. split; reflexivity.
Defined.

(** The theorem for a name the directory and the cache do not know. *)
Lemma delete_of_absent_template_witness :
  delete_template "nobody" (Scenario.a_world Scenario.mixed_disk [])
  = (true, logged (Scenario.a_world Scenario.mixed_disk [])
                  (Template_deleted "nobody")).
Proof.
  apply (proj1 (delete_fails_only_when_a_check_or_a_removal_raises "nobody"
                  (Scenario.a_world Scenario.mixed_disk [])));
    reflexivity.
Defined.

(** C10, as stated, fails. A name of 300 characters has no image file, no
    sidecar and no cache entry, but the file system refuses to look such
    a name up: [img_path.exists()] raises [OSError] inside the [try], and
    [delete_template] returns [False] for a template that does not
    exist, with no removal and no cache update attempted. *)
Lemma absent_template_with_a_long_name_is_not_deleted :
  let w := Scenario.a_world Scenario.mixed_disk [] in
  dict_get (Scenario.pngs (store w)) Scenario.long_name = None /\
  dict_get (Scenario.jsons (store w)) Scenario.long_name = None /\
  dict_mem (template_cache (self w)) Scenario.long_name = false /\
  delete_template Scenario.long_name w
  = (false, logged w (Failed_to_delete_template Scenario.long_name)).
Proof. repeat split; reflexivity. Qed.

(** C4: the code reports success and caches an image it did not write.
    The directory holds a 2 x 2 image of "slime" and the library was
    loaded from it. The image file is read-only, so [cv2.imwrite] returns
    [False] for the new 3 x 3 image; [save_template] does not read that
    flag, writes the sidecar, replaces the cached image and returns
    [True], while the directory still holds the 2 x 2 image. *)
Theorem save_ignores_a_failed_image_write :
  let old_image := Scenario.image 2 2 1 in
  let new_image := Scenario.image 3 3 5 in
  let w := load_all_templates (Scenario.a_world Scenario.readonly_png_disk []) in
  let saved := save_template new_image "slime" "monster" (75 # 100) w in
  option_map td_image (dict_get (template_cache (self w)) "slime")
    = Some old_image /\
  snd (imwrite (store w) "slime" new_image) = Ok false /\
  fst saved = true /\
  option_map td_image (dict_get (template_cache (self (snd saved))) "slime")
    = Some new_image /\
  dict_get (Scenario.pngs (store (snd saved))) "slime" = Some (Some old_image).
Proof. repeat split; reflexivity. Qed.

End LibraryProps.


(** ** What [match_templates] returns *)

Module ResultProps.

Import Py.
Import Matcher.
Import MatcherProps.

Lemma match_single_template_inv (cv2 : OpenCV) (screen template : Image)
    (name template_type : string) (threshold : Q) (m : TemplateMatch) :
  In m (_match_single_template cv2 screen template name template_type threshold) ->
  exists row column conf,
    (threshold <= conf)%Q /\
    m = new_TemplateMatch (Z.of_nat column) (Z.of_nat row)
          (shape1 template) (shape0 template) conf name template_type.
Proof.
  intros Hin.
  destruct (cvtColor cv2 screen) as [sg|] eqn:Hs;
    [| unfold _match_single_template in Hin; rewrite Hs in Hin; contradiction].
  destruct (cvtColor cv2 template) as [tg|] eqn:Ht;
    [| unfold _match_single_template in Hin; rewrite Hs, Ht in Hin; contradiction].
  destruct (matchTemplate cv2 sg tg) as [result|] eqn:Hr;
    [| unfold _match_single_template in Hin; rewrite Hs, Ht, Hr in Hin;
       contradiction].
  apply (@match_single_template_In cv2 screen template name template_type
           threshold sg tg result m Hs Ht Hr) in Hin.
  destruct Hin as [row [column [conf [_ [Hge Hm]]]]].
  exists row, column, conf. auto.
Qed.

(** X1. Every match [match_templates] returns comes from a template of
    the cache: it carries that template's name and its category (the
    type of its metadata, "unknown" without one), the category passes the
    type filter, its confidence reaches the template's own threshold (the
    matcher's without one) and exceeds the matcher's threshold, its size
    is the template's, and its position is not negative. *)
Theorem every_match_comes_from_a_cached_template
    (cv2 : OpenCV) (self : TemplateMatcher) (screen : Image)
    (types : option (list string)) (m : TemplateMatch) :
  In m (match_templates cv2 self (Some screen) types) ->
  exists td,
    In (template_name m, td) (template_cache self) /\
    template_type m = get_default (md_type (td_metadata td)) "unknown"%string /\
    filtered_out types (template_type m) = false /\
    (get_default (md_confidence_threshold (td_metadata td))
                 (confidence_threshold self) <= confidence m)%Q /\
    (confidence_threshold self < confidence m)%Q /\
    width m = shape1 (td_image td) /\
    height m = shape0 (td_image td) /\
    0 <= x m /\ 0 <= y m.
Proof.
  intros Hin. apply match_templates_subset in Hin. destruct Hin as [Hin Hfloor].
  unfold collect_matches in Hin. apply in_flat_map in Hin.
  destruct Hin as [[name td] [Hentry Hm]]. unfold template_matches in Hm.
  simpl in Hm.
  destruct (filtered_out types _) eqn:Hfilter; [contradiction|].
  apply match_single_template_inv in Hm.
  destruct Hm as [row [column [conf [Hge ->]]]]. simpl.
  exists td. repeat split; auto; lia.
Qed.

(** The theorem on the strongest slime of the two-category scenario. *)
Lemma every_match_witness :
  let m := Scenario.found 0 0 2 (95 # 100) "slime" "monster" in
  In m (match_templates Scenario.scenario_cv2 Scenario.two_categories
          (Some Scenario.screen12) None) /\
  exists td,
    In (template_name m, td) (template_cache Scenario.two_categories) /\
    template_type m = get_default (md_type (td_metadata td)) "unknown"%string /\
    filtered_out None (template_type m) = false /\
    (get_default (md_confidence_threshold (td_metadata td))
                 (confidence_threshold Scenario.two_categories)
     <= confidence m)%Q /\
    (confidence_threshold Scenario.two_categories < confidence m)%Q /\
    width m = shape1 (td_image td) /\
    height m = shape0 (td_image td) /\
    0 <= x m /\ 0 <= y m.
Proof.
  intros m. split; [vm_compute; auto|].
  apply (@every_match_comes_from_a_cached_template Scenario.scenario_cv2
           Scenario.two_categories Scenario.screen12 None m).
  vm_compute. auto.
Defined.

(** X2. [match_templates] returns nothing exactly when no candidate
    collected from the screen has a confidence above the matcher's
    threshold: candidates at or below it are all dropped, whatever the
    thresholds of their templates, and as soon as one candidate exceeds it
    something is returned. *)
Theorem nothing_is_returned_exactly_when_nothing_exceeds_the_score_threshold
    (cv2 : OpenCV) (self : TemplateMatcher) (screen : Image)
    (types : option (list string)) :
  match_templates cv2 self (Some screen) types = [] <->
  (forall c, In c (collect_matches cv2 self screen types) ->
     (confidence c <= confidence_threshold self)%Q).
Proof.
  split.
  - intros Hnil c Hc.
    destruct (Qlt_le_dec (confidence_threshold self) (confidence c))
      as [Hlt | Hle]; [| assumption].
    exfalso.
    destruct (@match_templates_dropped cv2 self screen types c Hc Hlt)
      as [Hin | [m' [Hin _]]]; rewrite Hnil in Hin; contradiction.
  - intros Hall.
    destruct (match_templates cv2 self (Some screen) types) as [|m rest] eqn:E;
      [reflexivity|].
    assert (Hm : In m (match_templates cv2 self (Some screen) types))
      by (rewrite E; now left).
    apply match_templates_subset in Hm. destruct Hm as [Hc Hlt].
    exfalso. exact (Qlt_not_le _ _ Hlt (Hall m Hc)).
Qed.

End ResultProps.


(** ** The best match comes first *)

Module OrderProps.

Import Py.
Import Matcher.
Import MatcherProps.

(** An element that is at least as large as all others is inserted in
    front. *)
Lemma insert_desc_front (A : Type) (key : A -> Q) (a : A) (l : list A) :
  (forall b, In b l -> (key b <= key a)%Q) ->
  insert_desc key a l = a :: l.
Proof.
  destruct l as [|b l]; simpl; [reflexivity|].
  intros Hmax. assert (Hb : (key b <= key a)%Q) by (apply Hmax; now left).
  apply Qle_bool_iff in Hb. now rewrite Hb.
Qed.

Lemma nms_loop_extends (boxes : list Box) (thr : Q) (order : list (nat * Q))
    (kept : list nat) :
  exists extra, nms_loop boxes thr order kept = kept ++ extra.
Proof.
  revert kept. induction order as [|[idx s] rest IH]; intros kept; simpl.
  - exists []. now rewrite app_nil_r.
  - destruct (forallb _ kept).
    + destruct (IH (kept ++ [idx])) as [extra ->].
      exists (idx :: extra). now rewrite <- app_assoc.
    + apply IH.
Qed.

(** The first group is the category of the first match, and starts with
    it. *)
Lemma group_add_first (m : TemplateMatch) (k : string)
    (v : list TemplateMatch) (g : dict (list TemplateMatch)) :
  exists extra g', group_add ((k, v) :: g) m = (k, v ++ extra) :: g'.
Proof.
  unfold group_add. simpl dict_get.
  destruct (String.eqb (template_type m) k) eqn:E.
  - simpl. rewrite E. exists [m], g. reflexivity.
  - destruct (dict_get g (template_type m)); simpl; rewrite E;
      eexists [], _; now rewrite app_nil_r.
Qed.

Lemma group_fold_first (ms : list TemplateMatch) (k : string)
    (v : list TemplateMatch) (g : dict (list TemplateMatch)) :
  exists extra g',
    fold_left group_add ms ((k, v) :: g) = (k, v ++ extra) :: g'.
Proof.
  revert v g. induction ms as [|m ms IH]; intros v g; simpl.
  - exists [], g. now rewrite app_nil_r.
  - destruct (group_add_first m k v g) as [e1 [g1 ->]].
    destruct (IH (v ++ e1) g1) as [e2 [g2 ->]].
    exists (e1 ++ e2), g2. now rewrite app_assoc.
Qed.

Lemma score_order_first (s0 : Q) (ss : list Q) (floor : Q) :
  (floor < s0)%Q ->
  (forall s, In s ss -> (s <= s0)%Q) ->
  exists rest, score_order (s0 :: ss) floor = (0%nat, s0) :: rest.
Proof.
  intros Hfloor Hmax.
  assert (Hpass : Qle_bool s0 floor = false).
  { destruct (Qle_bool s0 floor) eqn:E; [| reflexivity].
    apply Qle_bool_iff in E. exfalso. exact (Qlt_not_le _ _ Hfloor E). }
  unfold score_order, enumerate. simpl. rewrite Hpass. simpl.
  rewrite insert_desc_front; [eauto|].
  intros [i s] Hin. simpl.
  apply (proj1 (sort_desc_In _ _ _)) in Hin.
  apply filter_In in Hin. destruct Hin as [Hin _].
  apply in_combine_r in Hin. now apply Hmax.
Qed.

Lemma NMSBoxes_first (boxes : list Box) (scores : list Q) (floor thr : Q)
    (i : nat) (s : Q) (rest : list (nat * Q)) :
  score_order scores floor = (i, s) :: rest ->
  exists extra, NMSBoxes boxes scores floor thr = i :: extra.
Proof.
  intros Horder. unfold NMSBoxes. rewrite Horder. simpl.
  destruct (nms_loop_extends boxes thr rest [i]) as [extra ->].
  simpl. eauto.
Qed.

Section First.

Variable self : TemplateMatcher.

(** A category whose first match exceeds the score threshold and has the
    highest confidence of the category keeps that match first. *)
Lemma nms_group_first (c0 : TemplateMatch) (rest : list TemplateMatch) :
  (confidence_threshold self < confidence c0)%Q ->
  (forall c, In c rest -> (confidence c <= confidence c0)%Q) ->
  exists tail, nms_group self (c0 :: rest) = c0 :: tail.
Proof.
  intros Hfloor Hmax.
  destruct (@score_order_first (confidence c0) (map confidence rest)
              (confidence_threshold self) Hfloor) as [order Horder].
  { intros s Hs. apply in_map_iff in Hs. destruct Hs as [c [<- Hc]].
    now apply Hmax. }
  destruct (@NMSBoxes_first (map box_of (c0 :: rest))
              (confidence c0 :: map confidence rest)
              (confidence_threshold self) (nms_threshold self) _ _ _ Horder)
    as [extra Hextra].
  unfold nms_group. simpl map in *. rewrite Hextra. simpl. eauto.
Qed.

(** Of a list sorted by descending confidence, suppression returns
    nothing or keeps the first match in front. *)
Lemma apply_nms_first (c0 : TemplateMatch) (rest : list TemplateMatch) :
  (confidence_threshold self < confidence c0)%Q ->
  (forall c, In c rest -> (confidence c <= confidence c0)%Q) ->
  exists tail, _apply_nms self (c0 :: rest) = c0 :: tail.
Proof.
  intros Hfloor Hmax. rewrite apply_nms_groups.
  assert (Hg : exists extra g',
            group_by_type (c0 :: rest) = (template_type c0, c0 :: extra) :: g').
  { unfold group_by_type. simpl fold_left.
    destruct (group_fold_first rest (template_type c0) [c0] [])
      as [extra [g' Hg]].
    exists extra, g'. exact Hg. }
  destruct Hg as [extra [g' Hg]].
  assert (Hin : In (template_type c0, c0 :: extra) (group_by_type (c0 :: rest)))
    by (rewrite Hg; now left).
  apply group_by_type_In in Hin. destruct Hin as [Heq _].
  destruct (@nms_group_first c0 extra Hfloor) as [tail Htail].
  { intros c Hc.
    assert (Hc' : In c (c0 :: extra)) by now right.
    rewrite Heq in Hc'. apply filter_In in Hc'. destruct Hc' as [[<- | Hc'] _].
    - apply Qle_refl.
    - now apply Hmax. }
  rewrite Hg.
  change (exists tail0,
            nms_group self (c0 :: extra)
            ++ flat_map (fun g => nms_group self (snd g)) g' = c0 :: tail0).
  rewrite Htail. simpl. eauto.
Qed.

End First.

(** X3. Although the result is not sorted as a whole, its first match is
    a best one: it is a candidate collected from the screen, and no
    candidate, and so no other match returned, has a higher confidence.
    Reporting [matches[0]] as the best match is right. *)
Theorem first_match_has_the_highest_confidence
    (cv2 : OpenCV) (self : TemplateMatcher) (screen : Image)
    (types : option (list string)) (first : TemplateMatch)
    (others : list TemplateMatch) :
  match_templates cv2 self (Some screen) types = first :: others ->
  In first (collect_matches cv2 self screen types) /\
  (forall c, In c (collect_matches cv2 self screen types) ->
     (confidence c <= confidence first)%Q) /\
  (forall m, In m others -> (confidence m <= confidence first)%Q).
Proof.
  intros Hres.
  assert (Hsub : forall m, In m (first :: others) ->
            In m (collect_matches cv2 self screen types) /\
            (confidence_threshold self < confidence m)%Q).
  { intros m Hm. rewrite <- Hres in Hm. now apply match_templates_subset in Hm. }
  assert (Hbest : forall c, In c (collect_matches cv2 self screen types) ->
            (confidence c <= confidence first)%Q).
  { unfold match_templates in Hres.
    pose proof (sort_desc_sorted confidence
                  (collect_matches cv2 self screen types)) as Hsorted.
    pose proof (sort_desc_In confidence
                  (collect_matches cv2 self screen types)) as Hperm.
    destruct (sort_desc confidence (collect_matches cv2 self screen types))
      as [|c0 rest] eqn:E; [discriminate|].
    inversion Hsorted as [|? ? _ Hall]; subst.
    rewrite Forall_forall in Hall.
    assert (Hmax : forall c, In c (c0 :: rest) ->
              (confidence c <= confidence c0)%Q).
    { intros c [<- | Hc]; [apply Qle_refl | now apply Hall]. }
    destruct (Qlt_le_dec (confidence_threshold self) (confidence c0))
      as [Hfloor | Hlow].
    - destruct (@apply_nms_first self c0 rest Hfloor) as [tail Htail];
        [intros c Hc; now apply Hall|].
      rewrite Htail in Hres. injection Hres as <- _.
      intros c Hc. apply Hmax. now apply Hperm.
    - exfalso. destruct (Hsub first (or_introl eq_refl)) as [Hc Hlt].
      apply Hperm in Hc. apply Hmax in Hc.
      apply (Qlt_not_le _ _ Hlt). eapply Qle_trans; eauto. }
  split; [apply Hsub; now left|]. split; [exact Hbest|].
  intros m Hm. apply Hbest. apply Hsub. now right.
Qed.

(** The theorem on the two-category scenario, whose result is headed by
    the slime seen with 0.95. *)
Lemma first_match_witness :
  let first := Scenario.found 0 0 2 (95 # 100) "slime" "monster" in
  let others := [Scenario.found 8 8 2 (80 # 100) "slime" "monster";
                 Scenario.found 4 4 2 (90 # 100) "hero" "player"] in
  match_templates Scenario.scenario_cv2 Scenario.two_categories
    (Some Scenario.screen12) None = first :: others /\
  In first (collect_matches Scenario.scenario_cv2 Scenario.two_categories
              Scenario.screen12 None) /\
  (forall c, In c (collect_matches Scenario.scenario_cv2
                     Scenario.two_categories Scenario.screen12 None) ->
     (confidence c <= confidence first)%Q) /\
  (forall m, In m others -> (confidence m <= confidence first)%Q).
Proof.
  intros first others. split; [vm_compute; reflexivity|].
  apply (@first_match_has_the_highest_confidence Scenario.scenario_cv2
           Scenario.two_categories Scenario.screen12 None first others).
  vm_compute. reflexivity.
Defined.

End OrderProps.


(** ** Order within a category *)

Module CategoryOrderProps.

Import Py.
Import Matcher.
Import MatcherProps.

Lemma sorted_without (A : Type) (R : A -> A -> Prop) (l1 l2 : list A) (a : A) :
  StronglySorted R (l1 ++ a :: l2) -> StronglySorted R (l1 ++ l2).
Proof.
  induction l1 as [|b l1 IH]; simpl; intros Hs.
  - now inversion Hs.
  - inversion Hs as [|? ? Hs' Hall]; subst. constructor; [now apply IH|].
    rewrite Forall_app in *. destruct Hall as [H1 H2].
    split; [assumption | now inversion H2].
Qed.

(** The indices kept by the greedy pass are in the order in which they
    were visited. *)
Lemma nms_loop_sorted (R : nat -> nat -> Prop) (boxes : list Box) (thr : Q)
    (order : list (nat * Q)) (kept : list nat) :
  StronglySorted R (kept ++ map fst order) ->
  StronglySorted R (nms_loop boxes thr order kept).
Proof.
  revert kept. induction order as [|[idx s] rest IH]; intros kept Hs; simpl.
  - now rewrite app_nil_r in Hs.
  - simpl in Hs. destruct (forallb _ kept); apply IH.
    + now rewrite <- app_assoc.
    + eapply sorted_without; eauto.
Qed.

Lemma sorted_indices (sc : nat -> Q) (order : list (nat * Q)) :
  StronglySorted (desc snd) order ->
  (forall p, In p order -> snd p = sc (fst p)) ->
  StronglySorted (fun i j => (sc j <= sc i)%Q) (map fst order).
Proof.
  induction 1 as [|p l Hl IH Hall]; intros Hscore; simpl; constructor.
  - apply IH. intros q Hq. apply Hscore. now right.
  - apply Forall_map. apply Forall_forall. intros q Hq.
    rewrite Forall_forall in Hall. specialize (Hall q Hq). unfold desc in Hall.
    rewrite <- (Hscore p (or_introl eq_refl)).
    rewrite <- (Hscore q (or_intror Hq)). exact Hall.
Qed.

Lemma score_order_sorted (scores : list Q) (floor : Q) :
  StronglySorted (fun i j => (nth j scores 0 <= nth i scores 0)%Q)
                 (map fst (score_order scores floor)).
Proof.
  apply sorted_indices.
  - apply sort_desc_sorted.
  - intros [i s] Hin. apply score_order_In in Hin. destruct Hin as [Hnth _].
    simpl. symmetry. now apply nth_error_nth.
Qed.

Lemma select_sorted (tm : list TemplateMatch) (indices : list nat) :
  StronglySorted (fun i j => (nth j (map confidence tm) 0
                              <= nth i (map confidence tm) 0)%Q) indices ->
  StronglySorted (desc confidence) (select tm indices).
Proof.
  assert (Hscore : forall i m, nth_error tm i = Some m ->
            nth i (map confidence tm) 0%Q = confidence m).
  { intros i m Hi. apply nth_error_nth. now apply map_nth_error. }
  induction 1 as [|i l Hl IH Hall]; [constructor|].
  unfold select. simpl. fold (select tm l).
  destruct (nth_error tm i) as [m|] eqn:Hi; simpl; [| exact IH].
  constructor; [exact IH|].
  apply Forall_forall. intros m' Hm'. apply select_In in Hm'.
  destruct Hm' as [j [Hj Hm']]. rewrite Forall_forall in Hall.
  specialize (Hall j Hj). rewrite (Hscore _ _ Hi), (Hscore _ _ Hm') in Hall.
  exact Hall.
Qed.

Section Category.

Variable self : TemplateMatcher.

(** What survives of a category is in descending order of confidence. *)
Lemma nms_group_sorted (tm : list TemplateMatch) :
  StronglySorted (desc confidence) (nms_group self tm).
Proof.
  destruct tm as [|m0 rest]; [constructor|].
  unfold nms_group. apply select_sorted. unfold NMSBoxes.
  apply nms_loop_sorted. rewrite app_nil_l. apply score_order_sorted.
Qed.

Lemma filter_all (A : Type) (f : A -> bool) (l : list A) :
  (forall a, In a l -> f a = true) -> filter f l = l.
Proof.
  induction l as [|a l IH]; simpl; intros Hall; [reflexivity|].
  rewrite Hall by now left. f_equal. apply IH. intros b Hb. apply Hall. now right.
Qed.

Lemma filter_none (A : Type) (f : A -> bool) (l : list A) :
  (forall a, In a l -> f a = false) -> filter f l = [].
Proof.
  induction l as [|a l IH]; simpl; intros Hall; [reflexivity|].
  rewrite Hall by now left. apply IH. intros b Hb. apply Hall. now right.
Qed.

(** The matches of one category in the output of a list of groups. *)
Lemma groups_of_type (ty : string) (gs : dict (list TemplateMatch)) :
  NoDup (map fst gs) ->
  (forall k l, In (k, l) gs -> forall m, In m l -> template_type m = k) ->
  filter (of_type ty) (flat_map (fun g => nms_group self (snd g)) gs)
  = match dict_get gs ty with
    | Some l => nms_group self l
    | None => []
    end.
Proof.
  induction gs as [|[k l] gs IH]; intros Hnd Htyped; [reflexivity|].
  simpl flat_map. simpl snd. rewrite filter_app.
  inversion Hnd as [|? ? Hnotin Hnd']; subst.
  assert (Htail : forall k' l', In (k', l') gs ->
            forall m, In m l' -> template_type m = k')
    by (intros k' l' Hin; apply (Htyped k' l'); now right).
  rewrite (IH Hnd' Htail). simpl dict_get.
  assert (Hhere : forall m, In m (nms_group self l) -> template_type m = k).
  { intros m Hm. apply nms_group_subset in Hm. destruct Hm as [Hm _].
    apply (Htyped k l); [now left | assumption]. }
  destruct (String.eqb_spec ty k) as [-> | Hne].
  - rewrite filter_all.
    + assert (Hnone : dict_get gs k = None).
      { destruct (dict_get gs k) as [l'|] eqn:E; [| reflexivity].
        apply dict_get_In in E. exfalso. apply Hnotin.
        now apply (in_map fst) in E. }
      rewrite Hnone. apply app_nil_r.
    + intros m Hm. unfold of_type. rewrite (Hhere m Hm). apply String.eqb_refl.
  - rewrite filter_none; [reflexivity|].
    intros m Hm. unfold of_type. rewrite (Hhere m Hm).
    destruct (String.eqb_spec k ty); congruence.
Qed.

(** Suppression treats each category on its own: the matches of a
    category in the result are what survives of that category alone, in
    the same order. *)
Lemma apply_nms_of_type (ty : string) (ms : list TemplateMatch) :
  filter (of_type ty) (_apply_nms self ms)
  = nms_group self (filter (of_type ty) ms).
Proof.
  rewrite apply_nms_groups, groups_of_type.
  - unfold group_by_type. rewrite group_fold_get. simpl.
    destruct (filter (of_type ty) ms); reflexivity.
  - unfold group_by_type. apply group_fold_nodup. constructor.
  - intros k l Hin m Hm. apply group_by_type_In in Hin.
    destruct Hin as [-> _]. apply filter_In in Hm. destruct Hm as [_ Hm].
    unfold of_type in Hm. now apply String.eqb_eq.
Qed.

End Category.

(** X4. The matches of each category are returned in descending order of
    confidence, and they are exactly what suppression keeps of that
    category's candidates taken alone. *)
Theorem matches_of_a_category_are_sorted
    (cv2 : OpenCV) (self : TemplateMatcher) (screen : Image)
    (types : option (list string)) (ty : string) :
  let result := match_templates cv2 self (Some screen) types in
  StronglySorted (desc confidence) (filter (of_type ty) result) /\
  filter (of_type ty) result
  = nms_group self
      (filter (of_type ty)
         (sort_desc confidence (collect_matches cv2 self screen types))).
Proof.
  simpl. unfold match_templates. rewrite apply_nms_of_type.
  split; [apply nms_group_sorted | reflexivity].
Qed.

End CategoryOrderProps.


(** ** Thresholds and listing *)

Module SettingsProps.

Import Py.
Import Matcher.
Import MatcherProps.

Lemma py_min_spec (a b : Q) :
  (py_min a b <= a)%Q /\ (py_min a b <= b)%Q /\
  (py_min a b = a \/ py_min a b = b).
Proof.
  unfold py_min. destruct (Qle_bool a b) eqn:E.
  - apply Qle_bool_iff in E. repeat split; auto. apply Qle_refl.
  - assert (Hlt : (b < a)%Q).
    { apply Qnot_le_lt. intros Hle. apply Qle_bool_iff in Hle. congruence. }
    repeat split; auto; [now apply Qlt_le_weak | apply Qle_refl].
Qed.

Lemma py_max_spec (a b : Q) :
  (a <= py_max a b)%Q /\ (b <= py_max a b)%Q /\
  (py_max a b = a \/ py_max a b = b).
Proof.
  unfold py_max. destruct (Qle_bool b a) eqn:E.
  - apply Qle_bool_iff in E. repeat split; auto. apply Qle_refl.
  - assert (Hlt : (a < b)%Q).
    { apply Qnot_le_lt. intros Hle. apply Qle_bool_iff in Hle. congruence. }
    repeat split; auto; [now apply Qlt_le_weak | apply Qle_refl].
Qed.

(** X5. [set_confidence_threshold] keeps the threshold within [0.1, 1.0]: a
    value in that range is taken as it is, a smaller one becomes 0.1 and a
    larger one 1.0; the cache and the suppression threshold are not
    touched. Whatever value was asked for, every match returned afterwards
    has a confidence above 0.1. *)
Theorem set_confidence_threshold_clamps (self : TemplateMatcher) (threshold : Q) :
  let self' := set_confidence_threshold self threshold in
  (1 # 10 <= confidence_threshold self')%Q /\
  (confidence_threshold self' <= 1)%Q /\
  ((1 # 10 <= threshold)%Q -> (threshold <= 1)%Q ->
   (confidence_threshold self' == threshold)%Q) /\
  ((threshold <= 1 # 10)%Q -> (confidence_threshold self' == 1 # 10)%Q) /\
  ((1 <= threshold)%Q -> (confidence_threshold self' == 1)%Q) /\
  template_cache self' = template_cache self /\
  nms_threshold self' = nms_threshold self /\
  (forall cv2 screen types m,
     In m (match_templates cv2 self' (Some screen) types) ->
     (1 # 10 < confidence m)%Q).
Proof.
  intros self'. unfold self', set_confidence_threshold. simpl.
  destruct (py_min_spec 1 threshold) as [Hmin1 [Hmin2 Hmin]].
  destruct (py_max_spec (1 # 10) (py_min 1 threshold)) as [Hmax1 [Hmax2 Hmax]].
  assert (Hupper : (py_max (1 # 10) (py_min 1 threshold) <= 1)%Q).
  { destruct Hmax as [-> | ->]; [| assumption]. unfold Qle. simpl. lia. }
  split; [assumption|]. split; [assumption|].
  split; [| split; [| split; [| split; [| split]]]]; try reflexivity.
  - intros Hlow Hhigh. apply Qle_antisym.
    + destruct Hmax as [-> | ->]; assumption.
    + eapply Qle_trans; [| exact Hmax2].
      destruct Hmin as [-> | ->]; [assumption | apply Qle_refl].
  - intros Hlow. apply Qle_antisym; [| assumption].
    destruct Hmax as [-> | ->]; [apply Qle_refl|].
    exact (Qle_trans _ _ _ Hmin2 Hlow).
  - intros Hhigh. apply Qle_antisym; [assumption|].
    eapply Qle_trans; [| exact Hmax2].
    destruct Hmin as [-> | ->]; [apply Qle_refl | assumption].
  - intros cv2 screen types m Hm. apply match_templates_subset in Hm.
    destruct Hm as [_ Hm]. simpl in Hm. exact (Qle_lt_trans _ _ _ Hmax1 Hm).
Qed.

(** X6. [get_template_list] lists every cached template once, with its
    metadata and its size as "WIDTHxHEIGHT", ordered by creation time with
    the newest first; an entry without creation time counts as created at
    time 0. *)
Theorem template_list_is_complete_and_newest_first (self : TemplateMatcher) :
  Permutation (get_template_list self) (map listed (template_cache self)) /\
  StronglySorted (desc created) (get_template_list self) /\
  length (get_template_list self) = length (template_cache self) /\
  (forall t, In t (get_template_list self) <->
     exists name td,
       In (name, td) (template_cache self) /\
       listed_metadata t = td_metadata td /\
       listed_size t = (str (td_width td) ++ "x" ++ str (td_height td))%string).
Proof.
  unfold get_template_list.
  pose proof (sort_desc_perm created (map listed (template_cache self))) as Hperm.
  split; [exact Hperm|]. split; [apply sort_desc_sorted|]. split.
  - rewrite (Permutation_length Hperm). apply length_map.
  - intros t. rewrite sort_desc_In, in_map_iff. split.
    + intros [[name td] [<- Hin]]. exists name, td. auto.
    + intros [name [td [Hin [Hmd Hsize]]]]. exists (name, td).
      split; [| assumption]. destruct t. simpl in *. subst. reflexivity.
Qed.

End SettingsProps.


(** ** The cache of the template library *)

Module CacheProps.

Import Py.
Import Matcher.
Import MatcherProps.
Import LibraryProps.

Section DictDel.

Variable V : Type.
Implicit Types (d : dict V) (k : string).

Lemma dict_del_keys d k k' :
  In k' (map fst (dict_del d k)) -> In k' (map fst d).
Proof.
  induction d as [|[k0 v0] d IH]; simpl; [auto|].
  destruct (String.eqb k k0); simpl; intuition.
Qed.

Lemma dict_del_nodup d k :
  NoDup (map fst d) -> NoDup (map fst (dict_del d k)).
Proof.
  induction d as [|[k0 v0] d IH]; simpl; intros Hnd; [constructor|].
  inversion Hnd as [|? ? Hnotin Hnd']; subst.
  destruct (String.eqb k k0); simpl; [assumption|].
  constructor; [| now apply IH].
  intros Hin. apply Hnotin. eapply dict_del_keys; eauto.
Qed.

Lemma dict_get_del_eq d k :
  NoDup (map fst d) -> dict_get (dict_del d k) k = None.
Proof.
  induction d as [|[k0 v0] d IH]; simpl; intros Hnd; [reflexivity|].
  inversion Hnd as [|? ? Hnotin Hnd']; subst.
  destruct (String.eqb_spec k k0) as [-> | Hne]; simpl.
  - destruct (dict_get d k0) eqn:E; [| reflexivity].
    apply dict_get_In in E. exfalso. apply Hnotin.
    now apply (in_map fst) in E.
  - destruct (String.eqb_spec k k0); [contradiction | now apply IH].
Qed.

Lemma dict_get_del_ne d k k' :
  k <> k' -> dict_get (dict_del d k) k' = dict_get d k'.
Proof.
  intros Hne. induction d as [|[k0 v0] d IH]; simpl; [reflexivity|].
  destruct (String.eqb_spec k k0) as [-> | Hne0]; simpl.
  - destruct (String.eqb_spec k' k0); congruence.
  - destruct (String.eqb_spec k' k0); [reflexivity | exact IH].
Qed.

Lemma dict_set_length d k (v : V) :
  (length (dict_set d k v) <= S (length d))%nat.
Proof.
  induction d as [|[k0 v0] d IH]; simpl; [lia|].
  destruct (String.eqb k k0); simpl; lia.
Qed.

End DictDel.

Section Store.

Context {Store : Type} `{BackingStore Store}.

Lemma load_template_names (name : string) (w : World) :
  NoDup (cached_names w) -> NoDup (cached_names (snd (load_template name w))).
Proof.
  unfold cached_names. intros Hnd. unfold load_template.
  destruct (read_template (store w) (clock w) name) as [[msg | td] c]; simpl;
    [assumption|].
  now apply dict_set_nodup.
Qed.

Lemma load_loop_names (l : list string) (w : World) :
  NoDup (cached_names w) ->
  NoDup (cached_names (fold_left (fun w name => snd (load_template name w)) l w)).
Proof.
  revert w. induction l as [|name l IH]; intros w Hnd; simpl; [assumption|].
  apply IH. now apply load_template_names.
Qed.

(** X7. No operation of the library gives two cache entries the same name:
    [load_all_templates] builds a cache with distinct names, and
    [load_template], [save_template] and [delete_template] keep the names
    distinct. *)
Theorem library_names_stay_distinct (w : World) (name template_type : string)
    (image : Image) (threshold : Q) :
  NoDup (cached_names (load_all_templates w)) /\
  (NoDup (cached_names w) ->
   NoDup (cached_names (snd (load_template name w))) /\
   NoDup (cached_names (snd (save_template image name template_type threshold w))) /\
   NoDup (cached_names (snd (delete_template name w)))).
Proof.
  split.
  - unfold load_all_templates.
    assert (Hloop : NoDup (cached_names
              (fold_left (fun w name => snd (load_template name w))
                 (glob_png (store w))
                 {| store := store w; self := with_cache (self w) [];
                    log := log w; clock := clock w |})))
      by (apply load_loop_names; constructor).
    exact Hloop.
  - intros Hnd. split; [now apply load_template_names|].
    unfold cached_names in *. split.
    + unfold save_template.
      destruct (imwrite (store w) name image) as [s1 [flag|]]; simpl;
        [| assumption].
      destruct (dump_json s1 name _) as [s2 [u|]]; simpl; [| assumption].
      now apply dict_set_nodup.
    + unfold delete_template.
      destruct (match img_exists (store w) name with
                | Ok true => unlink_img (store w) name
                | Ok false => (store w, Ok tt)
                | Raise => (store w, Raise)
                end) as [s1 [u|]]; simpl; [| assumption].
      destruct (match meta_exists s1 name with
                | Ok true => unlink_meta s1 name
                | Ok false => (s1, Ok tt)
                | Raise => (s1, Raise)
                end) as [s2 [u'|]]; simpl; [| assumption].
      destruct (dict_mem (template_cache (self w)) name); [| assumption].
      now apply dict_del_nodup.
Qed.

(** X8. A successful [save_template] leaves under the name an entry with
    the image, its size and the metadata just written (name, type,
    threshold, size); a failed one leaves the matcher as it was; in both
    cases no other entry changes. *)
Theorem save_caches_what_it_wrote (image : Image) (name template_type : string)
    (threshold : Q) (w : World) :
  let saved := save_template image name template_type threshold w in
  let cache' := template_cache (self (snd saved)) in
  (fst saved = true ->
   exists md,
     dict_get cache' name
     = Some {| td_image := image; td_metadata := md;
               td_height := shape0 image; td_width := shape1 image |} /\
     md_name md = Some name /\
     md_type md = Some template_type /\
     md_confidence_threshold md = Some threshold /\
     md_width md = Some (shape1 image) /\
     md_height md = Some (shape0 image) /\
     log (snd saved) = log w ++ [Template_saved name template_type]) /\
  (fst saved = false ->
   self (snd saved) = self w /\
   log (snd saved) = log w ++ [Failed_to_save_template name]) /\
  (forall other, other <> name ->
     dict_get cache' other = dict_get (template_cache (self w)) other).
Proof.
  unfold save_template.
  destruct (imwrite (store w) name image) as [s1 [flag|]]; simpl.
  - destruct (dump_json s1 name _) as [s2 [u|]]; simpl.
    + split; [| split].
      * intros _. eexists. split; [apply dict_get_set_eq|].
        repeat split.
      * discriminate.
      * intros other Hne. now apply dict_get_set_ne.
    + split; [discriminate | auto].
  - split; [discriminate | auto].
Qed.

(** X9. A successful [delete_template] on a cache with distinct names
    leaves no entry under the name and every other entry as it was; a
    failed one leaves the matcher as it was. *)
Theorem delete_removes_only_the_named_entry (name : string) (w : World) :
  let deleted := delete_template name w in
  let cache' := template_cache (self (snd deleted)) in
  (fst deleted = true ->
   NoDup (cached_names w) ->
   dict_get cache' name = None /\
   log (snd deleted) = log w ++ [Template_deleted name]) /\
  (fst deleted = false ->
   self (snd deleted) = self w /\
   log (snd deleted) = log w ++ [Failed_to_delete_template name]) /\
  (forall other, other <> name ->
     dict_get cache' other = dict_get (template_cache (self w)) other).
Proof.
  unfold delete_template.
  destruct (match img_exists (store w) name with
            | Ok true => unlink_img (store w) name
            | Ok false => (store w, Ok tt)
            | Raise => (store w, Raise)
            end) as [s1 [u|]]; simpl.
  - destruct (match meta_exists s1 name with
              | Ok true => unlink_meta s1 name
              | Ok false => (s1, Ok tt)
              | Raise => (s1, Raise)
              end) as [s2 [u'|]]; simpl.
    + split; [| split].
      * intros _ Hnd. unfold cached_names in Hnd.
        split; [| reflexivity]. unfold dict_mem.
        destruct (dict_get (template_cache (self w)) name) eqn:E;
          [now apply dict_get_del_eq | exact E].
      * discriminate.
      * intros other Hne.
        destruct (dict_mem (template_cache (self w)) name);
          [now apply dict_get_del_ne | reflexivity].
    + split; [discriminate | auto].
  - split; [discriminate | auto].
Qed.

(** Setting an entry commutes with forgetting the creation times. *)
Lemma without_created_set (d : dict TemplateData) (k : string)
    (td : TemplateData) :
  without_created (dict_set d k td)
  = dict_set (without_created d) k (forget_created td).
Proof.
  unfold without_created.
  induction d as [|[k0 v0] d IH]; simpl; [reflexivity|].
  destruct (String.eqb k k0); simpl; [reflexivity | now rewrite IH].
Qed.

(** Loading a template into two caches that agree but for creation times,
    from the same directory at different times, leaves caches that agree
    but for creation times. *)
Lemma load_template_similar (name : string) (w1 w2 : World) :
  store w1 = store w2 ->
  without_created (template_cache (self w1))
  = without_created (template_cache (self w2)) ->
  without_created (template_cache (self (snd (load_template name w1))))
  = without_created (template_cache (self (snd (load_template name w2)))).
Proof.
  intros Hs Hc. unfold load_template. rewrite <- Hs.
  destruct (read_template (store w1) (clock w1) name) as [[msg | td] c1] eqn:E1.
  - assert (H1 : fst (read_template (store w1) (clock w1) name) = inl msg)
      by now rewrite E1.
    apply (read_template_message _ _ (clock w2)) in H1.
    destruct (read_template (store w1) (clock w2) name) as [r2 c2].
    simpl in H1. subst r2. exact Hc.
  - assert (H1 : fst (read_template (store w1) (clock w1) name) = inr td)
      by now rewrite E1.
    destruct (read_template_data _ _ (clock w2) _ H1) as [td' [H2 [Hsame _]]].
    destruct (read_template (store w1) (clock w2) name) as [r2 c2].
    simpl in H2. subst r2. simpl.
    now rewrite !without_created_set, Hc, Hsame.
Qed.

Lemma load_loop_similar (l : list string) (w1 w2 : World) :
  store w1 = store w2 ->
  without_created (template_cache (self w1))
  = without_created (template_cache (self w2)) ->
  without_created
    (template_cache
       (self (fold_left (fun w name => snd (load_template name w)) l w1)))
  = without_created
      (template_cache
         (self (fold_left (fun w name => snd (load_template name w)) l w2))).
Proof.
  revert w1 w2. induction l as [|name l IH]; intros w1 w2 Hs Hc; simpl;
    [assumption|].
  apply IH.
  - now rewrite !load_template_store.
  - now apply load_template_similar.
Qed.

Lemma load_loop_length (l : list string) (w : World) :
  (length (template_cache
             (self (fold_left (fun w name => snd (load_template name w)) l w)))
   <= length (template_cache (self w)) + length l)%nat.
Proof.
  revert w. induction l as [|name l IH]; intros w; simpl; [lia|].
  eapply Nat.le_trans; [apply IH|].
  unfold load_template.
  destruct (read_template (store w) (clock w) name) as [[msg | td] c]; simpl;
    [lia|].
  pose proof (dict_set_length (template_cache (self w)) name td). lia.
Qed.

(** X10. What [load_all_templates] leaves in the cache does not depend
    on what was cached before, and depends on the moment of loading only
    through the creation times given to templates without sidecar: two
    matchers that read the same state of the directory, at whatever
    times, end with caches that have the same names in the same order
    and agree in everything but creation times, and the entry of a
    template that has a sidecar is the same in both. The thresholds of
    the matcher are not touched, and the count logged last is the number
    of cached templates, at most the number of image files. *)
Theorem reload_forgets_the_old_cache (w1 w2 : World) :
  store w1 = store w2 ->
  let cache1 := template_cache (self (load_all_templates w1)) in
  let cache2 := template_cache (self (load_all_templates w2)) in
  without_created cache1 = without_created cache2 /\
  map fst cache1 = map fst cache2 /\
  (forall name, meta_exists (store w1) name = Ok true ->
     dict_get cache1 name = dict_get cache2 name) /\
  confidence_threshold (self (load_all_templates w1))
  = confidence_threshold (self w1) /\
  nms_threshold (self (load_all_templates w1)) = nms_threshold (self w1) /\
  (exists earlier,
     log (load_all_templates w1)
     = earlier ++ [Loaded_templates (length cache1)]) /\
  (length cache1 <= length (glob_png (store w1)))%nat.
Proof.
  intros Hs cache1 cache2.
  pose (cleared1 := {| store := store w1; self := with_cache (self w1) [];
                       log := log w1; clock := clock w1 |}).
  pose (cleared2 := {| store := store w2; self := with_cache (self w2) [];
                       log := log w2; clock := clock w2 |}).
  assert (Hsim : without_created cache1 = without_created cache2).
  { change (without_created
              (template_cache
                 (self (fold_left (fun w name => snd (load_template name w))
                          (glob_png (store w1)) cleared1)))
            = without_created
                (template_cache
                   (self (fold_left (fun w name => snd (load_template name w))
                            (glob_png (store w2)) cleared2)))).
    replace (glob_png (store w2)) with (glob_png (store w1))
      by now rewrite Hs.
    apply load_loop_similar; [exact Hs | reflexivity]. }
  assert (Hself : forall l w,
            confidence_threshold
              (self (fold_left (fun w name => snd (load_template name w)) l w))
            = confidence_threshold (self w) /\
            nms_threshold
              (self (fold_left (fun w name => snd (load_template name w)) l w))
            = nms_threshold (self w)).
  { induction l as [|name l IH]; intros w; simpl; [auto|].
    destruct (IH (snd (load_template name w))) as [-> ->].
    unfold load_template.
    destruct (read_template (store w) (clock w) name) as [[msg | td] c];
      simpl; auto. }
  split; [exact Hsim|]. split; [| split].
  - unfold without_created in Hsim.
    apply (f_equal (map fst)) in Hsim. rewrite !map_map in Hsim.
    exact Hsim.
  - intros name Hmeta.
    destruct (load_loop (glob_png (store w1)) cleared1)
      as [_ [_ [Hout1 [Hok1 Hbad1]]]].
    destruct (load_loop (glob_png (store w2)) cleared2)
      as [_ [_ [Hout2 [Hok2 Hbad2]]]].
    change (store cleared1) with (store w1) in Hok1, Hbad1.
    change (store cleared2) with (store w2) in Hok2, Hbad2.
    change (template_cache (self cleared1)) with (@nil (string * TemplateData))
      in Hout1, Hbad1.
    change (template_cache (self cleared2)) with (@nil (string * TemplateData))
      in Hout2, Hbad2.
    rewrite <- Hs in Hout2, Hok2, Hbad2.
    change (dict_get
              (template_cache
                 (self (fold_left (fun w name => snd (load_template name w))
                          (glob_png (store w1)) cleared1))) name
            = dict_get
                (template_cache
                   (self (fold_left (fun w name => snd (load_template name w))
                            (glob_png (store w2)) cleared2))) name).
    replace (glob_png (store w2)) with (glob_png (store w1))
      by now rewrite Hs.
    destruct (in_dec string_dec name (glob_png (store w1))) as [Hin | Hnot].
    + destruct (fst (read_template (store w1) (clock w1) name))
        as [msg | td] eqn:E.
      * destruct (Hbad1 name _ msg Hin E) as [-> _].
        destruct (Hbad2 name _ msg Hin E) as [-> _]. reflexivity.
      * destruct (Hok1 name _ td Hin E) as [c1 [td1 [H1 ->]]].
        destruct (Hok2 name _ td Hin E) as [c2 [td2 [H2 ->]]].
        destruct (read_template_data _ c1 c2 _ H1) as [td' [H2' [_ Heq]]].
        rewrite H2 in H2'. injection H2' as <-.
        now rewrite (Heq Hmeta).
    + now rewrite Hout1, Hout2.
  - destruct (Hself (glob_png (store w1)) cleared1) as [Hc Hn].
    split; [exact Hc|]. split; [exact Hn|].
    split; [exists (log (fold_left (fun w name => snd (load_template name w))
                           (glob_png (store w1)) cleared1)); reflexivity|].
    pose proof (load_loop_length (glob_png (store w1)) cleared1) as Hlen.
    exact Hlen.
Qed.

End Store.

(** The theorem on saving a new template "bat" into the mixed directory:
    the names stay distinct. *)
Lemma library_names_witness :
  let w := load_all_templates (Scenario.a_world Scenario.mixed_disk []) in
  NoDup (cached_names w) /\
  NoDup (cached_names
           (snd (save_template (Scenario.image 3 3 7) "bat" "monster" (8 # 10) w))).
Proof.
  intros w.
  destruct (library_names_stay_distinct (Scenario.a_world Scenario.mixed_disk [])
              "bat" "monster" (Scenario.image 3 3 7) (8 # 10)) as [Hload _].
  split; [exact Hload|].
  destruct (library_names_stay_distinct w "bat" "monster"
              (Scenario.image 3 3 7) (8 # 10)) as [_ Hkeep].
  apply Hkeep. exact Hload.
Defined.

(** The theorem on saving "bat" into the mixed directory, which
    succeeds. *)
Lemma save_caches_witness :
  let w := Scenario.a_world Scenario.mixed_disk [] in
  let saved := save_template (Scenario.image 3 3 7) "bat" "monster" (8 # 10) w in
  fst saved = true /\
  exists md,
    dict_get (template_cache (self (snd saved))) "bat"
    = Some {| td_image := Scenario.image 3 3 7; td_metadata := md;
              td_height := 3; td_width := 3 |} /\
    md_name md = Some "bat"%string /\
    md_type md = Some "monster"%string /\
    md_confidence_threshold md = Some (8 # 10)%Q /\
    md_width md = Some 3 /\
    md_height md = Some 3 /\
    log (snd saved) = log w ++ [Template_saved "bat" "monster"].
Proof.
  intros w saved. split; [reflexivity|].
  destruct (save_caches_what_it_wrote (Scenario.image 3 3 7) "bat" "monster"
              (8 # 10) w) as [Hok _].
  apply Hok. reflexivity.
Defined.

(** The theorem on deleting "slime" from the mixed directory once it is
    loaded. *)
Lemma delete_removes_witness :
  let w := load_all_templates (Scenario.a_world Scenario.mixed_disk []) in
  let deleted := delete_template "slime" w in
  fst deleted = true /\
  NoDup (cached_names w) /\
  dict_get (template_cache (self w)) "slime" <> None /\
  dict_get (template_cache (self (snd deleted))) "slime" = None /\
  log (snd deleted) = log w ++ [Template_deleted "slime"].
Proof.
  intros w deleted.
  assert (Hnd : NoDup (cached_names w)).
  { vm_compute. repeat constructor; simpl; intuition discriminate. }
  split; [reflexivity|]. split; [exact Hnd|]. split; [discriminate|].
  destruct (delete_removes_only_the_named_entry "slime" w) as [Hok _].
  apply Hok; [reflexivity | exact Hnd].
Defined.

(** The theorem on two matchers over the mixed directory, one loading at
    time 200 into an empty cache and one at time 260 over a stale entry:
    the caches differ, in the creation time of "orphan", which has no
    sidecar, and in nothing else; the entry of "slime", which has one, is
    the same. *)
Lemma reload_witness :
  let w1 := Scenario.a_world Scenario.mixed_disk [] in
  let w2 := Scenario.a_world_at 260 Scenario.mixed_disk
              [Scenario.entry "stale" "monster" (7 # 10) (Scenario.image 1 1 0)] in
  let cache1 := template_cache (self (load_all_templates w1)) in
  let cache2 := template_cache (self (load_all_templates w2)) in
  store w1 = store w2 /\
  cache1 <> cache2 /\
  without_created cache1 = without_created cache2 /\
  map fst cache1 = ["slime"; "orphan"]%string /\
  dict_get cache1 "slime" = dict_get cache2 "slime".
Proof.
  intros w1 w2 cache1 cache2.
  destruct (reload_forgets_the_old_cache w1 w2 eq_refl)
    as [Hsim [_ [Hside _]]].
  split; [reflexivity|]. split; [| split; [| split]].
  - vm_compute. discriminate.
  - exact Hsim.
  - reflexivity.
  - apply Hside. reflexivity.
Defined.

End CacheProps.


(** ** The capture thread over many passes *)

Module RunProps.

Import Capture.
Import CaptureProps.

Section Run.

Variable TL BR pt : Template.
Variable single_match : Frame -> Template -> option Point * option Point.
Variable multi_match : Frame -> Template -> Q -> list Point.
Variable convert_to_relative : Point -> Frame -> Q * Q.

Lemma outer_pass_consistent (c0 : Config) (p : Pass) (s : State) :
  0 < PT_HEIGHT pt ->
  consistent TL BR pt c0 (Outer c0 s) ->
  consistent TL BR pt c0 (outer_pass TL BR pt single_match p c0 s).
Proof.
  intros Hpt [_ [Hcal [Hready [Hmm Hsample]]]].
  unfold outer_pass, calibration_cycle.
  destruct (shot p) as [f|]; [| simpl; auto].
  destruct (fst (single_match f TL)) as [tl|]; [| simpl; auto].
  destruct (snd (single_match f BR)) as [br|]; [| simpl; auto].
  pose proof (mm_br_width pt tl br) as Hw.
  pose proof (mm_br_height pt tl br) as Hh.
  change (fst (mm_br_of pt tl br) - fst (mm_tl_of tl))
    with (rect_width (mm_tl_of tl) (mm_br_of pt tl br)).
  change (snd (mm_br_of pt tl br) - snd (mm_tl_of tl))
    with (rect_height (mm_tl_of tl) (mm_br_of pt tl br)).
  assert (Hnz : rect_height (mm_tl_of tl) (mm_br_of pt tl br) <> 0) by lia.
  rewrite (truediv_defined _ Hnz).
  assert (Hww : MMT_WIDTH TL BR <= width (update_window TL BR (found_window p)))
    by (unfold update_window; simpl; apply Z.le_max_r).
  assert (Hwh : MMT_HEIGHT TL BR <= height (update_window TL BR (found_window p)))
    by (unfold update_window; simpl; apply Z.le_max_r).
  cbn [consistent calibrated minimap_ratio minimap_sample window minimap ready].
  rewrite Hmm. repeat split; try assumption; eauto.
  now apply truediv_defined.
Qed.

Lemma pass_consistent (c0 : Config) (p : Pass) (t : Thread) :
  0 < PT_HEIGHT pt ->
  consistent TL BR pt c0 t ->
  consistent TL BR pt c0 (pass TL BR pt single_match multi_match convert_to_relative t p).
Proof.
  intros Hpt Ht. destruct t as [c s | mm_tl mm_br c s |]; simpl.
  - destruct Ht as [-> Hrest]. apply outer_pass_consistent; [assumption|].
    simpl. auto.
  - destruct Ht as [Hcal [Hw [Hh [Hratio [Hsample [Hww [Hwh Hmm]]]]]]].
    unfold tracking_step. rewrite Hcal. simpl.
    destruct (shot p) as [f|]; simpl; [| repeat split; assumption].
    repeat split; try assumption. eauto.
  - contradiction.
Qed.

(** X11. Over any number of passes and whatever the screenshots show, a
    thread started by [__init__] with a player template that is not empty
    never divides by zero when it computes the ratio, the one exception
    the loop can raise by itself (the library calls are taken to
    return). While it is uncalibrated nothing has been published and
    [config] is untouched. Once it tracks, [calibrated] is set, the
    rectangle is at least as large as the player template, the ratio is
    that of the rectangle, the sample is a crop by the rectangle, the
    grabbed window is at least as large as either corner template, and
    [ready] is set exactly when a dictionary has been published for the
    GUI, which then carries the current player position and a crop by the
    rectangle. *)
Theorem main_thread_stays_consistent (c0 : Config) (passes : list Pass) :
  0 < PT_HEIGHT pt ->
  consistent TL BR pt c0
    (run TL BR pt single_match multi_match convert_to_relative passes
       (Outer c0 init)).
Proof.
  intros Hpt.
  assert (Hgen : forall t, consistent TL BR pt c0 t ->
            consistent TL BR pt c0
              (run TL BR pt single_match multi_match convert_to_relative
                 passes t)).
  { unfold run. induction passes as [|p rest IH]; intros t Ht; simpl;
      [assumption|].
    apply IH. now apply pass_consistent. }
  apply Hgen. simpl. auto.
Qed.

Lemma inner_pass_stays (mm_tl mm_br : Point) (c : Config) (s : State)
    (p : Pass) :
  calibrated s = true ->
  exists c' s',
    pass TL BR pt single_match multi_match convert_to_relative (Inner mm_tl mm_br c s) p
    = Inner mm_tl mm_br c' s' /\
    calibrated s' = true /\
    minimap_ratio s' = minimap_ratio s /\
    minimap_sample s' = minimap_sample s /\
    window s' = window s /\
    ((forall f, shot p = Some f ->
        multi_match (crop f mm_tl mm_br) pt (8 # 10)%Q = []) ->
     c' = c).
Proof.
  intros Hcal. simpl. unfold tracking_step. rewrite Hcal. simpl.
  destruct (shot p) as [f|].
  - eexists _, _. split; [reflexivity|]. simpl. repeat split; try assumption.
    intros Hnone. now rewrite (Hnone f eq_refl).
  - eexists _, _. split; [reflexivity|]. simpl. repeat split; assumption.
Qed.

(** X12. Once calibrated, the thread never calibrates again by itself
    (nothing in the program clears [calibrated]): over any further passes
    it stays in the inner loop with the same rectangle, ratio, sample and
    window, also when screenshots fail or the corner anchors are gone
    from them; and if the player marker is found in none of the
    screenshots, [config], so the player position, is as it was. *)
Theorem calibration_is_never_redone (mm_tl mm_br : Point) (c : Config)
    (s : State) (passes : list Pass) :
  calibrated s = true ->
  exists c' s',
    run TL BR pt single_match multi_match convert_to_relative passes (Inner mm_tl mm_br c s)
    = Inner mm_tl mm_br c' s' /\
    calibrated s' = true /\
    minimap_ratio s' = minimap_ratio s /\
    minimap_sample s' = minimap_sample s /\
    window s' = window s /\
    ((forall p f, In p passes -> shot p = Some f ->
        multi_match (crop f mm_tl mm_br) pt (8 # 10)%Q = []) ->
     c' = c).
Proof.
  revert c s. unfold run.
  induction passes as [|p rest IH]; intros c s Hcal.
  - exists c, s. repeat split; auto.
  - destruct (@inner_pass_stays mm_tl mm_br c s p Hcal)
      as [c1 [s1 [Hstep [Hcal1 [Hr1 [Hs1 [Hw1 Hpos1]]]]]]].
    destruct (IH c1 s1 Hcal1) as [c' [s' [Hrun [Hc [Hr [Hs [Hw Hpos]]]]]]].
    exists c', s'. cbn [fold_left]. rewrite Hstep.
    split; [exact Hrun|]. split; [exact Hc|].
    split; [congruence|]. split; [congruence|]. split; [congruence|].
    intros Hnone. rewrite Hpos, Hpos1; [reflexivity | |].
    + intros f Hf. apply (Hnone p f); [now left | assumption].
    + intros p' f' Hp' Hf'. apply (Hnone p' f'); [now right | assumption].
Qed.

End Run.

(** The theorem on a thread that sees two failed and two good screenshots
    of the black frame. *)
Lemma main_thread_witness :
  0 < PT_HEIGHT Scenario.marker /\
  consistent Scenario.tl_template Scenario.br_template Scenario.marker
    Scenario.config0
    (run Scenario.tl_template Scenario.br_template Scenario.marker
       Scenario.plain_single_match Scenario.no_multi_match Scenario.relative
       Scenario.four_passes (Outer Scenario.config0 init)).
Proof.
  split; [reflexivity|].
  apply (@main_thread_stays_consistent Scenario.tl_template
           Scenario.br_template Scenario.marker Scenario.plain_single_match
           Scenario.no_multi_match Scenario.relative Scenario.config0
           Scenario.four_passes).
  reflexivity.
Defined.

(** The theorem on a calibrated thread that sees the same four
    screenshots. *)
Lemma calibration_witness :
  calibrated Scenario.tracking_state = true /\
  exists c' s',
    run Scenario.tl_template Scenario.br_template Scenario.marker
      Scenario.plain_single_match Scenario.no_multi_match Scenario.relative
      Scenario.four_passes
      (Inner (10, 10) (50, 40) Scenario.config0 Scenario.tracking_state)
    = Inner (10, 10) (50, 40) c' s' /\
    calibrated s' = true /\
    window s' = window Scenario.tracking_state.
Proof.
  split; [reflexivity|].
  destruct (@calibration_is_never_redone Scenario.tl_template
              Scenario.br_template Scenario.marker Scenario.plain_single_match
              Scenario.no_multi_match Scenario.relative (10, 10) (50, 40)
              Scenario.config0 Scenario.tracking_state Scenario.four_passes
              eq_refl)
    as [c' [s' [Hrun [Hcal [_ [_ [Hwin _]]]]]]].
  exists c', s'. auto.
Defined.

End RunProps.


(** ** The empty routine and the window detector *)

Module BotProps.

Import Py.
Import Bot.

Section Routine.

Variable Element : Type.

Lemma step_sequence (r : EmptyRoutine Element) : sequence (step r) = sequence r.
Proof. unfold step. destruct (0 <? len r); reflexivity. Qed.

Lemma iter_step_sequence (n : nat) (r : EmptyRoutine Element) :
  sequence (Nat.iter n (@step Element) r) = sequence r.
Proof.
  induction n as [|n IH]; simpl; [reflexivity|]. now rewrite step_sequence.
Qed.

Lemma iter_step_index (n : nat) (r : EmptyRoutine Element) :
  0 < len r ->
  index (Nat.iter (S n) (@step Element) r)
  = (index r + Z.of_nat (S n)) mod len r.
Proof.
  intros Hlen. induction n as [|n IH].
  - simpl. unfold step. destruct (Z.ltb_spec 0 (len r)); [reflexivity | lia].
  - change (Nat.iter (S (S n)) (@step Element) r)
      with (step (Nat.iter (S n) (@step Element) r)).
    unfold step at 1.
    assert (Hsame : len (Nat.iter (S n) (@step Element) r) = len r)
      by (unfold len; now rewrite iter_step_sequence).
    rewrite Hsame. destruct (Z.ltb_spec 0 (len r)); [| lia].
    cbn [index]. rewrite IH, Z.add_mod_idemp_l by lia.
    f_equal. lia.
Qed.

Lemma list_getitem_in_range (l : list Element) (i : Z) :
  0 <= i < Z.of_nat (length l) ->
  exists e, list_getitem l i = Ok e /\ In e l.
Proof.
  intros Hi. unfold list_getitem.
  destruct (Z.ltb_spec i 0); [lia|].
  destruct (Z.ltb_spec i 0); [lia|].
  destruct (Z.leb_spec (Z.of_nat (length l)) i); [lia|]. simpl.
  destruct (nth_error l (Z.to_nat i)) as [e|] eqn:E.
  - exists e. split; [reflexivity|]. eapply nth_error_In; eauto.
  - apply nth_error_None in E. lia.
Qed.

(** X13. On a routine that is not empty, [step] walks through the sequence and
    wraps around: after [n >= 1] steps the index is the start index plus
    [n], modulo the length, whatever the start index was; so it lies
    inside the sequence and reading the element there gives an element of
    the sequence, never [None] and never an [IndexError]; the sequence
    itself is not changed. *)
Theorem step_walks_the_sequence_cyclically (r : EmptyRoutine Element) (n : nat) :
  0 < len r ->
  (0 < n)%nat ->
  let r' := Nat.iter n (@step Element) r in
  sequence r' = sequence r /\
  index r' = (index r + Z.of_nat n) mod len r /\
  0 <= index r' < len r /\
  exists e, getitem r' (index r') = Ok (Some e) /\ In e (sequence r).
Proof.
  intros Hlen Hn. destruct n as [|n]; [lia|]. intros r'.
  assert (Hseq : sequence r' = sequence r) by apply iter_step_sequence.
  assert (Hidx : index r' = (index r + Z.of_nat (S n)) mod len r)
    by now apply iter_step_index.
  assert (Hrange : 0 <= index r' < len r)
    by (rewrite Hidx; apply Z.mod_pos_bound; lia).
  repeat split; try assumption; try lia.
  unfold getitem. unfold len at 1. rewrite Hseq. fold (len r).
  destruct (Z.ltb_spec (index r') (len r)); [| lia].
  destruct (@list_getitem_in_range (sequence r) (index r')) as [e [He Hin]];
    [exact Hrange|].
  exists e. now rewrite He.
Qed.

(** X14. A full round brings a routine whose index lies inside the sequence
    back to where it was; and on the empty routine [step] does nothing
    and reading at index 0 gives [None]. *)
Theorem a_full_round_of_steps_returns_to_the_start (r : EmptyRoutine Element) :
  (0 <= index r < len r ->
   Nat.iter (length (sequence r)) (@step Element) r = r) /\
  step (new_EmptyRoutine Element) = new_EmptyRoutine Element /\
  getitem (new_EmptyRoutine Element) 0 = Ok None.
Proof.
  split; [| split; reflexivity].
  intros Hrange. destruct (length (sequence r)) as [|n] eqn:Hlen.
  - reflexivity.
  - assert (Hpos : 0 < len r) by (unfold len; lia).
    pose proof (iter_step_sequence (S n) r) as Hseq.
    pose proof (iter_step_index n r Hpos) as Hidx.
    destruct (Nat.iter (S n) (@step Element) r) as [i s]. simpl in *.
    destruct r as [i0 s0]. simpl in *. subst s. f_equal.
    rewrite Hidx. unfold len in *. cbn [sequence] in *. rewrite Hlen in *.
    change (Z.pos (Pos.of_succ_nat n)) with (Z.of_nat (S n)).
    replace (i0 + Z.of_nat (S n)) with (i0 + 1 * Z.of_nat (S n)) by lia.
    rewrite Z.mod_add by lia. apply Z.mod_small. lia.
Qed.

End Routine.

(** The theorem on four steps through a routine of three elements, which
    end at the second one. *)
Lemma step_walks_witness :
  0 < len Scenario.routine3 /\
  (0 < 4)%nat /\
  let r' := Nat.iter 4 (@step string) Scenario.routine3 in
  sequence r' = sequence Scenario.routine3 /\
  index r' = (index Scenario.routine3 + Z.of_nat 4) mod len Scenario.routine3 /\
  0 <= index r' < len Scenario.routine3 /\
  exists e, getitem r' (index r') = Ok (Some e) /\
            In e (sequence Scenario.routine3).
Proof.
  split; [reflexivity|]. split; [lia|].
  apply (@step_walks_the_sequence_cyclically string Scenario.routine3 4);
    [reflexivity | lia].
Defined.

End BotProps.

Module WindowProps.

Import WindowDetector.

Lemma first_hit_some (A : Type) (test : A -> WindowInfo -> bool) (outer : list A)
    (windows : list WindowInfo) (w : WindowInfo) :
  first_hit test outer windows = Some w ->
  In w windows /\ exists a, In a outer /\ test a w = true.
Proof.
  induction outer as [|a rest IH]; simpl; [discriminate|].
  destruct (find (test a) windows) as [w'|] eqn:E.
  - intros [= ->]. apply find_some in E. destruct E as [Hin Ht].
    split; [assumption|]. exists a. auto.
  - intros Hrest. destruct (IH Hrest) as [Hin [a' [Ha' Ht]]].
    split; [assumption|]. exists a'. auto.
Qed.

Lemma first_hit_none (A : Type) (test : A -> WindowInfo -> bool) (outer : list A)
    (windows : list WindowInfo) :
  first_hit test outer windows = None <->
  (forall a w, In a outer -> In w windows -> test a w = false).
Proof.
  induction outer as [|a rest IH]; simpl.
  - split; [intros _ a w [] | reflexivity].
  - destruct (find (test a) windows) as [w'|] eqn:E.
    + split; [discriminate|]. intros Hall. apply find_some in E.
      destruct E as [Hin Ht]. rewrite (Hall a w' (or_introl eq_refl) Hin) in Ht.
      discriminate.
    + rewrite IH. split.
      * intros Hall a' w [<- | Ha'] Hw; [| now apply Hall].
        eapply find_none; eauto.
      * intros Hall a' w Ha' Hw. apply Hall; [now right | assumption].
Qed.

Lemma max_by_spec (A : Type) (key : A -> Q) (best : A) (l : list A) :
  In (max_by key best l) (best :: l) /\
  (forall a, In a (best :: l) -> (key a <= key (max_by key best l))%Q).
Proof.
  revert best. induction l as [|a rest IH]; intros best; simpl.
  - split; [now left|]. intros a [<- | []]. apply Qle_refl.
  - destruct (Qle_bool (key a) (key best)) eqn:E.
    + destruct (IH best) as [Hin Hmax]. split.
      * destruct Hin as [<- | Hin]; [now left | right; now right].
      * intros b [<- | [<- | Hb]].
        -- apply Hmax. now left.
        -- apply Qle_bool_iff in E. eapply Qle_trans; [exact E|].
           apply Hmax. now left.
        -- apply Hmax. now right.
    + assert (Hlt : (key best <= key a)%Q).
      { apply Qlt_le_weak. apply Qnot_le_lt. intros Hle.
        apply Qle_bool_iff in Hle. congruence. }
      destruct (IH a) as [Hin Hmax]. split.
      * right. exact Hin.
      * intros b [<- | Hb]; [| now apply Hmax].
        eapply Qle_trans; [exact Hlt|]. apply Hmax. now left.
Qed.

Lemma game_like_spec (w : WindowInfo) :
  game_like w = true <->
  (800 < width w)%Q /\ (600 < height w)%Q /\
  (width w < 2000)%Q /\ (height w < 1500)%Q.
Proof.
  unfold game_like. rewrite !andb_true_iff, !negb_true_iff.
  assert (Hnot : forall a b, Qle_bool a b = false <-> (b < a)%Q).
  { intros a b. split.
    - intros Hf. apply Qnot_le_lt. intros Hle. apply Qle_bool_iff in Hle.
      congruence.
    - intros Hlt. destruct (Qle_bool a b) eqn:E; [| reflexivity].
      apply Qle_bool_iff in E. exfalso. exact (Qlt_not_le _ _ Hlt E). }
  rewrite !Hnot. tauto.
Qed.

Section Find.

Variable lower : string -> string.
Variable re_search : string -> string -> bool.

(** X15. [find_game_window] returns a window of the list or nothing, and
    remembers exactly what it returns. A window whose name contains a
    target name (ignoring case) wins over everything else: if there is
    one, the window returned is one. Nothing is returned only when no
    name, owner or pattern matches and no window has the size of a game
    window. When the size fallback decides, the window returned has a
    width between 800 and 2000 and a height between 600 and 1500, and no
    window of that size has a larger area. *)
Theorem find_game_window_prefers_names_and_falls_back_on_size
    (self : WindowDetector) (windows : list WindowInfo) :
  let found := fst (find_game_window lower re_search self windows) in
  let self' := snd (find_game_window lower re_search self windows) in
  target_games self' = target_games self /\
  (forall w, found = Some w ->
     In w windows /\ last_detected_window self' = Some w) /\
  (found = None ->
   last_detected_window self' = last_detected_window self /\
   forall w, In w windows ->
     game_like w = false /\
     forall target, In target (target_games self) ->
       name_matches lower target w = false /\
       owner_matches lower target w = false) /\
  ((exists w target, In w windows /\ In target (target_games self) /\
                     name_matches lower target w = true) ->
   exists w target, found = Some w /\ In target (target_games self) /\
                    name_matches lower target w = true) /\
  ((forall w, In w windows ->
      (forall target, In target (target_games self) ->
         name_matches lower target w = false /\
         owner_matches lower target w = false) /\
      (forall pattern, In pattern game_patterns ->
         pattern_matches lower re_search pattern w = false)) ->
   forall w, found = Some w ->
     (800 < width w)%Q /\ (600 < height w)%Q /\
     (width w < 2000)%Q /\ (height w < 1500)%Q /\
     forall w', In w' windows -> game_like w' = true ->
       (window_area w' <= window_area w)%Q).
Proof.
  intros found self'. unfold found, self', find_game_window.
  assert (Hin : forall w, search lower re_search self windows = Some w ->
            In w windows).
  { unfold search. intros w.
    destruct (first_hit (name_matches lower) _ _) eqn:E1.
    { intros [= <-]. now apply first_hit_some in E1. }
    destruct (first_hit (owner_matches lower) _ _) eqn:E2.
    { intros [= <-]. now apply first_hit_some in E2. }
    destruct (first_hit (pattern_matches lower re_search) _ _) eqn:E3.
    { intros [= <-]. now apply first_hit_some in E3. }
    destruct (filter game_like windows) as [|g rest] eqn:E4; [discriminate|].
    intros [= <-]. destruct (max_by_spec window_area g rest) as [Hmem _].
    rewrite <- E4 in Hmem. apply filter_In in Hmem. tauto. }
  split; [destruct (search lower re_search self windows); reflexivity|].
  split; [| split; [| split]].
  - intros w. destruct (search lower re_search self windows) as [w0|] eqn:E;
      simpl; [| discriminate].
    intros [= <-]. split; [now apply Hin | reflexivity].
  - destruct (search lower re_search self windows) as [w0|] eqn:E; simpl;
      [discriminate|].
    intros _. split; [reflexivity|]. intros w Hw. unfold search in E.
    destruct (first_hit (name_matches lower) _ _) eqn:E1; [discriminate|].
    destruct (first_hit (owner_matches lower) _ _) eqn:E2; [discriminate|].
    destruct (first_hit (pattern_matches lower re_search) _ _) eqn:E3;
      [discriminate|].
    destruct (filter game_like windows) as [|g rest] eqn:E4; [| discriminate].
    split.
    + destruct (game_like w) eqn:Eg; [| reflexivity].
      assert (Hmem : In w (filter game_like windows))
        by (apply filter_In; auto).
      rewrite E4 in Hmem. contradiction.
    + intros target Ht. split.
      * exact (proj1 (first_hit_none _ _ _) E1 target w Ht Hw).
      * exact (proj1 (first_hit_none _ _ _) E2 target w Ht Hw).
  - intros [w [target [Hw [Ht Hm]]]]. unfold search.
    destruct (first_hit (name_matches lower) _ _) as [w0|] eqn:E1.
    + apply first_hit_some in E1. destruct E1 as [_ [t0 [Ht0 Hm0]]].
      exists w0, t0. auto.
    + rewrite (proj1 (first_hit_none _ _ _) E1 target w Ht Hw) in Hm.
      discriminate.
  - intros Hnone w.
    assert (E1 : first_hit (name_matches lower) (target_games self) windows = None).
    { apply first_hit_none. intros t w0 Ht Hw0.
      now destruct (Hnone w0 Hw0) as [Hn _]; destruct (Hn t Ht). }
    assert (E2 : first_hit (owner_matches lower) (target_games self) windows = None).
    { apply first_hit_none. intros t w0 Ht Hw0.
      now destruct (Hnone w0 Hw0) as [Hn _]; destruct (Hn t Ht). }
    assert (E3 : first_hit (pattern_matches lower re_search) game_patterns windows
                 = None).
    { apply first_hit_none. intros pat w0 Hp Hw0.
      destruct (Hnone w0 Hw0) as [_ Hp0]. now apply Hp0. }
    unfold search. rewrite E1, E2, E3.
    destruct (filter game_like windows) as [|g rest] eqn:E4; simpl;
      [discriminate|].
    intros [= <-]. destruct (max_by_spec window_area g rest) as [Hmem Hmax].
    rewrite <- E4 in Hmem, Hmax.
    assert (Hlike : game_like (max_by window_area g rest) = true)
      by (apply filter_In in Hmem; tauto).
    apply game_like_spec in Hlike. destruct Hlike as [H1 [H2 [H3 H4]]].
    repeat split; try assumption.
    intros w' Hw' Hg. apply Hmax. apply filter_In. auto.
Qed.

(** X16. After [find_game_window] found a window, [get_window_bounds()] without
    an argument gives the bounds of that window, and
    [find_and_focus_game_window] returns what [find_game_window] returns
    whether or not the window could be brought to the front. A detector
    that never found a window has no bounds to give. *)
Theorem bounds_follow_the_last_window_found
    (self : WindowDetector) (windows : list WindowInfo) (focused : WindowInfo -> bool) :
  find_and_focus_game_window lower re_search self windows focused
  = find_game_window lower re_search self windows /\
  (forall w, fst (find_game_window lower re_search self windows) = Some w ->
     get_window_bounds (snd (find_game_window lower re_search self windows)) None
     = Some {| top := y w; left := x w;
               bounds_width := width w; bounds_height := height w |}) /\
  get_window_bounds new_WindowDetector None = None /\
  (fst (find_game_window lower re_search self windows) = None ->
   get_window_bounds (snd (find_game_window lower re_search self windows)) None
   = get_window_bounds self None).
Proof.
  split; [| split; [| split]].
  - unfold find_and_focus_game_window.
    destruct (find_game_window lower re_search self windows) as [[w|] self'];
      [destruct (focused w) |]; reflexivity.
  - intros w. unfold find_game_window.
    destruct (search lower re_search self windows) as [w0|]; simpl;
      [| discriminate].
    now intros [= ->].
  - reflexivity.
  - unfold find_game_window.
    destruct (search lower re_search self windows) as [w0|]; simpl;
      [discriminate | reflexivity].
Qed.

End Find.

(** The theorem on a desktop without a game, where the size fallback
    settles on the larger of the two windows of the size of a game
    window. *)
Lemma find_game_window_witness :
  fst (find_game_window Scenario.same_case Scenario.never_matches
         new_WindowDetector Scenario.desktop) = Some Scenario.safari /\
  (800 < width Scenario.safari)%Q /\ (600 < height Scenario.safari)%Q /\
  (width Scenario.safari < 2000)%Q /\ (height Scenario.safari < 1500)%Q /\
  forall w', In w' Scenario.desktop -> game_like w' = true ->
    (window_area w' <= window_area Scenario.safari)%Q.
Proof.
  split; [reflexivity|].
  destruct (find_game_window_prefers_names_and_falls_back_on_size
              Scenario.same_case Scenario.never_matches new_WindowDetector
              Scenario.desktop) as [_ [_ [_ [_ Hfallback]]]].
  apply Hfallback; [| reflexivity].
  intros w Hw. split.
  - intros target Ht.
    destruct Hw as [<- | [<- | [<- | []]]];
      destruct Ht as [<- | [<- | [<- | [<- | []]]]]; split; reflexivity.
  - intros pattern _. reflexivity.
Defined.

End WindowProps.


(** ** Keys and mouse *)

Module VKeysProps.

Import Matcher.
Import VKeys.



Lemma filter_snoc (A : Type) (f : A -> bool) (l : list A) (a : A) :
  filter f (l ++ [a]) = filter f l ++ (if f a then [a] else []).
Proof. rewrite filter_app. reflexivity. Qed.

Section Functions.

Variable lower : string -> string.
Variable run_if_enabled : (Trace -> Trace) -> Trace -> Trace.
Variable random : Trace -> Q.







Lemma key_up_inputs (key : string) (t : Trace) :
  filter is_input (key_up lower key t)
  = filter is_input t
    ++ match dict_get KEY_MAP (lower key) with
       | Some k => [controller_release k]
       | None => []
       end.
Proof.
  unfold key_up, dict_mem.
  destruct (dict_get KEY_MAP (lower key)) as [k0|]; simpl;
    rewrite filter_snoc; reflexivity.
Qed.

Lemma key_down_inputs (key : string) (t : Trace) :
  runs_or_skips run_if_enabled ->
  dict_get KEY_MAP (lower key) = None ->
  filter is_input (key_down lower run_if_enabled key t) = filter is_input t.
Proof.
  intros Hdec Hk. unfold key_down.
  destruct (Hdec (key_down_body lower key) t) as [-> | ->]; [| reflexivity].
  unfold key_down_body, dict_mem. rewrite Hk. simpl.
  rewrite filter_snoc. simpl. apply app_nil_r.
Qed.

Lemma press_once_inputs (key : string) (down_time up_time : Q) (t : Trace) :
  runs_or_skips run_if_enabled ->
  dict_get KEY_MAP (lower key) = None ->
  filter is_input (press_once lower run_if_enabled random key down_time up_time t)
  = filter is_input t.
Proof.
  intros Hdec Hk. unfold press_once.
  unfold jitter.
  rewrite filter_snoc. cbn [is_input]. rewrite app_nil_r.
  rewrite key_up_inputs, Hk, app_nil_r.
  rewrite filter_snoc. cbn [is_input]. rewrite app_nil_r.
  now apply key_down_inputs.
Qed.

(** X18. A key name that is not in [KEY_MAP], or a mouse button other than
    left and right, reaches neither controller: [key_down], [key_up],
    [press] and [click] only print and wait. A valid name given to
    [key_up] is released, whether the bot is enabled or not. *)
Theorem invalid_input_reaches_no_controller (key : string) (n : Z)
    (down_time up_time : Q) (position : Z * Z) (button : string) (t : Trace) :
  runs_or_skips run_if_enabled ->
  (dict_get KEY_MAP (lower key) = None ->
   filter is_input (key_down lower run_if_enabled key t) = filter is_input t /\
   filter is_input (key_up lower key t) = filter is_input t /\
   filter is_input (press lower run_if_enabled random key n down_time up_time t)
   = filter is_input t) /\
  (button <> "left"%string -> button <> "right"%string ->
   filter is_input (click run_if_enabled position button t) = filter is_input t) /\
  (forall k, dict_get KEY_MAP (lower key) = Some k ->
     filter is_input (key_up lower key t)
     = filter is_input t ++ [controller_release k]).
Proof.
  intros Hdec. split; [| split].
  - intros Hk. split; [| split].
    + now apply key_down_inputs.
    + rewrite key_up_inputs, Hk. apply app_nil_r.
    + unfold press.
      destruct (Hdec (press_body lower run_if_enabled random key n
                        down_time up_time) t) as [-> | ->]; [| reflexivity].
      unfold press_body. induction (Z.to_nat n) as [|m IH]; simpl;
        [reflexivity|].
      rewrite press_once_inputs by assumption. exact IH.
  - intros Hl Hr. unfold click.
    destruct (Hdec (click_body position button) t) as [-> | ->];
      [| reflexivity].
    unfold click_body. simpl.
    destruct (String.eqb_spec button "left"); [contradiction|].
    destruct (String.eqb_spec button "right"); [contradiction|]. simpl.
    rewrite filter_snoc. simpl. apply app_nil_r.
  - intros k Hk. now rewrite key_up_inputs, Hk.
Qed.

End Functions.


(** The theorem on the key name "insert", which macOS does not have, and
    the mouse button "middle". *)
Lemma invalid_input_witness :
  runs_or_skips Scenario.enabled_at_first /\
  dict_get KEY_MAP (Scenario.same_case "insert") = None /\
  filter is_input
    (press Scenario.same_case Scenario.enabled_at_first Scenario.half
       "insert" 3 (5 # 100) (1 # 10) []) = [] /\
  filter is_input (click Scenario.enabled_at_first (10, 20) "middle" []) = [].
Proof.
  assert (Hdec : runs_or_skips Scenario.enabled_at_first)
    by (intros f [|e t]; [left | right]; reflexivity).
  split; [exact Hdec|]. split; [reflexivity|].
  destruct (@invalid_input_reaches_no_controller Scenario.same_case
              Scenario.enabled_at_first Scenario.half "insert" 3
              (5 # 100) (1 # 10) (10, 20) "middle" [] Hdec)
    as [Hkey [Hbutton _]].
  split.
  - apply Hkey. reflexivity.
  - apply Hbutton; discriminate.
Defined.

End VKeysProps.


(** ** Selecting a region in the template manager *)

Module TemplateManagerProps.

Import Py.
Import Capture.
Import CaptureProps.
Import TemplateManager.

Lemma slice_length (A : Type) (l : list A) (lo hi : Z) :
  0 <= lo -> lo <= hi -> hi <= Z.of_nat (length l) ->
  Z.of_nat (length (slice l lo hi)) = hi - lo.
Proof.
  intros Hlo Hhi Hlen. unfold slice, slice_index.
  destruct (Z.ltb_spec lo 0); [lia|].
  destruct (Z.ltb_spec hi 0); [lia|].
  rewrite length_firstn, length_skipn. lia.
Qed.

Lemma extract_shape (image : Frame) (x y width height : Z) :
  rectangular image ->
  0 <= x -> 0 <= y -> 0 < width -> 0 < height ->
  x + width <= shape1 image -> y + height <= shape0 image ->
  shape0 (extract image (x, y, width, height)) = height /\
  shape1 (extract image (x, y, width, height)) = width.
Proof.
  intros Hrect Hx Hy Hw Hh Hxw Hyh. unfold extract, crop, shape0 in *.
  cbn [fst snd]. split.
  - rewrite length_map, slice_length; lia.
  - unfold shape1 at 1.
    destruct (slice image y (y + height)) as [|row rows] eqn:E.
    + pose proof (@slice_length _ image y (y + height)) as Hlen.
      rewrite E in Hlen. simpl in Hlen. lia.
    + simpl. assert (Hin : In row image).
      { apply (@slice_subset _ image y (y + height)). rewrite E. now left. }
      unfold rectangular in Hrect. rewrite Forall_forall in Hrect.
      specialize (Hrect row Hin). rewrite slice_length; lia.
Qed.

Section Viewer.

Variable scaled : Z -> Z -> Z -> Z.

Lemma widget_to_image_cases (v : ImageViewer) (widget_x widget_y : Z) :
  (widget_to_image scaled v widget_x widget_y = Ok None /\
   (original_image v = None \/
    match displayed_pixmap v with
    | None => True
    | Some (disp_w, disp_h) =>
        let display_x := widget_x - (fst (size v) - disp_w) / 2 in
        let display_y := widget_y - (snd (size v) - disp_h) / 2 in
        display_x < 0 \/ display_y < 0 \/
        disp_w <= display_x \/ disp_h <= display_y
    end)) \/
  (exists image disp_w disp_h image_x image_y,
     widget_to_image scaled v widget_x widget_y = Ok (Some (image_x, image_y)) /\
     original_image v = Some image /\
     displayed_pixmap v = Some (disp_w, disp_h) /\
     0 <= widget_x - (fst (size v) - disp_w) / 2 < disp_w /\
     0 <= widget_y - (snd (size v) - disp_h) / 2 < disp_h /\
     0 <= image_x <= Z.max 0 (shape1 image - 1) /\
     0 <= image_y <= Z.max 0 (shape0 image - 1)).
Proof.
  unfold widget_to_image.
  destruct (original_image v) as [image|]; [| left; auto].
  destruct (displayed_pixmap v) as [[disp_w disp_h]|]; [| left; auto].
  cbv zeta.
  set (display_x := widget_x - (fst (size v) - disp_w) / 2).
  set (display_y := widget_y - (snd (size v) - disp_h) / 2).
  destruct (Z.ltb_spec display_x 0); simpl; [left; split; [reflexivity | right; lia] |].
  destruct (Z.ltb_spec display_y 0); simpl; [left; split; [reflexivity | right; lia] |].
  destruct (Z.leb_spec disp_w display_x); simpl; [left; split; [reflexivity | right; lia] |].
  destruct (Z.leb_spec disp_h display_y); simpl; [left; split; [reflexivity | right; lia] |].
  destruct (Z.eqb_spec disp_w 0); [lia|].
  destruct (Z.eqb_spec disp_h 0); [lia|]. simpl.
  right. eexists image, disp_w, disp_h, _, _.
  split; [reflexivity|]. repeat split; lia.
Qed.

(** X19. [widget_to_image] never divides by zero. It gives no point exactly
    when the viewer has no image or no pixmap or the widget point lies
    outside the displayed pixmap; a point it gives has coordinates that
    are not negative and, for an image that is not empty, lie inside the
    image, whatever the rounding of the scaling. *)
Theorem widget_to_image_stays_inside_the_image (v : ImageViewer)
    (widget_x widget_y : Z) :
  widget_to_image scaled v widget_x widget_y <> Raise /\
  (forall image_x image_y,
     widget_to_image scaled v widget_x widget_y = Ok (Some (image_x, image_y)) ->
     exists image,
       original_image v = Some image /\
       0 <= image_x <= Z.max 0 (shape1 image - 1) /\
       0 <= image_y <= Z.max 0 (shape0 image - 1) /\
       (0 < shape1 image -> image_x < shape1 image) /\
       (0 < shape0 image -> image_y < shape0 image)) /\
  (widget_to_image scaled v widget_x widget_y = Ok None <->
   original_image v = None \/
   match displayed_pixmap v with
   | None => True
   | Some (disp_w, disp_h) =>
       let display_x := widget_x - (fst (size v) - disp_w) / 2 in
       let display_y := widget_y - (snd (size v) - disp_h) / 2 in
       display_x < 0 \/ display_y < 0 \/
       disp_w <= display_x \/ disp_h <= display_y
   end).
Proof.
  destruct (widget_to_image_cases v widget_x widget_y)
    as [[Hnone Hwhy]
       | [image [disp_w [disp_h [ix [iy [Hsome [Himg [Hpix [Hx [Hy [Hix Hiy]]]]]]]]]]]].
  - rewrite Hnone. split; [discriminate|]. split; [discriminate|]. tauto.
  - rewrite Hsome. split; [discriminate|]. split.
    + intros image_x image_y [= <- <-]. exists image. repeat split; try assumption; lia.
    + split; [discriminate|]. rewrite Himg, Hpix. cbv zeta.
      intros [Hn | Hout]; [discriminate | lia].
Qed.

Lemma mouseReleaseEvent_cases (button : MouseButton) (event_x event_y : Z)
    (v : ImageViewer) :
  snd (mouseReleaseEvent scaled button event_x event_y v) = Ok None \/
  exists image p1 p2 roi,
    original_image v = Some image /\
    snd (mouseReleaseEvent scaled button event_x event_y v) = Ok (Some roi) /\
    selection p1 p2 = Some roi /\
    0 <= fst p1 <= Z.max 0 (shape1 image - 1) /\
    0 <= snd p1 <= Z.max 0 (shape0 image - 1) /\
    0 <= fst p2 <= Z.max 0 (shape1 image - 1) /\
    0 <= snd p2 <= Z.max 0 (shape0 image - 1).
Proof.
  unfold mouseReleaseEvent.
  destruct (is_left button && dragging v); [| left; reflexivity].
  cbn [point1]. destruct (point1 v) as [[x1 y1]|]; [| left; reflexivity].
  set (v' := {| original_image := original_image v;
                displayed_pixmap := displayed_pixmap v; size := size v;
                point1 := Some (x1, y1); point2 := Some (event_x, event_y);
                dragging := false |}).
  destruct (widget_to_image_cases v' x1 y1)
    as [[H1 _] | [image [dw [dh [ix1 [iy1 [H1 [Himg [_ [_ [_ [Hx1 Hy1]]]]]]]]]]]];
    rewrite H1.
  - destruct (widget_to_image_cases v' event_x event_y)
      as [[H2 _] | [image2 [dw2 [dh2 [ix2 [iy2 [H2 _]]]]]]]; rewrite H2;
      left; reflexivity.
  - destruct (widget_to_image_cases v' event_x event_y)
      as [[H2 _] | [image2 [dw2 [dh2 [ix2 [iy2 [H2 [Himg2 [_ [_ [_ [Hx2 Hy2]]]]]]]]]]]];
      rewrite H2; [left; reflexivity|].
    cbn [snd]. destruct (selection (ix1, iy1) (ix2, iy2)) as [roi|] eqn:Hsel;
      [| left; reflexivity].
    right. exists image, (ix1, iy1), (ix2, iy2), roi.
    rewrite Himg in Himg2. injection Himg2 as <-.
    cbn [fst snd]. unfold v' in Himg. cbn [original_image] in Himg.
    repeat split; auto; lia.
Qed.

End Viewer.

Lemma autoname_not_empty (template_type rest : string) :
  String.eqb (template_type ++ "_" ++ rest) EmptyString = false.
Proof. destruct template_type; reflexivity. Qed.

Section Pipeline.

Variable scaled : Z -> Z -> Z -> Z.
Variable strip : string -> string.

(** X20. Releasing the mouse never fails, and every region the viewer emits
    for the screenshot of the dialog is accepted: it is more than 10 wide
    and high, starts at a column and row that are not negative and ends
    before the last column and row of the screenshot, so the bounds check
    of [on_roi_selected] passes, the region is stored, and
    [create_template] then calls [save_template] with an image of exactly
    the selected width and height. *)
Theorem emitted_region_is_cut_out_of_the_screenshot
    (button : MouseButton) (event_x event_y : Z) (v : ImageViewer)
    (d : Dialog) (template_type : string) (timestamp : Z) (confidence : Q)
    (x y width height : Z) :
  original_image v = Some (screenshot d) ->
  rectangular (screenshot d) ->
  snd (mouseReleaseEvent scaled button event_x event_y v)
  = Ok (Some (x, y, width, height)) ->
  let d' := on_roi_selected (x, y, width, height) template_type timestamp d in
  10 < width /\ 10 < height /\ 0 <= x /\ 0 <= y /\
  x + width < shape1 (screenshot d) /\ y + height < shape0 (screenshot d) /\
  selected_roi d' = Some (x, y, width, height) /\
  create_button d' = true /\ test_button d' = true /\
  exists roi_image name,
    create_template strip template_type confidence d'
    = Save roi_image name template_type confidence /\
    roi_image = extract (screenshot d) (x, y, width, height) /\
    shape0 roi_image = height /\ shape1 roi_image = width.
Proof.
  intros Himg Hrect Hrel d'.
  destruct (mouseReleaseEvent_cases scaled button event_x event_y v)
    as [Hnone | [image [p1 [p2 [roi [Himg' [Hsome [Hsel [Hx1 [Hy1 [Hx2 Hy2]]]]]]]]]]];
    [rewrite Hnone in Hrel; discriminate|].
  rewrite Hsome in Hrel. injection Hrel as ->.
  rewrite Himg in Himg'. injection Himg' as <-.
  unfold selection in Hsel.
  destruct (Z.ltb_spec 10 (Z.abs (fst p2 - fst p1))) as [Hw|]; simpl in Hsel;
    [| discriminate].
  destruct (Z.ltb_spec 10 (Z.abs (snd p2 - snd p1))) as [Hh|]; simpl in Hsel;
    [| discriminate].
  injection Hsel as Ex Ey Ew Eh.
  assert (Hb : 10 < width /\ 10 < height /\ 0 <= x /\ 0 <= y /\
               x + width < shape1 (screenshot d) /\
               y + height < shape0 (screenshot d)) by lia.
  destruct Hb as [Hb1 [Hb2 [Hb3 [Hb4 [Hb5 Hb6]]]]].
  assert (Hin : out_of_bounds (screenshot d) (x, y, width, height) = false).
  { unfold out_of_bounds.
    destruct (Z.ltb_spec x 0); [lia|]. destruct (Z.ltb_spec y 0); [lia|].
    destruct (Z.ltb_spec (shape1 (screenshot d)) (x + width)); [lia|].
    destruct (Z.ltb_spec (shape0 (screenshot d)) (y + height)); [lia|].
    reflexivity. }
  destruct (@extract_shape (screenshot d) x y width height) as [Hs0 Hs1];
    try assumption; try lia.
  assert (Hd' : d' = {| screenshot := screenshot d;
       selected_roi := Some (x, y, width, height);
       name_input := if String.eqb (name_input d) EmptyString
                     then template_type ++ "_" ++ Matcher.str timestamp
                     else name_input d;
       roi_label := "Selected region: " ++ Matcher.str width ++ "x"
                    ++ Matcher.str height ++ " at (" ++ Matcher.str x
                    ++ ", " ++ Matcher.str y ++ ")";
       create_button := true; test_button := true |}).
  { unfold d', on_roi_selected. rewrite Hin. reflexivity. }
  repeat split; try assumption; try (rewrite Hd'; reflexivity).
  exists (extract (screenshot d) (x, y, width, height)).
  exists (strip (name_input d')).
  split; [| repeat split; assumption].
  assert (Hroi : selected_roi d' = Some (x, y, width, height))
    by (rewrite Hd'; reflexivity).
  assert (Hshot : screenshot d' = screenshot d) by (rewrite Hd'; reflexivity).
  assert (Hname : String.eqb (name_input d') EmptyString = false).
  { rewrite Hd'. cbn [name_input].
    destruct (String.eqb (name_input d) EmptyString) eqn:E;
      [apply autoname_not_empty | exact E]. }
  unfold create_template. rewrite Hroi, Hname, Hshot, Hin, Hs0, Hs1.
  destruct (Z.eqb_spec height 0); [lia|].
  destruct (Z.eqb_spec width 0); [lia|]. reflexivity.
Qed.

End Pipeline.

(** The theorem on a drag from (7, 7) to (30, 32) over the black frame
    shown at half its size: the region (4, 4, 46, 50) is emitted and cut
    out. *)
Lemma emitted_region_witness :
  let d := new_Dialog Scenario.frame60 in
  original_image Scenario.viewer60 = Some (screenshot d) /\
  rectangular (screenshot d) /\
  snd (mouseReleaseEvent Scenario.exact_scaled LeftButton 30 32
         Scenario.viewer60) = Ok (Some (4, 4, 46, 50)) /\
  exists roi_image name,
    create_template Scenario.same_case "monster" (7 # 10)
      (on_roi_selected (4, 4, 46, 50) "monster" 1700000000 d)
    = Save roi_image name "monster" (7 # 10) /\
    shape0 roi_image = 50 /\ shape1 roi_image = 46.
Proof.
  intros d.
  assert (Hrect : rectangular (screenshot d)).
  { unfold rectangular. apply Forall_forall. intros row Hin.
    apply repeat_spec in Hin. subst row. reflexivity. }
  split; [reflexivity|]. split; [exact Hrect|]. split; [reflexivity|].
  destruct (@emitted_region_is_cut_out_of_the_screenshot Scenario.exact_scaled
              Scenario.same_case LeftButton 30 32 Scenario.viewer60 d
              "monster" 1700000000 (7 # 10) 4 4 46 50 eq_refl Hrect eq_refl)
    as [_ [_ [_ [_ [_ [_ [_ [_ [_ [roi_image [name [Hsave [_ [H0 H1]]]]]]]]]]]]]].
  exists roi_image, name. auto.
Defined.

End TemplateManagerProps.


(** ** The list box of the main window *)

Module MainGuiProps.

Import Py.
Import Matcher.
Import MainGui.

Lemma startswith_app (s sep : string) :
  startswith s sep = true <-> exists r, s = (sep ++ r)%string.
Proof.
  revert s. induction sep as [|a sep IH]; intros s; simpl.
  - split; [intros _; now exists s | reflexivity].
  - destruct s as [|b s]; [split; [discriminate | intros [r Hr]; discriminate]|].
    rewrite andb_true_iff, IH. split.
    + intros [Hab [r Hr]]. apply Ascii.eqb_eq in Hab. subst. now exists r.
    + intros [r Hr]. injection Hr as -> ->. split; [apply Ascii.eqb_refl|].
      now exists r.
Qed.

Lemma split_head_is_prefix (sep s : string) :
  exists r, s = (split_head sep s ++ r)%string.
Proof.
  induction s as [|c s [r IH]].
  - exists EmptyString. simpl. destruct (startswith "" sep); reflexivity.
  - cbn [split_head]. destruct (startswith (String c s) sep).
    + now exists (String c s).
    + exists r. simpl. now rewrite <- IH.
Qed.

Lemma split_head_free (sep s : string) :
  sep <> EmptyString -> occurs sep (split_head sep s) = false.
Proof.
  intros Hsep. induction s as [|c s IH].
  - simpl. destruct sep; [contradiction | reflexivity].
  - cbn [split_head].
    destruct (startswith (String c s) sep) eqn:Hp.
    + simpl. destruct sep; [contradiction | reflexivity].
    + cbn [occurs]. rewrite IH.
      destruct (startswith (String c (split_head sep s)) sep) eqn:Hq;
        [| reflexivity].
      apply startswith_app in Hq. destruct Hq as [r Hr].
      destruct (split_head_is_prefix sep s) as [r' Hr'].
      assert (Hfull : startswith (String c s) sep = true).
      { apply startswith_app. exists (r ++ r')%string.
        rewrite Hr' at 1.
        change (String c (split_head sep s ++ r'))
          with (String c (split_head sep s) ++ r')%string.
        rewrite Hr. clear. induction sep as [|a sep IHs]; simpl;
          [reflexivity | now rewrite IHs]. }
      congruence.
Qed.

Lemma split_head_before_separator (name rest : string) :
  occurs " (" name = false ->
  split_head " (" (name ++ " (" ++ rest) = name.
Proof.
  induction name as [|c name IH]; intros Hfree.
  - reflexivity.
  - cbn [occurs] in Hfree.
    destruct (startswith (String c name) " (") eqn:Hp; [discriminate|].
    change ((String c name ++ " (" ++ rest)%string)
      with (String c (name ++ " (" ++ rest)).
    cbn [split_head].
    assert (Hq : startswith (String c (name ++ " (" ++ rest)) " (" = false).
    { cbn [startswith] in Hp |- *.
      destruct (Ascii.eqb " " c); [| reflexivity].
      destruct name as [|d name]; [reflexivity|].
      cbn [startswith append andb] in Hp |- *.
      destruct (Ascii.eqb "(" d); [discriminate Hp | reflexivity]. }
    rewrite Hq. f_equal. apply IH. exact Hfree.
Qed.

Section Listbox.

Variable format_2f : Q -> string.

(** X21. The name [delete_template] takes from a line of the list box is the
    name shown in that line exactly when that name does not contain the
    separator [" ("] itself; for a name that contains it, a different
    text is taken and another template, or none, is deleted. *)
Theorem selected_name_is_the_listed_name (template : Listed)
    (line name : string) :
  display_text format_2f template = Ok line ->
  md_name (listed_metadata template) = Some name ->
  (selected_name line = name <-> occurs " (" name = false).
Proof.
  unfold display_text. intros Hline Hname. rewrite Hname in Hline.
  destruct (md_type (listed_metadata template)) as [ty|]; [| discriminate].
  injection Hline as <-. unfold selected_name. split.
  - intros Heq. rewrite <- Heq at 1. apply split_head_free. discriminate.
  - apply split_head_before_separator.
Qed.

End Listbox.

(** The theorem on the line of the template "slime". *)
Lemma selected_name_witness :
  display_text Scenario.two_decimals Scenario.slime_listed
  = Ok "slime (monster) - 2x2 - 0.70"%string /\
  md_name (listed_metadata Scenario.slime_listed) = Some "slime"%string /\
  occurs " (" "slime" = false /\
  selected_name "slime (monster) - 2x2 - 0.70" = "slime"%string.
Proof.
  split; [reflexivity|]. split; [reflexivity|]. split; [reflexivity|].
  apply (@selected_name_is_the_listed_name Scenario.two_decimals
           Scenario.slime_listed "slime (monster) - 2x2 - 0.70" "slime");
    reflexivity.
Defined.

End MainGuiProps.
